(** * Rentarium billing ledger: a shallow embedding of the payment storage

    The development embeds the two payment-storage scripts of the
    repository:

    - [EnhancedPaymentStorage] (js/payment-storage-test.js, v3): utility
      rates, bills, rent statuses and payments kept in [localStorage];
    - [PaymentStorage] (js/full-payment-function.js, v2): the
      lease-anchored payment period and the duplicate-payment check,
      and, from the unit management code of the same file, the two
      functions that escape text ([UnitManagement]).

    Modelling conventions.

    - [localStorage] is a record with one field per key; every accessor
      of the scripts parses the JSON text afresh, so a read yields a
      private copy and only [setItem] changes the store.  Functions that
      write return the new store next to their result.
    - A JavaScript number holding money or a quantity is a rational
      ([Q]); [===] and the comparisons on numbers are [Qeq] and the
      order of [Q]. A rational stands for the binary64 number nearest
      to it, which is what the scripts get when they parse its decimal
      text.  The products and sums of [generateBill] and of
      [getPaymentStats] are the binary64 operations ([Js.mul],
      [Js.add]), as IEEE 754 defines them.  The running sums of the
      ledger ([updateBillStatus], [updateRentStatus]) add amounts that
      were rounded to cents and round the sum to cents again; they are
      added as rationals, and the binary64 error of such a sum is
      outside the model.  [NaN] and the infinities are outside the
      model.
    - [x.toFixed(2)] followed by [parseFloat] is [round2]: the nearest
      multiple of 1/100, a tie going to the larger magnitude, as
      ECMAScript defines [Number.prototype.toFixed].
    - The clock, the random generator and the time zone are read from an
      explicit environment.

    The file first gives the embedding ([Js], [EnhancedPaymentStorage],
    [JsDate], [PaymentStorage], [UnitManagement]), then the vocabulary
    of the statements ([Ledger], [Period], [Reach]) with some concrete
    stores ([Example]), and then the properties. *)

From Stdlib Require Import ZArith QArith Qround Qabs Qminmax List String Ascii Bool Lia Lqa.
From Stdlib Require Import DecimalString DecimalPos SpecFloat.
Import ListNotations.

(** ** JavaScript prelude *)

Module Js.

(** *** Numbers *)

Definition Qltb (x y : Q) : bool := negb (Qle_bool y x).

(** [toFixed2_cents x] is the integer [n] of [x.toFixed(2)]: the sign is
    split off, then [n / 100 - |x|] is as close to zero as possible and
    the larger [n] is taken when two are equally close. *)
Definition toFixed2_cents (x : Q) : Z :=
  let n := Qfloor (Qabs x * 100 + (1 # 2)) in
  if Qltb x 0 then (- n)%Z else n.

(** [parseFloat(x.toFixed(2))] *)
Definition round2 (x : Q) : Q := toFixed2_cents x # 100.

(** An amount of whole cents. *)
Definition cents (c : Z) : Q := c # 100.

(** *** Binary64 arithmetic

    [x * y] and [x + y] on numbers are the IEEE 754 binary64
    operations: the exact result rounded to the nearest binary64
    number, a tie going to the even mantissa.  They are taken from the
    specification of floating-point arithmetic of the Standard Library
    ([SpecFloat]) at precision 53 and maximal exponent 1024. *)

Definition prec : Z := 53.
Definition emax : Z := 1024.

(** The binary64 number nearest to a rational: the quotient of
    numerator and denominator, rounded once. *)
Definition to_double (x : Q) : spec_float :=
  match Qnum x with
  | Z0 => S754_zero false
  | Zpos n =>
      let '(m, e, l) := SFdiv_core_binary prec emax (Zpos n) 0 (Zpos (Qden x)) 0 in
      binary_round_aux prec emax false m e l
  | Zneg n =>
      let '(m, e, l) := SFdiv_core_binary prec emax (Zpos n) 0 (Zpos (Qden x)) 0 in
      binary_round_aux prec emax true m e l
  end.

(** The value of a binary64 number; both zeros are 0, and the
    infinities and [NaN], which no amount of the scripts reaches, are
    given the value 0. *)
Definition of_double (f : spec_float) : Q :=
  match f with
  | S754_finite s m e =>
      let n := if s then Zneg m else Zpos m in
      match e with
      | Z0 => n # 1
      | Zpos k => (n * 2 ^ Zpos k) # 1
      | Zneg k => n # (2 ^ k)
      end
  | _ => 0
  end.

(** [x * y] *)
Definition mul (x y : Q) : Q :=
  of_double (SFmul prec emax (to_double x) (to_double y)).

(** [x + y] *)
Definition add (x y : Q) : Q :=
  of_double (SFadd prec emax (to_double x) (to_double y)).

(** *** Strings *)

Definition truthy (s : string) : bool := negb (String.eqb s "").

(** [a || b] on a possibly missing string: [undefined], [null] and the
    empty string are falsy. *)
Definition or_else (a : option string) (b : string) : string :=
  match a with
  | Some s => if truthy s then s else b
  | None => b
  end.

Fixpoint split_aux (sep : ascii) (s : string) (cur : string) : list string :=
  match s with
  | EmptyString => [cur]
  | String c rest =>
      if Ascii.eqb c sep then cur :: split_aux sep rest ""
      else split_aux sep rest (cur ++ String c "")
  end.

(** [s.split(sep)] for a one-character separator. *)
Definition split (sep : ascii) (s : string) : list string :=
  split_aux sep s "".

(** A template literal prints a missing array element as [undefined]. *)
Definition show_nth (l : list string) (i : nat) : string :=
  match nth_error l i with
  | Some s => s
  | None => "undefined"
  end.

Definition is_digit (c : ascii) : bool :=
  let n := nat_of_ascii c in (48 <=? n)%nat && (n <=? 57)%nat.

Definition digit_val (c : ascii) : Z := Z.of_nat (nat_of_ascii c) - 48.

Definition is_space (c : ascii) : bool :=
  let n := nat_of_ascii c in
  (n =? 32)%nat || ((9 <=? n)%nat && (n <=? 13)%nat).

Fixpoint skip_spaces (s : string) : string :=
  match s with
  | String c rest => if is_space c then skip_spaces rest else s
  | EmptyString => s
  end.

Fixpoint digits_prefix (s : string) (acc : Z) : Z :=
  match s with
  | String c rest =>
      if is_digit c then digits_prefix rest (10 * acc + digit_val c) else acc
  | EmptyString => acc
  end.

Definition starts_with_digit (s : string) : bool :=
  match s with
  | String c _ => is_digit c
  | EmptyString => false
  end.

(** [parseInt(s)] on decimal text: leading blanks and one sign are
    skipped and the longest run of digits is read; [None] is [NaN]. A
    missing argument ([undefined]) gives [NaN] as well.  The hexadecimal
    prefix is not modelled: identifiers never carry it. *)
Definition parseInt (o : option string) : option Z :=
  match o with
  | None => None
  | Some s =>
      let t := skip_spaces s in
      let '(neg, u) :=
        match t with
        | String "-" r => (true, r)
        | String "+" r => (false, r)
        | _ => (false, t)
        end in
      if starts_with_digit u
      then Some (if neg then - digits_prefix u 0 else digits_prefix u 0)%Z
      else None
  end.

(** [String(n)] for an integer, and for [NaN]. *)
Definition string_of_Z (n : Z) : string :=
  NilZero.string_of_int (Z.to_int n).

Definition string_of_num (n : option Z) : string :=
  match n with
  | Some z => string_of_Z z
  | None => "NaN"
  end.

Fixpoint zeros (n : nat) : string :=
  match n with
  | O => ""
  | S k => String "0" (zeros k)
  end.

(** [s.padStart(w, '0')] *)
Definition padStart0 (w : nat) (s : string) : string :=
  (zeros (w - String.length s) ++ s)%string.

(** [Math.max(...l)] on a non-empty list; [NaN] is contagious. *)
Fixpoint math_max (l : list (option Z)) : option Z :=
  match l with
  | [] => None
  | [x] => x
  | x :: rest =>
      match x, math_max rest with
      | Some a, Some b => Some (Z.max a b)
      | _, _ => None
      end
  end.

Definition to_lower_ascii (c : ascii) : ascii :=
  let n := nat_of_ascii c in
  if (65 <=? n)%nat && (n <=? 90)%nat then ascii_of_nat (n + 32) else c.

Fixpoint toLowerCase (s : string) : string :=
  match s with
  | EmptyString => EmptyString
  | String c rest => String (to_lower_ascii c) (toLowerCase rest)
  end.


(** *** Arrays *)

Fixpoint findIndex {A : Type} (p : A -> bool) (l : list A) : option nat :=
  match l with
  | [] => None
  | x :: rest =>
      if p x then Some O else option_map S (findIndex p rest)
  end.

Fixpoint set_nth {A : Type} (l : list A) (i : nat) (x : A) : list A :=
  match l, i with
  | [], _ => []
  | _ :: rest, O => x :: rest
  | y :: rest, S k => y :: set_nth rest k x
  end.

(** [l[i] = x] where [i] comes from [findIndex]: index [-1] ([None])
    creates a property that is no element of the array and that
    [JSON.stringify] does not write, so the list is unchanged. A found
    index is always in range. *)
Definition assign_at {A : Type} (l : list A) (i : option nat) (x : A) : list A :=
  match i with
  | Some k => set_nth l k x
  | None => l
  end.

End Js.

(** ** Records shared by both scripts *)

(** The environment a call reads: the clock, the random generator and
    the local calendar date. *)
Module Env.
Record t : Type := mk {
    now_iso : string;     (* new Date().toISOString() *)
    now_ms : Z;           (* Date.now() *)
    random : Z;           (* Math.floor(Math.random() * 10000) *)
    today_year : Z;       (* new Date().getFullYear() *)
    today_month : Z;      (* new Date().getMonth(), 0 to 11 *)
    today_day : Z;        (* new Date().getDate() *)
    west_of_utc : bool    (* the local time zone is behind UTC *)
  }.
End Env.

(** An entry of the [tenants] key, written by tenant management. *)
Module TenantRec.
Record t : Type := mk {
    username : string;
    name : string;
    unitAssigned : string;
    rentAmount : option Q;          (* parseFloat(rentAmount); None is NaN *)
    email : option string;
    contactNumber : option string;
    leaseStart : option string;
    leaseEnd : option string
  }.
End TenantRec.

(** [parseFloat(tenant.rentAmount) || 0] *)
Definition monthlyRent_of (t : TenantRec.t) : Q :=
  match TenantRec.rentAmount t with
  | Some q => q
  | None => 0
  end.

(** ** EnhancedPaymentStorage (js/payment-storage-test.js) *)

Module EnhancedPaymentStorage.

Module UtilityRates.
Record t : Type := mk {
    electricity_rate : Q;
    water_rate : Q
  }.
End UtilityRates.

Module Bill.
Record t : Type := mk {
    id : string;
    tenantId : string;
    month : string;
    electricity_kwh : Q;
    electricity_rate : Q;
    electricity_amount : Q;
    water_cubic : Q;
    water_rate : Q;
    water_amount : Q;
    total_amount : Q;
    paid_amount : Q;
    status : string;
    createdDate : string;
    dueDate : string;
    payments : list string
  }.

Definition with_paid_amount (b : t) (v : Q) : t :=
    mk (id b) (tenantId b) (month b) (electricity_kwh b) (electricity_rate b)
       (electricity_amount b) (water_cubic b) (water_rate b) (water_amount b)
       (total_amount b) v (status b) (createdDate b) (dueDate b) (payments b).

Definition with_status (b : t) (v : string) : t :=
    mk (id b) (tenantId b) (month b) (electricity_kwh b) (electricity_rate b)
       (electricity_amount b) (water_cubic b) (water_rate b) (water_amount b)
       (total_amount b) (paid_amount b) v (createdDate b) (dueDate b) (payments b).

Definition with_payments (b : t) (v : list string) : t :=
    mk (id b) (tenantId b) (month b) (electricity_kwh b) (electricity_rate b)
       (electricity_amount b) (water_cubic b) (water_rate b) (water_amount b)
       (total_amount b) (paid_amount b) (status b) (createdDate b) (dueDate b) v.
End Bill.

Module RentStatus.
Record t : Type := mk {
    id : string;
    tenantId : string;
    month : string;
    required_amount : Q;
    paid_amount : Q;
    remaining_amount : Q;
    status : string;
    payments : list string;
    createdDate : string;
    dueDate : string
  }.

Definition with_paid_amount (r : t) (v : Q) : t :=
    mk (id r) (tenantId r) (month r) (required_amount r) v (remaining_amount r)
       (status r) (payments r) (createdDate r) (dueDate r).

Definition with_remaining_amount (r : t) (v : Q) : t :=
    mk (id r) (tenantId r) (month r) (required_amount r) (paid_amount r) v
       (status r) (payments r) (createdDate r) (dueDate r).

Definition with_status (r : t) (v : string) : t :=
    mk (id r) (tenantId r) (month r) (required_amount r) (paid_amount r)
       (remaining_amount r) v (payments r) (createdDate r) (dueDate r).

Definition with_payments (r : t) (v : list string) : t :=
    mk (id r) (tenantId r) (month r) (required_amount r) (paid_amount r)
       (remaining_amount r) (status r) v (createdDate r) (dueDate r).
End RentStatus.

Module Payment.
Record t : Type := mk {
    id : string;
    payment_type : string;          (* 'rent' or 'bill' *)
    billId : option string;         (* present on bill payments only *)
    tenantId : string;
    tenantName : string;
    unitNumber : string;
    amount : Q;
    month : string;
    method : string;
    status : string;
    reference : string;
    submittedDate : string;
    paidDate : option string;
    notes : string;
    adminNotes : string;
    metadata : string
  }.

Definition with_status (p : t) (v : string) : t :=
    mk (id p) (payment_type p) (billId p) (tenantId p) (tenantName p)
       (unitNumber p) (amount p) (month p) (method p) v (reference p)
       (submittedDate p) (paidDate p) (notes p) (adminNotes p) (metadata p).

Definition with_adminNotes (p : t) (v : string) : t :=
    mk (id p) (payment_type p) (billId p) (tenantId p) (tenantName p)
       (unitNumber p) (amount p) (month p) (method p) (status p) (reference p)
       (submittedDate p) (paidDate p) (notes p) v (metadata p).

Definition with_paidDate (p : t) (v : option string) : t :=
    mk (id p) (payment_type p) (billId p) (tenantId p) (tenantName p)
       (unitNumber p) (amount p) (month p) (method p) (status p) (reference p)
       (submittedDate p) v (notes p) (adminNotes p) (metadata p).
End Payment.

(** The tenant as [getCurrentTenant] and [getCurrentTenantById] return it. *)
Module Tenant.
Record t : Type := mk {
    id : string;
    name : string;
    unit : string;
    monthlyRent : Q;
    email : string;
    contactNumber : string
  }.
End Tenant.

(** What the caller hands to [createRentPayment] and [createBillPayment]. *)
Module PaymentData.
Record t : Type := mk {
    billId : option string;
    amount : Q;                     (* parseFloat(paymentData.amount) *)
    month : option string;
    method : string;
    status : option string;
    reference : option string;
    notes : option string;
    metadata : option string
  }.
End PaymentData.

(** The keys of [localStorage] after [init]. *)
Module Store.
Record t : Type := mk {
    payments : list Payment.t;            (* rentarium_payments *)
    bills : list Bill.t;                  (* rentarium_bills *)
    rent_statuses : list RentStatus.t;    (* rentarium_rent_status *)
    rates : UtilityRates.t;               (* rentarium_utility_rates *)
    session : option string;              (* rentarium_session: username *)
    tenants : list TenantRec.t            (* tenants *)
  }.

Definition with_payments (s : t) (v : list Payment.t) : t :=
    mk v (bills s) (rent_statuses s) (rates s) (session s) (tenants s).
Definition with_bills (s : t) (v : list Bill.t) : t :=
    mk (payments s) v (rent_statuses s) (rates s) (session s) (tenants s).
Definition with_rent_statuses (s : t) (v : list RentStatus.t) : t :=
    mk (payments s) (bills s) v (rates s) (session s) (tenants s).
Definition with_rates (s : t) (v : UtilityRates.t) : t :=
    mk (payments s) (bills s) (rent_statuses s) v (session s) (tenants s).
End Store.

(** *** Utility rates *)

Definition getUtilityRates (s : Store.t) : UtilityRates.t := Store.rates s.

(** [newRates] may give either rate, both or none. *)
Module NewRates.
Record t : Type := mk {
    electricity_rate : option Q;
    water_rate : option Q
  }.
End NewRates.

Definition updateUtilityRates (s : Store.t) (newRates : NewRates.t)
  : UtilityRates.t * Store.t :=
  let currentRates := getUtilityRates s in
  let updatedRates :=
    UtilityRates.mk
      (match NewRates.electricity_rate newRates with
       | Some r => r
       | None => UtilityRates.electricity_rate currentRates
       end)
      (match NewRates.water_rate newRates with
       | Some r => r
       | None => UtilityRates.water_rate currentRates
       end) in
  (updatedRates, Store.with_rates s updatedRates).

(** *** Utility bills *)

Definition getAllBills (s : Store.t) : list Bill.t := Store.bills s.

Definition getBillById (s : Store.t) (billId : string) : option Bill.t :=
  find (fun b => String.eqb (Bill.id b) billId) (getAllBills s).

Definition getTenantBills (s : Store.t) (tenantId : string) : list Bill.t :=
  filter (fun b => String.eqb (Bill.tenantId b) tenantId) (getAllBills s).

Definition same_bill_key (tenantId month : string) (b : Bill.t) : bool :=
  String.eqb (Bill.tenantId b) tenantId && String.eqb (Bill.month b) month.

Definition getBillForMonth (s : Store.t) (tenantId month : string)
  : option Bill.t :=
  find (same_bill_key tenantId month) (getAllBills s).

(** The number in an identifier: [parseInt(id.split('-')[1])]. *)
Definition id_number (id : string) : option Z :=
  Js.parseInt (nth_error (Js.split "-" id) 1).

(** [PREFIX-] followed by the next number, padded to four digits. *)
Definition next_id (prefix : string) (ids : list string) : string :=
  let lastId :=
    match ids with
    | [] => Some 0%Z
    | _ => Js.math_max (map id_number ids)
    end in
  (prefix ++ "-" ++
   Js.padStart0 4 (Js.string_of_num (option_map (fun n => (n + 1)%Z) lastId)))%string.

Definition generateBillId (s : Store.t) : string :=
  next_id "BILL" (map Bill.id (getAllBills s)).

Definition getBillDueDate (month : string) : string :=
  let parts := Js.split "-" month in
  (Js.show_nth parts 0 ++ "-" ++ Js.show_nth parts 1 ++ "-15")%string.

Definition generateBill (s : Store.t) (env : Env.t)
    (tenantId month : string) (electricity_kwh water_cubic : Q)
  : Bill.t * Store.t :=
  let bills := getAllBills s in
  let rates := getUtilityRates s in
  let existingBill := find (same_bill_key tenantId month) bills in
  let electricity_amount :=
    Js.round2 (Js.mul electricity_kwh (UtilityRates.electricity_rate rates)) in
  let water_amount :=
    Js.round2 (Js.mul water_cubic (UtilityRates.water_rate rates)) in
  let total_amount := Js.round2 (Js.add electricity_amount water_amount) in
  let bill :=
    Bill.mk
      (match existingBill with Some e => Bill.id e | None => generateBillId s end)
      tenantId
      month
      electricity_kwh
      (UtilityRates.electricity_rate rates)
      electricity_amount
      water_cubic
      (UtilityRates.water_rate rates)
      water_amount
      total_amount
      (match existingBill with Some e => Bill.paid_amount e | None => 0 end)
      (match existingBill with Some e => Bill.status e | None => "unpaid"%string end)
      (match existingBill with Some e => Bill.createdDate e | None => Env.now_iso env end)
      (getBillDueDate month)
      (match existingBill with Some e => Bill.payments e | None => [] end) in
  let bills' :=
    match existingBill with
    | Some e =>
        let index :=
          Js.findIndex (fun b => String.eqb (Bill.id b) (Bill.id e)) bills in
        Js.assign_at bills index bill
    | None => bills ++ [bill]
    end in
  (bill, Store.with_bills s bills').

(** The body of [updateBillStatus] once the bill is found. *)
Definition applyBillPayment (bill : Bill.t) (paidAmount : Q) (paymentId : string)
  : Bill.t :=
  let bill1 :=
    Bill.with_paid_amount bill (Js.round2 (Bill.paid_amount bill + paidAmount)) in
  let bill2 := Bill.with_payments bill1 (Bill.payments bill1 ++ [paymentId]) in
  if Qle_bool (Bill.total_amount bill2) (Bill.paid_amount bill2) then
    Bill.with_paid_amount (Bill.with_status bill2 "paid") (Bill.total_amount bill2)
  else if Js.Qltb 0 (Bill.paid_amount bill2) then
    Bill.with_status bill2 "partial"
  else
    Bill.with_status bill2 "unpaid".

Definition updateBillStatus (s : Store.t) (billId : string) (paidAmount : Q)
    (paymentId : string) : option Bill.t * Store.t :=
  let bills := getAllBills s in
  match find (fun b => String.eqb (Bill.id b) billId) bills with
  | None => (None, s)
  | Some bill =>
      let bill' := applyBillPayment bill paidAmount paymentId in
      (* the found object is an element of [bills]: the mutation and the
         assignment hit the same, first, index *)
      let index := Js.findIndex (fun b => String.eqb (Bill.id b) billId) bills in
      (Some bill', Store.with_bills s (Js.assign_at bills index bill'))
  end.

Definition getCurrentMonth (env : Env.t) : string :=
  (Js.string_of_Z (Env.today_year env) ++ "-" ++
   Js.padStart0 2 (Js.string_of_Z (Env.today_month env + 1)))%string.

Definition getCurrentMonthBill (s : Store.t) (env : Env.t) (tenantId : string)
  : option Bill.t :=
  getBillForMonth s tenantId (getCurrentMonth env).

(** *** Tenants *)

Definition tenant_view (t : TenantRec.t) : Tenant.t :=
  Tenant.mk (TenantRec.username t) (TenantRec.name t) (TenantRec.unitAssigned t)
    (monthlyRent_of t)
    (Js.or_else (TenantRec.email t) "")
    (Js.or_else (TenantRec.contactNumber t) "").

Definition getCurrentTenantById (s : Store.t) (tenantId : string)
  : option Tenant.t :=
  option_map tenant_view
    (find (fun t => String.eqb (TenantRec.username t) tenantId) (Store.tenants s)).

Definition getCurrentTenant (s : Store.t) : option Tenant.t :=
  match Store.session s with
  | None => None
  | Some username => getCurrentTenantById s username
  end.

(** *** Rent statuses *)

Definition getAllRentStatuses (s : Store.t) : list RentStatus.t :=
  Store.rent_statuses s.

Definition same_rent_key (tenantId month : string) (r : RentStatus.t) : bool :=
  String.eqb (RentStatus.tenantId r) tenantId
  && String.eqb (RentStatus.month r) month.

Definition generateRentStatusId (s : Store.t) : string :=
  next_id "RENT" (map RentStatus.id (getAllRentStatuses s)).

Definition getRentDueDate (month : string) : string :=
  let parts := Js.split "-" month in
  (Js.show_nth parts 0 ++ "-" ++ Js.show_nth parts 1 ++ "-01")%string.

Definition getRentStatus (s : Store.t) (env : Env.t) (tenantId month : string)
  : RentStatus.t * Store.t :=
  let statuses := Store.rent_statuses s in
  match find (same_rent_key tenantId month) statuses with
  | Some status => (status, s)
  | None =>
      let monthlyRent :=
        match getCurrentTenantById s tenantId with
        | Some tenant => Tenant.monthlyRent tenant
        | None => 0
        end in
      let status :=
        RentStatus.mk (generateRentStatusId s) tenantId month
          monthlyRent 0 monthlyRent "unpaid" []
          (Env.now_iso env) (getRentDueDate month) in
      (status, Store.with_rent_statuses s (statuses ++ [status]))
  end.

Definition getTenantRentHistory (s : Store.t) (tenantId : string)
  : list RentStatus.t :=
  filter (fun r => String.eqb (RentStatus.tenantId r) tenantId)
    (getAllRentStatuses s).

(** The body of [updateRentStatus] once the status object is at hand. *)
Definition applyRentPayment (status : RentStatus.t) (paidAmount : Q)
    (paymentId : string) : RentStatus.t :=
  let st1 :=
    RentStatus.with_paid_amount status
      (Js.round2 (RentStatus.paid_amount status + paidAmount)) in
  let st2 :=
    RentStatus.with_remaining_amount st1
      (Js.round2 (RentStatus.required_amount st1 - RentStatus.paid_amount st1)) in
  let st3 := RentStatus.with_payments st2 (RentStatus.payments st2 ++ [paymentId]) in
  if Qle_bool (RentStatus.remaining_amount st3) 0 then
    RentStatus.with_remaining_amount (RentStatus.with_status st3 "paid") 0
  else if Js.Qltb 0 (RentStatus.paid_amount st3) then
    RentStatus.with_status st3 "partial"
  else
    RentStatus.with_status st3 "unpaid".

(** [statuses] is read before [getRentStatus] runs.  When the status is
    found, it is an element of [statuses]: it is mutated where it stands
    and then assigned at the first index carrying its id.  When it is
    not found, [getRentStatus] stores a fresh status, but [statuses] is
    the list read before: the fresh status is no element of it, the
    index is [-1] unless an entry already carries the fresh id, and the
    list written back is the earlier one. *)
Definition updateRentStatus (s : Store.t) (env : Env.t)
    (tenantId month : string) (paidAmount : Q) (paymentId : string)
  : RentStatus.t * Store.t :=
  let statuses := getAllRentStatuses s in
  match find (same_rent_key tenantId month) statuses with
  | Some status =>
      let status' := applyRentPayment status paidAmount paymentId in
      let mutated :=
        Js.assign_at statuses
          (Js.findIndex (same_rent_key tenantId month) statuses) status' in
      let index :=
        Js.findIndex
          (fun r => String.eqb (RentStatus.id r) (RentStatus.id status')) mutated in
      (status', Store.with_rent_statuses s (Js.assign_at mutated index status'))
  | None =>
      let '(status, s1) := getRentStatus s env tenantId month in
      let status' := applyRentPayment status paidAmount paymentId in
      let index :=
        Js.findIndex
          (fun r => String.eqb (RentStatus.id r) (RentStatus.id status')) statuses in
      (status', Store.with_rent_statuses s1 (Js.assign_at statuses index status'))
  end.

(** *** Payments *)

Definition getAllPayments (s : Store.t) : list Payment.t := Store.payments s.

Definition getPaymentById (s : Store.t) (id : string) : option Payment.t :=
  find (fun p => String.eqb (Payment.id p) id) (getAllPayments s).

Definition generatePaymentId (s : Store.t) : string :=
  next_id "PAY" (map Payment.id (getAllPayments s)).

Definition generateReference (env : Env.t) (method : string) : string :=
  let m := Js.toLowerCase method in
  let prefix :=
    (if String.eqb m "gcash" then "GC"
     else if String.eqb m "bpi" then "BPI"
     else if String.eqb m "cash" then "CSH"
     else "REF")%string in
  (prefix ++ "-" ++ Js.string_of_Z (Env.now_ms env) ++ "-" ++
   Js.string_of_Z (Env.random env))%string.

Definition createRentPayment (s : Store.t) (env : Env.t)
    (paymentData : PaymentData.t) : option Payment.t * Store.t :=
  let payments := getAllPayments s in
  match getCurrentTenant s with
  | None => (None, s)
  | Some tenant =>
      let month := Js.or_else (PaymentData.month paymentData) (getCurrentMonth env) in
      let '(_, s1) := getRentStatus s env (Tenant.id tenant) month in
      let payment :=
        Payment.mk
          (generatePaymentId s1)
          "rent"
          None
          (Tenant.id tenant)
          (Tenant.name tenant)
          (Tenant.unit tenant)
          (PaymentData.amount paymentData)
          month
          (PaymentData.method paymentData)
          (Js.or_else (PaymentData.status paymentData) "pending")
          (Js.or_else (PaymentData.reference paymentData)
             (generateReference env (PaymentData.method paymentData)))
          (Env.now_iso env)
          None
          (Js.or_else (PaymentData.notes paymentData) "")
          ""
          (Js.or_else (PaymentData.metadata paymentData) "{}") in
      let s2 := Store.with_payments s1 (payments ++ [payment]) in
      let s3 :=
        if String.eqb (Payment.status payment) "verified" then
          snd (updateRentStatus s2 env (Tenant.id tenant) month
                 (Payment.amount payment) (Payment.id payment))
        else s2 in
      (Some payment, s3)
  end.

Definition createBillPayment (s : Store.t) (env : Env.t)
    (paymentData : PaymentData.t) : option Payment.t * Store.t :=
  let payments := getAllPayments s in
  match getCurrentTenant s with
  | None => (None, s)
  | Some tenant =>
      match
        match PaymentData.billId paymentData with
        | Some billId => getBillById s billId
        | None => None
        end
      with
      | None => (None, s)
      | Some bill =>
          let payment :=
            Payment.mk
              (generatePaymentId s)
              "bill"
              (Some (Bill.id bill))
              (Tenant.id tenant)
              (Tenant.name tenant)
              (Tenant.unit tenant)
              (PaymentData.amount paymentData)
              (Bill.month bill)
              (PaymentData.method paymentData)
              (Js.or_else (PaymentData.status paymentData) "pending")
              (Js.or_else (PaymentData.reference paymentData)
                 (generateReference env (PaymentData.method paymentData)))
              (Env.now_iso env)
              None
              (Js.or_else (PaymentData.notes paymentData)
                 ("Payment for " ++ Bill.month bill ++ " utility bills"))
              ""
              (Js.or_else (PaymentData.metadata paymentData) "{}") in
          let s1 := Store.with_payments s (payments ++ [payment]) in
          let s2 :=
            if String.eqb (Payment.status payment) "verified" then
              snd (updateBillStatus s1 (Bill.id bill)
                     (Payment.amount payment) (Payment.id payment))
            else s1 in
          (Some payment, s2)
      end
  end.

(** The ledger entry a payment targets is updated with [delta]; a
    payment of another type, or a bill payment without [billId]
    (no bill has the id [undefined]), changes nothing. *)
Definition applyToLedger (s : Store.t) (env : Env.t) (payment : Payment.t)
    (delta : Q) : Store.t :=
  if String.eqb (Payment.payment_type payment) "rent" then
    snd (updateRentStatus s env (Payment.tenantId payment) (Payment.month payment)
           delta (Payment.id payment))
  else if String.eqb (Payment.payment_type payment) "bill" then
    match Payment.billId payment with
    | Some billId => snd (updateBillStatus s billId delta (Payment.id payment))
    | None => s
    end
  else s.

Definition updatePaymentStatus (s : Store.t) (env : Env.t)
    (paymentId status adminNotes : string) : option Payment.t * Store.t :=
  let payments := getAllPayments s in
  match find (fun p => String.eqb (Payment.id p) paymentId) payments with
  | None => (None, s)
  | Some payment =>
      let oldStatus := Payment.status payment in
      let payment1 :=
        Payment.with_adminNotes (Payment.with_status payment status) adminNotes in
      let '(payment2, s1) :=
        if String.eqb status "verified" || String.eqb status "completed" then
          let payment2 := Payment.with_paidDate payment1 (Some (Env.now_iso env)) in
          (payment2, applyToLedger s env payment2 (Payment.amount payment2))
        else if String.eqb status "rejected" && String.eqb oldStatus "verified" then
          (payment1, applyToLedger s env payment1 (- Payment.amount payment1))
        else (payment1, s) in
      let index :=
        Js.findIndex (fun p => String.eqb (Payment.id p) paymentId) payments in
      (Some payment2, Store.with_payments s1 (Js.assign_at payments index payment2))
  end.

Definition deletePayment (s : Store.t) (paymentId : string) : bool * Store.t :=
  (true,
   Store.with_payments s
     (filter (fun p => negb (String.eqb (Payment.id p) paymentId))
        (getAllPayments s))).

Definition getTenantPayments (s : Store.t) (tenantId : option string)
  : list Payment.t :=
  let tenant :=
    match tenantId with
    | Some id => if Js.truthy id then getCurrentTenantById s id else getCurrentTenant s
    | None => getCurrentTenant s
    end in
  match tenant with
  | None => []
  | Some tenant =>
      filter (fun p => String.eqb (Payment.tenantId p) (Tenant.id tenant))
        (getAllPayments s)
  end.

(** *** Statistics *)

Module PaymentStats.
Record t : Type := mk {
  total : nat;
  pending : nat;
  verified : nat;
  rejected : nat;
  totalAmount : Q;
  paidAmount : Q;
  pendingAmount : Q
}.
End PaymentStats.

Definition has_status (status : string) (p : Payment.t) : bool :=
  String.eqb (Payment.status p) status.

Definition is_settled (p : Payment.t) : bool :=
  has_status "verified" p || has_status "completed" p.

(** [l.reduce((sum, p) => sum + p.amount, 0)], a binary64 sum from left
    to right. *)
Definition sum_amounts (l : list Payment.t) : Q :=
  fold_left (fun sum p => Js.add sum (Payment.amount p)) l 0.

Definition getPaymentStats (s : Store.t) : PaymentStats.t :=
  let payments := getAllPayments s in
  PaymentStats.mk
    (List.length payments)
    (List.length (filter (has_status "pending") payments))
    (List.length (filter is_settled payments))
    (List.length (filter (has_status "rejected") payments))
    (sum_amounts payments)
    (sum_amounts (filter is_settled payments))
    (sum_amounts (filter (has_status "pending") payments)).

(** *** Filters *)

Module Filters.
Record t : Type := mk {
  status : option string;
  method : option string;
  payment_type : option string;
  search : option string
}.
End Filters.




(** [clearAllData] removes the three lists and [init] creates them
    again, empty; the rates stay. *)
Definition clearAllData (s : Store.t) : Store.t :=
  Store.mk [] [] [] (Store.rates s) (Store.session s) (Store.tenants s).

End EnhancedPaymentStorage.

(** ** Calendar dates

    A [Date] object is kept as its local calendar fields, which is all
    that [getFullYear], [getMonth], [getDate] and [setMonth] read or
    change. *)

Module JsDate.

Record t : Type := mk {
  year : Z;
  month : Z;      (* 0 to 11 *)
  day : Z         (* 1 to 31 *)
}.

Definition is_leap (y : Z) : bool :=
  ((y mod 4 =? 0) && negb (y mod 100 =? 0) || (y mod 400 =? 0))%Z.

(** Days of month [m] (0 to 11) of year [y]. *)
Definition days_in_month (y m : Z) : Z :=
  if (m =? 1)%Z then (if is_leap y then 29 else 28)
  else if ((m =? 3) || (m =? 5) || (m =? 8) || (m =? 10))%Z then 30
  else 31.

(** The calendar day before a date. *)
Definition prev_day (d : t) : t :=
  if (1 <? day d)%Z then mk (year d) (month d) (day d - 1)
  else if (0 <? month d)%Z then
    mk (year d) (month d - 1) (days_in_month (year d) (month d - 1))
  else mk (year d - 1) 11 31.

Definition two_digits (a b : ascii) : option Z :=
  if Js.is_digit a && Js.is_digit b
  then Some (10 * Js.digit_val a + Js.digit_val b)%Z
  else None.

(** The date-only form [YYYY-MM-DD], the format the lease form stores:
    the fields of a calendar date that exists, [None] otherwise. *)
Definition parse_iso (s : string) : option t :=
  match s with
  | String y1 (String y2 (String y3 (String y4 (String "-"
      (String m1 (String m2 (String "-" (String d1 (String d2 "")))))))))
    =>
      match two_digits y1 y2, two_digits y3 y4, two_digits m1 m2, two_digits d1 d2 with
      | Some yh, Some yl, Some m, Some d =>
          let y := (100 * yh + yl)%Z in
          if ((1 <=? m) && (m <=? 12) && (1 <=? d)
              && (d <=? days_in_month y (m - 1)))%Z
          then Some (mk y (m - 1) d)
          else None
      | _, _, _, _ => None
      end
  | _ => None
  end.

(** [new Date(s)]: a date-only string denotes midnight UTC, which is
    still the day before in a time zone behind UTC. [None] is an
    invalid date; texts in other formats are not modelled and count as
    invalid. *)
Definition of_string (west_of_utc : bool) (s : string) : option t :=
  match parse_iso s with
  | Some d => Some (if west_of_utc then prev_day d else d)
  | None => None
  end.

(** [d.setMonth(m)]: the day of the month is kept, and a day the target
    month does not have runs over into the month after it. *)
Definition setMonth (d : t) (m : Z) : t :=
  let ym := (year d * 12 + m)%Z in
  let y' := (ym / 12)%Z in
  let m' := (ym mod 12)%Z in
  if (day d <=? days_in_month y' m')%Z then mk y' m' (day d)
  else mk ((ym + 1) / 12)%Z ((ym + 1) mod 12)%Z (day d - days_in_month y' m')%Z.

End JsDate.

(** ** PaymentStorage (js/full-payment-function.js) *)

Module PaymentStorage.

Module Payment.
Record t : Type := mk {
  id : string;
  tenantId : string;
  tenantName : string;
  unitNumber : string;
  amount : Q;
  method : string;
  status : string;
  reference : string;
  paymentType : string;
  billDetails : string;
  dueDate : string;
  submittedDate : string;
  paidDate : option string;
  proofUrl : option string;
  notes : string;
  adminNotes : string;
  metadata : string
}.

Definition with_status (p : t) (v : string) : t :=
  mk (id p) (tenantId p) (tenantName p) (unitNumber p) (amount p) (method p)
     v (reference p) (paymentType p) (billDetails p) (dueDate p)
     (submittedDate p) (paidDate p) (proofUrl p) (notes p) (adminNotes p)
     (metadata p).

Definition with_adminNotes (p : t) (v : string) : t :=
  mk (id p) (tenantId p) (tenantName p) (unitNumber p) (amount p) (method p)
     (status p) (reference p) (paymentType p) (billDetails p) (dueDate p)
     (submittedDate p) (paidDate p) (proofUrl p) (notes p) v (metadata p).

Definition with_paidDate (p : t) (v : option string) : t :=
  mk (id p) (tenantId p) (tenantName p) (unitNumber p) (amount p) (method p)
     (status p) (reference p) (paymentType p) (billDetails p) (dueDate p)
     (submittedDate p) v (proofUrl p) (notes p) (adminNotes p) (metadata p).
End Payment.

Module Tenant.
Record t : Type := mk {
  id : string;
  name : string;
  unit : string;
  monthlyRent : Q;
  email : string;
  contactNumber : string;
  leaseStart : option string;
  leaseEnd : option string
}.
End Tenant.

Module PaymentData.
Record t : Type := mk {
  amount : option Q;
  method : string;
  status : option string;
  reference : option string;
  paymentType : option string;
  billDetails : option string;
  dueDate : option string;
  paidDate : option string;
  proofUrl : option string;
  notes : option string;
  metadata : option string
}.
End PaymentData.

Module Store.
Record t : Type := mk {
  payments : list Payment.t;      (* rentarium_payments *)
  session : option string;        (* rentarium_session: username *)
  tenants : list TenantRec.t      (* tenants *)
}.

Definition with_payments (s : t) (v : list Payment.t) : t :=
  mk v (session s) (tenants s).
End Store.

(** The answer of [canMakePayment]. *)
Module Verdict.
Record t : Type := mk {
  allowed : bool;
  reason : option string
}.
End Verdict.

(** [x || null] on a possibly missing string. *)
Definition or_null (o : option string) : option string :=
  match o with
  | Some s => if Js.truthy s then Some s else None
  | None => None
  end.

Definition getCurrentTenant (s : Store.t) : option Tenant.t :=
  match Store.session s with
  | None => None
  | Some username =>
      match find (fun t => String.eqb (TenantRec.username t) username)
              (Store.tenants s) with
      | None => None
      | Some tenant =>
          Some (Tenant.mk (TenantRec.username tenant) (TenantRec.name tenant)
                  (TenantRec.unitAssigned tenant)
                  (monthlyRent_of tenant)
                  (Js.or_else (TenantRec.email tenant) "")
                  (Js.or_else (TenantRec.contactNumber tenant) "")
                  (or_null (TenantRec.leaseStart tenant))
                  (or_null (TenantRec.leaseEnd tenant)))
      end
  end.

(** [`${y}-${String(m + 1).padStart(2, '0')}`]; the fields of an invalid
    date are [NaN]. *)
Definition format_period (d : option JsDate.t) : string :=
  match d with
  | Some d =>
      (Js.string_of_Z (JsDate.year d) ++ "-" ++
       Js.padStart0 2 (Js.string_of_Z (JsDate.month d + 1)))%string
  | None => "NaN-NaN"%string
  end.

Definition getCurrentPaymentPeriod (s : Store.t) (env : Env.t) : option string :=
  match getCurrentTenant s with
  | None => None
  | Some tenant =>
      match Tenant.leaseStart tenant with
      | None => None
      | Some text =>
          match JsDate.of_string (Env.west_of_utc env) text with
          | None => Some (format_period None)
          | Some leaseStart =>
              let monthsSinceStart :=
                ((Env.today_year env - JsDate.year leaseStart) * 12
                 + (Env.today_month env - JsDate.month leaseStart))%Z in
              let periodStart :=
                JsDate.setMonth leaseStart
                  (JsDate.month leaseStart + monthsSinceStart)%Z in
              Some (format_period (Some periodStart))
          end
      end
  end.

Definition getAllPayments (s : Store.t) : list Payment.t := Store.payments s.

(** The filter of [canMakePayment]: the tenant's verified or completed
    payments whose due date starts with the period. *)
Definition in_period (tenantId currentPeriod : string) (p : Payment.t) : bool :=
  String.eqb (Payment.tenantId p) tenantId
  && (String.eqb (Payment.status p) "verified"
      || String.eqb (Payment.status p) "completed")
  && (Js.truthy (Payment.dueDate p)
      && String.prefix currentPeriod (Payment.dueDate p)).

Definition has_type (paymentType : string) (p : Payment.t) : bool :=
  String.eqb (Payment.paymentType p) paymentType.

Definition canMakePayment (s : Store.t) (env : Env.t) (paymentType : string)
  : Verdict.t :=
  match getCurrentTenant s with
  | None => Verdict.mk false (Some "Tenant not found"%string)
  | Some tenant =>
      match getCurrentPaymentPeriod s env with
      | None =>
          Verdict.mk false (Some "Payment period cannot be determined"%string)
      | Some currentPeriod =>
          let periodPayments :=
            filter (in_period (Tenant.id tenant) currentPeriod) (getAllPayments s) in
          let rentPaid := existsb (has_type "Monthly Rent") periodPayments in
          let billsPaid := existsb (has_type "Utility Bills") periodPayments in
          let refused :=
            if String.eqb paymentType "Monthly Rent" then
              if rentPaid then
                Some (Verdict.mk false
                  (Some "Monthly rent for this period has already been paid and verified."%string))
              else None
            else if String.eqb paymentType "Utility Bills" then
              if billsPaid then
                Some (Verdict.mk false
                  (Some "Utility bills for this period have already been paid and verified."%string))
              else None
            else None in
          match refused with
          | Some verdict => verdict
          | None =>
              if rentPaid && billsPaid then
                Verdict.mk false
                  (Some "All payments for this period are complete. Please wait for the next billing cycle."%string)
              else Verdict.mk true None
          end
      end
  end.

Definition generatePaymentId (s : Store.t) : string :=
  EnhancedPaymentStorage.next_id "PAY" (map Payment.id (getAllPayments s)).

Definition generateReference (env : Env.t) (method : string) : string :=
  let m := Js.toLowerCase method in
  let prefix :=
    (if String.eqb m "gcash" then "GC"
     else if String.eqb m "bpi" then "BPI"
     else if String.eqb m "cash" then "CSH"
     else "REF")%string in
  (prefix ++ "-" ++ Js.string_of_Z (Env.now_ms env) ++ "-" ++
   Js.string_of_Z (Env.random env))%string.

(** [createPayment]. [nextDueDate] stands for [this.getNextDueDate()],
    whose date arithmetic is outside this development; it is used only
    when the caller gives no due date.  That call ends in an exception,
    and nothing is stored, when the lease start of the tenant is a text
    that is no date ([toISOString] of an invalid date); this case is
    not part of the embedding.  [amount || monthlyRent]: a missing or
    zero amount is falsy. *)
Definition createPayment (s : Store.t) (env : Env.t) (nextDueDate : string)
    (paymentData : PaymentData.t) : option Payment.t * Store.t :=
  let payments := getAllPayments s in
  match getCurrentTenant s with
  | None => (None, s)
  | Some tenant =>
      let payment :=
        Payment.mk
          (generatePaymentId s)
          (Tenant.id tenant)
          (Tenant.name tenant)
          (Tenant.unit tenant)
          (match PaymentData.amount paymentData with
           | Some a => if Qeq_bool a 0 then Tenant.monthlyRent tenant else a
           | None => Tenant.monthlyRent tenant
           end)
          (PaymentData.method paymentData)
          (Js.or_else (PaymentData.status paymentData) "pending")
          (Js.or_else (PaymentData.reference paymentData)
             (generateReference env (PaymentData.method paymentData)))
          (Js.or_else (PaymentData.paymentType paymentData) "Monthly Rent")
          (Js.or_else (PaymentData.billDetails paymentData) "")
          (Js.or_else (PaymentData.dueDate paymentData) nextDueDate)
          (Env.now_iso env)
          (or_null (PaymentData.paidDate paymentData))
          (or_null (PaymentData.proofUrl paymentData))
          (Js.or_else (PaymentData.notes paymentData) "")
          ""
          (Js.or_else (PaymentData.metadata paymentData) "{}") in
      (Some payment, Store.with_payments s (payments ++ [payment]))
  end.

Definition updatePaymentStatus (s : Store.t) (env : Env.t)
    (paymentId status adminNotes : string) : option Payment.t * Store.t :=
  let payments := getAllPayments s in
  match Js.findIndex (fun p => String.eqb (Payment.id p) paymentId) payments with
  | None => (None, s)
  | Some index =>
      match nth_error payments index with
      | None => (None, s)
      | Some p =>
          let p1 := Payment.with_adminNotes (Payment.with_status p status) adminNotes in
          let p2 :=
            if String.eqb status "verified" || String.eqb status "completed"
            then Payment.with_paidDate p1 (Some (Env.now_iso env))
            else p1 in
          (Some p2, Store.with_payments s (Js.set_nth payments index p2))
      end
  end.

(** The answer of [getPaymentStatus]. *)
Module Summary.
Record t : Type := mk {
  period : string;
  rentPaid : bool;
  billsPaid : bool;
  allPaid : bool
}.
End Summary.


Definition getTenantPayments (s : Store.t) : list Payment.t :=
  match getCurrentTenant s with
  | None => []
  | Some tenant =>
      filter (fun p => String.eqb (Payment.tenantId p) (Tenant.id tenant))
        (getAllPayments s)
  end.

Definition getPaymentById (s : Store.t) (id : string) : option Payment.t :=
  find (fun p => String.eqb (Payment.id p) id) (getAllPayments s).

Definition deletePayment (s : Store.t) (paymentId : string) : bool * Store.t :=
  (true,
   Store.with_payments s
     (filter (fun p => negb (String.eqb (Payment.id p) paymentId))
        (getAllPayments s))).


End PaymentStorage.

(** ** Text helpers of unit management (js/full-payment-function.js) *)

Module UnitManagement.

(** The replacement of one character by [escapeHtml]. *)
Definition escapeHtml_char (c : ascii) : string :=
  if Ascii.eqb c "&" then "&amp;"
  else if Ascii.eqb c "<" then "&lt;"
  else if Ascii.eqb c ">" then "&gt;"
  else if Ascii.eqb c "034" then "&quot;"
  else if Ascii.eqb c "'" then "&#39;"
  else String c EmptyString.

(** [escapeHtml(s)]: every ampersand, angle bracket, double quote and
    apostrophe of [String(s || '')] is replaced by its entity. *)
Fixpoint escapeHtml (s : string) : string :=
  match s with
  | EmptyString => EmptyString
  | String c rest => (escapeHtml_char c ++ escapeHtml rest)%string
  end.

(** The replacement of one character by [escapeXml]. *)
Definition escapeXml_char (c : ascii) : string :=
  if Ascii.eqb c "<" then "&lt;"
  else if Ascii.eqb c ">" then "&gt;"
  else if Ascii.eqb c "&" then "&amp;"
  else if Ascii.eqb c "'" then "&apos;"
  else if Ascii.eqb c "034" then "&quot;"
  else String c EmptyString.

(** [escapeXml(str)], with [&apos;] for the apostrophe. *)
Fixpoint escapeXml (s : string) : string :=
  match s with
  | EmptyString => EmptyString
  | String c rest => (escapeXml_char c ++ escapeXml rest)%string
  end.

End UnitManagement.

(** ** Definitions used in the statements *)

Module Ledger.

Import EnhancedPaymentStorage.

(** A number that holds whole cents. *)
Definition is_cents (x : Q) : Prop := exists c : Z, x == Js.cents c.

(** Rounding half up to two decimals, in the words of the
    specification: [r] is a number of whole cents nearest to [x], and
    when [x] lies halfway between two of them, [r] is the one of larger
    magnitude. *)
Definition round_half_up2 (x r : Q) : Prop :=
  is_cents r
  /\ Qabs (r - x) <= 1 # 200
  /\ (Qabs (r - x) == 1 # 200 -> Qabs x < Qabs r).

(** The paid/partial/unpaid rule of a ledger entry that owes [required]
    and has received [paid]. *)
Definition status_rule (required paid : Q) : string :=
  if Qle_bool required paid then "paid"
  else if Js.Qltb 0 paid then "partial"
  else "unpaid".

Fixpoint Qsum (l : list Q) : Q :=
  match l with
  | [] => 0
  | x :: rest => x + Qsum rest
  end.

(** The store after the calls [updateBillStatus(billId, amount, paymentId)]
    of a list, in order. *)
Fixpoint updateBillStatus_all (s : Store.t) (billId : string)
    (calls : list (Q * string)) : Store.t :=
  match calls with
  | [] => s
  | (paidAmount, paymentId) :: rest =>
      updateBillStatus_all (snd (updateBillStatus s billId paidAmount paymentId))
        billId rest
  end.

(** The store after the calls
    [updateRentStatus(tenantId, month, amount, paymentId)] of a list. *)
Fixpoint updateRentStatus_all (s : Store.t) (env : Env.t)
    (tenantId month : string) (calls : list (Q * string)) : Store.t :=
  match calls with
  | [] => s
  | (paidAmount, paymentId) :: rest =>
      updateRentStatus_all
        (snd (updateRentStatus s env tenantId month paidAmount paymentId))
        env tenantId month rest
  end.

(** The stored rent status of a tenant and month, without creating it. *)
Definition findRentStatus (s : Store.t) (tenantId month : string)
  : option RentStatus.t :=
  find (same_rent_key tenantId month) (getAllRentStatuses s).

(** The paid amount of the ledger entry a payment targets: the rent
    status of its tenant and month, or the bill it names. *)
Definition target_paid_amount (s : Store.t) (payment : Payment.t) : option Q :=
  if String.eqb (Payment.payment_type payment) "rent" then
    option_map RentStatus.paid_amount
      (findRentStatus s (Payment.tenantId payment) (Payment.month payment))
  else if String.eqb (Payment.payment_type payment) "bill" then
    match Payment.billId payment with
    | Some billId => option_map Bill.paid_amount (getBillById s billId)
    | None => None
    end
  else None.

(** A bill payment stays within the total of its bill: neither what is
    already paid nor what is paid after the payment exceeds the total.
    Payments of another type are not concerned. *)
Definition within_total (s : Store.t) (payment : Payment.t) : Prop :=
  if String.eqb (Payment.payment_type payment) "bill" then
    match Payment.billId payment with
    | Some billId =>
        match getBillById s billId with
        | Some bill =>
            Bill.paid_amount bill <= Bill.total_amount bill
            /\ Bill.paid_amount bill + Payment.amount payment
               <= Bill.total_amount bill
        | None => True
        end
    | None => True
    end
  else True.

(** Two payment records that name the same ledger entry and amount. *)
Definition same_target (p p' : Payment.t) : Prop :=
  Payment.id p' = Payment.id p
  /\ Payment.payment_type p' = Payment.payment_type p
  /\ Payment.billId p' = Payment.billId p
  /\ Payment.tenantId p' = Payment.tenantId p
  /\ Payment.month p' = Payment.month p
  /\ Payment.amount p' = Payment.amount p.

(** A payment is verified, then rejected. *)
Definition verify_then_reject (s : Store.t) (env : Env.t) (paymentId : string)
  : Store.t :=
  let s1 := snd (updatePaymentStatus s env paymentId "verified" "") in
  snd (updatePaymentStatus s1 env paymentId "rejected" "").

Fixpoint round_trips (n : nat) (s : Store.t) (env : Env.t) (paymentId : string)
  : Store.t :=
  match n with
  | O => s
  | S k => round_trips k (verify_then_reject s env paymentId) env paymentId
  end.

End Ledger.

(** ** A tenant, a clock and some stores to run the scripts on *)

Module Example.

Import EnhancedPaymentStorage.

Definition alice : TenantRec.t :=
  TenantRec.mk "alice" "Alice Cruz" "U001" (Some 15000)
    (Some "alice@example.com"%string) None
    (Some "2024-01-15"%string) (Some "2025-01-14"%string).

(** 20 March 2024 in Manila. *)
Definition env : Env.t :=
  Env.mk "2024-03-20T02:00:00.000Z" 1710900000000 4242 2024 2 20 false.

(** The store after [init], with one tenant who is logged in. *)
Definition empty : Store.t :=
  Store.mk [] [] [] (UtilityRates.mk (1150 # 100) (2500 # 100))
    (Some "alice"%string) [alice].

Definition pay (billId : option string) (amount : Q) : PaymentData.t :=
  PaymentData.mk billId amount None "gcash" None None None None.

(** March bill of 120 kWh and 10 cubic meters: BILL-0001. *)
Definition with_bill : Store.t :=
  snd (generateBill empty env "alice" "2024-03" 120 10).

(** A pending payment of 1000.00 on the bill: PAY-0001. *)
Definition with_bill_payment : Store.t :=
  snd (createBillPayment with_bill env (pay (Some "BILL-0001"%string) 1000)).

(** A pending payment of 2000.00 on the bill of 1630.00. *)
Definition with_bill_overpayment : Store.t :=
  snd (createBillPayment with_bill env (pay (Some "BILL-0001"%string) 2000)).

(** A pending rent payment of 10000.00 for March: RENT-0001, PAY-0001. *)
Definition with_rent_payment : Store.t :=
  snd (createRentPayment empty env (pay None 10000)).

(** A pending rent payment of half a cent. *)
Definition with_rent_half_cent : Store.t :=
  snd (createRentPayment empty env (pay None (5 # 1000))).

(** The March rent status alone. *)
Definition with_rent_status : Store.t :=
  snd (getRentStatus empty env "alice" "2024-03").

(** A bill for a month without consumption. *)
Definition with_empty_bill : Store.t :=
  snd (generateBill empty env "alice" "2024-03" 0 0).

(** The payment [createRentPayment] and [createBillPayment] store in
    the stores above. *)
Definition pending_payment (payment_type : string) (billId : option string)
    (amount : Q) (notes : string) : Payment.t :=
  Payment.mk "PAY-0001" payment_type billId "alice" "Alice Cruz" "U001" amount
    "2024-03" "gcash" "pending" "GC-1710900000000-4242"
    "2024-03-20T02:00:00.000Z" None notes "" "{}".

Definition bill_payment (amount : Q) : Payment.t :=
  pending_payment "bill" (Some "BILL-0001"%string) amount
    "Payment for 2024-03 utility bills".

Definition rent_payment (amount : Q) : Payment.t :=
  pending_payment "rent" None amount "".

Definition march_bill : Bill.t :=
  fst (generateBill empty env "alice" "2024-03" 120 10).

Definition march_rent : RentStatus.t :=
  fst (getRentStatus empty env "alice" "2024-03").

(** The payment of 1000.00 on the bill, marked completed. *)
Definition with_completed_payment : Store.t :=
  snd (updatePaymentStatus with_bill_payment env "PAY-0001" "completed" "").

Definition completed_payment : Payment.t :=
  Payment.with_paidDate
    (Payment.with_adminNotes (Payment.with_status (bill_payment 1000) "completed") "")
    (Some (Env.now_iso env)).

(** 1000.00 of the March bill are paid. *)
Definition with_partial_bill : Store.t :=
  snd (updateBillStatus with_bill "BILL-0001" 1000 "PAY-0001").

Definition partial_bill : Bill.t :=
  applyBillPayment march_bill 1000 "PAY-0001".

End Example.

(** ** Definitions used in the statements about [PaymentStorage] *)

Module Period.

Import PaymentStorage.

(** The period in the words of the specification: the month of the
    lease start advanced by the whole months elapsed,
    [(today.year - start.year) * 12 + (today.month - start.month)],
    and written [YYYY-MM]. *)
Definition period_by_months (start : JsDate.t) (today_year today_month : Z)
  : string :=
  let elapsed :=
    ((today_year - JsDate.year start) * 12 + (today_month - JsDate.month start))%Z in
  let months := (JsDate.year start * 12 + JsDate.month start + elapsed)%Z in
  format_period (Some (JsDate.mk (months / 12) (months mod 12) 1)).

(** The tenant has a verified or completed payment of the type whose
    due date lies in the period. *)
Definition paid_in_period (s : Store.t) (tenantId period paymentType : string)
  : bool :=
  existsb (fun p => in_period tenantId period p && has_type paymentType p)
    (getAllPayments s).



(** Alice, whose lease starts on 15 January 2024, is logged in. *)
Definition store (payments : list Payment.t) : Store.t :=
  Store.mk payments (Some "alice"%string) [Example.alice].

(** A tenant whose lease starts on the given day is logged in. *)
Definition store_of_lease (leaseStart : option string) : Store.t :=
  Store.mk [] (Some "bob"%string)
    [TenantRec.mk "bob" "Bob Reyes" "U002" (Some 12000) None None leaseStart None].

(** The clock on a local calendar day. *)
Definition on_day (year month day : Z) : Env.t :=
  Env.mk "" 0 0 year month day false.

Definition verified (id paymentType dueDate : string) : Payment.t :=
  Payment.mk id "alice" "Alice Cruz" "U001" 15000 "gcash" "verified"
    "GC-1710900000000-4242" paymentType "" dueDate "2024-03-14T02:00:00.000Z"
    (Some "2024-03-15T02:00:00.000Z"%string) None "" "" "{}".



(** Alice as [getCurrentTenant] returns her. *)
Definition alice : Tenant.t :=
  Tenant.mk "alice" "Alice Cruz" "U001" 15000 "alice@example.com" ""
    (Some "2024-01-15"%string) (Some "2025-01-14"%string).

End Period.

(** ** The stores the scripts can build *)

Module Reach.

Import EnhancedPaymentStorage.

(** The store of a browser in which no payment script has written yet:
    [init] has created the empty lists. *)
Definition initial (s : Store.t) : Prop :=
  Store.payments s = [] /\ Store.bills s = [] /\ Store.rent_statuses s = [].

(** One call of a function of [EnhancedPaymentStorage] that writes, or a
    change of the session and of the tenants by another script. *)
Inductive step (s : Store.t) : Store.t -> Prop :=
  | step_updateUtilityRates newRates :
      step s (snd (updateUtilityRates s newRates))
  | step_generateBill env tenantId month electricity_kwh water_cubic :
      step s (snd (generateBill s env tenantId month electricity_kwh water_cubic))
  | step_getRentStatus env tenantId month :
      step s (snd (getRentStatus s env tenantId month))
  | step_updateRentStatus env tenantId month paidAmount paymentId :
      step s (snd (updateRentStatus s env tenantId month paidAmount paymentId))
  | step_updateBillStatus billId paidAmount paymentId :
      step s (snd (updateBillStatus s billId paidAmount paymentId))
  | step_createRentPayment env paymentData :
      step s (snd (createRentPayment s env paymentData))
  | step_createBillPayment env paymentData :
      step s (snd (createBillPayment s env paymentData))
  | step_updatePaymentStatus env paymentId status adminNotes :
      step s (snd (updatePaymentStatus s env paymentId status adminNotes))
  | step_deletePayment paymentId :
      step s (snd (deletePayment s paymentId))
  | step_clearAllData :
      step s (clearAllData s)
  | step_elsewhere session tenants :
      step s (Store.mk (Store.payments s) (Store.bills s) (Store.rent_statuses s)
                (Store.rates s) session tenants).

Inductive reachable : Store.t -> Prop :=
  | reachable_initial s : initial s -> reachable s
  | reachable_step s s' : reachable s -> step s s' -> reachable s'.

Definition bill_ids (s : Store.t) : list string := map Bill.id (Store.bills s).

(** An identifier whose number reads as a natural number. *)
Definition numbered (id : string) : Prop :=
  exists k : Z, (0 <= k)%Z /\ id_number id = Some k.

Fixpoint all_digits (s : string) : bool :=
  match s with
  | EmptyString => true
  | String c rest => Js.is_digit c && all_digits rest
  end.

Fixpoint dashless (s : string) : bool :=
  match s with
  | EmptyString => true
  | String c rest => negb (Ascii.eqb c "-") && dashless rest
  end.

(** The identifiers of the bills are pairwise different and numbered. *)
Definition bill_ids_wf (s : Store.t) : Prop :=
  NoDup (bill_ids s) /\ Forall numbered (bill_ids s).

(** The bills hold paid amounts and totals of whole cents, and the rent
    statuses paid amounts of whole cents. *)
Definition ledger_cents (s : Store.t) : Prop :=
  Forall (fun b => Ledger.is_cents (Bill.paid_amount b)
                   /\ Ledger.is_cents (Bill.total_amount b)) (Store.bills s)
  /\ Forall (fun r => Ledger.is_cents (RentStatus.paid_amount r))
       (Store.rent_statuses s).

Definition rent_ids (s : Store.t) : list string :=
  map RentStatus.id (Store.rent_statuses s).

Definition payment_ids (s : Store.t) : list string :=
  map Payment.id (Store.payments s).

(** The tenant and month of every bill, and of every rent status. *)
Definition bill_keys (s : Store.t) : list (string * string) :=
  map (fun b => (Bill.tenantId b, Bill.month b)) (Store.bills s).

Definition rent_keys (s : Store.t) : list (string * string) :=
  map (fun r => (RentStatus.tenantId r, RentStatus.month r)) (Store.rent_statuses s).

(** Identifiers that are pairwise different and numbered. *)
Definition ids_wf (ids : list string) : Prop :=
  NoDup ids /\ Forall numbered ids.

(** The three lists are well formed: the identifiers of each list are
    pairwise different and numbered, and no two bills, and no two rent
    statuses, are of the same tenant and month. *)
Definition bills_wf (s : Store.t) : Prop :=
  ids_wf (bill_ids s) /\ NoDup (bill_keys s).

Definition rents_wf (s : Store.t) : Prop :=
  ids_wf (rent_ids s) /\ NoDup (rent_keys s).

Definition payments_wf (s : Store.t) : Prop :=
  ids_wf (payment_ids s).

End Reach.

Import EnhancedPaymentStorage.
Import Ledger.

(** * Properties *)

(** ** Numbers *)

Section Numbers.

Lemma Qltb_lt (x y : Q) : Js.Qltb x y = true <-> x < y.
Proof.
  unfold Js.Qltb. rewrite negb_true_iff.
  split; intro H.
  - apply Qnot_le_lt. intro Hle. apply Qle_bool_iff in Hle. congruence.
  - destruct (Qle_bool y x) eqn:E; [|reflexivity].
    apply Qle_bool_iff in E. exfalso. exact (Qlt_not_le _ _ H E).
Qed.

Lemma Qltb_ge (x y : Q) : Js.Qltb x y = false <-> y <= x.
Proof.
  unfold Js.Qltb. rewrite negb_false_iff. apply Qle_bool_iff.
Qed.

Lemma Qltb_comp (x x' y y' : Q) :
  x == x' -> y == y' -> Js.Qltb x y = Js.Qltb x' y'.
Proof.
  intros Hx Hy. unfold Js.Qltb. f_equal.
  apply eq_true_iff_eq. rewrite !Qle_bool_iff, Hx, Hy. reflexivity.
Qed.

Lemma Qle_bool_comp (x x' y y' : Q) :
  x == x' -> y == y' -> Qle_bool x y = Qle_bool x' y'.
Proof.
  intros Hx Hy. apply eq_true_iff_eq. rewrite !Qle_bool_iff, Hx, Hy. reflexivity.
Qed.

Lemma Qfloor_eq (x y : Q) : x == y -> Qfloor x = Qfloor y.
Proof.
  intro H. apply Z.le_antisymm; apply Qfloor_resp_le; rewrite H; apply Qle_refl.
Qed.

(** [toFixed] reads the value of a number, not its representation. *)
Lemma toFixed2_cents_comp (x y : Q) :
  x == y -> Js.toFixed2_cents x = Js.toFixed2_cents y.
Proof.
  intro H. unfold Js.toFixed2_cents.
  rewrite (Qltb_comp x y 0 0 H (Qeq_refl 0)).
  assert (E : Qfloor (Qabs x * 100 + (1 # 2)) = Qfloor (Qabs y * 100 + (1 # 2))).
  { apply Qfloor_eq. rewrite H. reflexivity. }
  rewrite E. reflexivity.
Qed.

Lemma round2_comp (x y : Q) : x == y -> Js.round2 x = Js.round2 y.
Proof.
  intro H. unfold Js.round2. rewrite (toFixed2_cents_comp x y H). reflexivity.
Qed.

Lemma toFixed2_cents_of_cents (c : Z) : Js.toFixed2_cents (Js.cents c) = c.
Proof.
  unfold Js.toFixed2_cents, Js.cents, Js.Qltb, Qle_bool, Qfloor, Qabs, Qmult, Qplus.
  cbn [Qnum Qden].
  replace (Z.pos (100 * 1 * 2)) with 200%Z by reflexivity.
  replace (Z.pos (100 * 1)) with 100%Z by reflexivity.
  replace ((Z.abs c * 100 * 2 + 1 * 100) / 200)%Z with (Z.abs c).
  2:{ apply Z.div_unique with (r := 100%Z); lia. }
  destruct (Z.leb_spec (0 * 100) (c * 1)); cbn [negb]; lia.
Qed.

(** Rounding an amount of whole cents to two decimals gives it back. *)
Lemma round2_cents (c : Z) : Js.round2 (Js.cents c) = Js.cents c.
Proof.
  unfold Js.round2. rewrite toFixed2_cents_of_cents. reflexivity.
Qed.

Lemma round2_cents_eq (x : Q) (c : Z) : x == Js.cents c -> Js.round2 x = Js.cents c.
Proof.
  intro H. rewrite (round2_comp _ _ H). apply round2_cents.
Qed.

Lemma cents_plus (a b : Z) : Js.cents a + Js.cents b == Js.cents (a + b).
Proof. unfold Js.cents, Qeq, Qplus. cbn [Qnum Qden]. lia. Qed.

Lemma cents_minus (a b : Z) : Js.cents a - Js.cents b == Js.cents (a - b).
Proof. unfold Js.cents, Qeq, Qminus, Qplus, Qopp. cbn [Qnum Qden]. lia. Qed.

Lemma cents_opp (a : Z) : - Js.cents a == Js.cents (- a).
Proof. unfold Js.cents, Qeq, Qopp. cbn [Qnum Qden]. lia. Qed.

Lemma cents_le (a b : Z) : Js.cents a <= Js.cents b <-> (a <= b)%Z.
Proof. unfold Js.cents, Qle. cbn [Qnum Qden]. lia. Qed.

Lemma cents_lt (a b : Z) : Js.cents a < Js.cents b <-> (a < b)%Z.
Proof. unfold Js.cents, Qlt. cbn [Qnum Qden]. lia. Qed.

Lemma cents_eq (a b : Z) : Js.cents a == Js.cents b <-> a = b.
Proof. unfold Js.cents, Qeq. cbn [Qnum Qden]. lia. Qed.

Lemma cents_le_0 (a : Z) : Js.cents a <= 0 <-> (a <= 0)%Z.
Proof. unfold Js.cents, Qle. cbn [Qnum Qden]. lia. Qed.

Lemma cents_gt_0 (a : Z) : 0 < Js.cents a <-> (0 < a)%Z.
Proof. unfold Js.cents, Qlt. cbn [Qnum Qden]. lia. Qed.

(** The result of [round2] is a number of whole cents. *)
Lemma round2_is_cents (x : Q) : Js.round2 x = Js.cents (Js.toFixed2_cents x).
Proof. reflexivity. Qed.

Lemma cents_inject (c : Z) : Js.cents c == inject_Z c * (1 # 100).
Proof. unfold Js.cents, Qeq, Qmult, inject_Z. cbn [Qnum Qden]. lia. Qed.

Lemma Qfloor_bounds (y : Q) :
  inject_Z (Qfloor y) <= y /\ y < inject_Z (Qfloor y) + 1.
Proof.
  split; [apply Qfloor_le|].
  pose proof (Qlt_floor y) as H. rewrite inject_Z_plus in H. exact H.
Qed.

(** [round2] rounds half up: to the nearest cent, a tie going to the
    larger magnitude. *)
Lemma round2_half_up (x : Q) : round_half_up2 x (Js.round2 x).
Proof.
  unfold round_half_up2. split; [exists (Js.toFixed2_cents x); reflexivity|].
  unfold Js.round2. fold (Js.cents (Js.toFixed2_cents x)).
  rewrite cents_inject. unfold Js.toFixed2_cents.
  destruct (Qfloor_bounds (Qabs x * 100 + (1 # 2))) as [Hlo Hhi].
  assert (Hn : 0 <= inject_Z (Qfloor (Qabs x * 100 + (1 # 2)))).
  { change 0 with (inject_Z 0). rewrite <- Zle_Qle.
    change 0%Z with (Qfloor 0). apply Qfloor_resp_le.
    pose proof (Qabs_nonneg x). lra. }
  set (n := Qfloor (Qabs x * 100 + (1 # 2))) in *.
  destruct (Js.Qltb x 0) eqn:Hneg.
  - apply Qltb_lt in Hneg.
    assert (Ex : Qabs x == - x) by (apply Qabs_neg; lra).
    rewrite Ex in Hlo, Hhi. rewrite inject_Z_opp.
    split.
    + apply Qabs_Qle_condition. split; lra.
    + intros Htie. rewrite Ex.
      assert (Er : Qabs (- inject_Z n * (1 # 100)) == inject_Z n * (1 # 100))
        by (rewrite Qabs_neg; lra).
      rewrite Er.
      assert (Hd : - inject_Z n * (1 # 100) - x <= 0 \/
                   0 <= - inject_Z n * (1 # 100) - x) by (destruct (Qlt_le_dec 0 (- inject_Z n * (1 # 100) - x)); [right|left]; lra).
      destruct Hd as [Hd|Hd].
      * rewrite Qabs_neg in Htie by exact Hd. lra.
      * rewrite Qabs_pos in Htie by exact Hd. lra.
  - apply Qltb_ge in Hneg.
    assert (Ex : Qabs x == x) by (apply Qabs_pos; exact Hneg).
    rewrite Ex in Hlo, Hhi.
    split.
    + apply Qabs_Qle_condition. split; lra.
    + intros Htie. rewrite Ex.
      assert (Er : Qabs (inject_Z n * (1 # 100)) == inject_Z n * (1 # 100))
        by (rewrite Qabs_pos; lra).
      rewrite Er.
      assert (Hd : inject_Z n * (1 # 100) - x <= 0 \/
                   0 <= inject_Z n * (1 # 100) - x) by (destruct (Qlt_le_dec 0 (inject_Z n * (1 # 100) - x)); [right|left]; lra).
      destruct Hd as [Hd|Hd].
      * rewrite Qabs_neg in Htie by exact Hd. lra.
      * rewrite Qabs_pos in Htie by exact Hd. lra.
Qed.

(** On a number that is not negative, [round2] is the usual
    [floor(100 x + 1/2) / 100]. *)
Lemma round2_nonneg (x : Q) :
  0 <= x -> Js.round2 x = Qfloor (x * 100 + (1 # 2)) # 100.
Proof.
  intros Hx. unfold Js.round2, Js.toFixed2_cents.
  replace (Js.Qltb x 0) with false by (symmetry; apply Qltb_ge; exact Hx).
  f_equal. apply Qfloor_eq. rewrite (Qabs_pos x Hx). reflexivity.
Qed.

Lemma inject_Z_succ_le (n m : Z) : (n < m)%Z -> inject_Z n + 1 <= inject_Z m.
Proof.
  intros H. change 1 with (inject_Z 1). rewrite <- inject_Z_plus.
  rewrite <- Zle_Qle. lia.
Qed.

(** Between two numbers of whole cents that both are half-up roundings
    of [x], the smaller one cannot be. *)
Lemma round_half_up2_order (x r r' : Q) (n m : Z) :
  r == Js.cents n -> r' == Js.cents m -> (n < m)%Z ->
  round_half_up2 x r -> round_half_up2 x r' -> False.
Proof.
  intros Hr Hr' Hlt (_ & Hnear & Htie) (_ & Hnear' & Htie').
  rewrite cents_inject in Hr, Hr'.
  pose proof (inject_Z_succ_le n m Hlt) as Hstep.
  apply Qabs_Qle_condition in Hnear. apply Qabs_Qle_condition in Hnear'.
  assert (Ed : r - x == - (1 # 200)) by lra.
  assert (Ed' : r' - x == 1 # 200) by lra.
  assert (Hx : Qabs x < Qabs r).
  { apply Htie. rewrite Ed. reflexivity. }
  assert (Hx' : Qabs x < Qabs r').
  { apply Htie'. rewrite Ed'. reflexivity. }
  destruct (Z.le_gt_cases 0 n) as [Hn|Hn].
  - assert (H0 : 0 <= inject_Z n) by (change 0 with (inject_Z 0); rewrite <- Zle_Qle; exact Hn).
    rewrite (Qabs_pos x) in Hx by lra. rewrite (Qabs_pos r) in Hx by lra. lra.
  - assert (H0 : inject_Z n + 1 <= 0).
    { change 0 with (inject_Z 0). apply inject_Z_succ_le. exact Hn. }
    rewrite (Qabs_neg x) in Hx' by lra. rewrite (Qabs_neg r') in Hx' by lra. lra.
Qed.

(** Rounding half up to two decimals determines its result. *)
Lemma round_half_up2_unique (x r r' : Q) :
  round_half_up2 x r -> round_half_up2 x r' -> r == r'.
Proof.
  intros H H'.
  destruct H as ((n & Hn) & Hrest). destruct H' as ((m & Hm) & Hrest').
  destruct (Z.lt_trichotomy n m) as [Hlt | [-> | Hgt]].
  - exfalso. apply (round_half_up2_order x r r' n m Hn Hm Hlt);
      (split; [eexists; eassumption|assumption]).
  - rewrite Hn, Hm. reflexivity.
  - exfalso. apply (round_half_up2_order x r' r m n Hm Hn Hgt);
      (split; [eexists; eassumption|assumption]).
Qed.

End Numbers.

(** ** Arrays *)

Section Arrays.

Context {A : Type}.
Implicit Types (p q : A -> bool) (l : list A) (x y z : A).

Lemma set_nth_length l i x : List.length (Js.set_nth l i x) = List.length l.
Proof.
  revert i; induction l as [|a l IH]; intros [|i]; cbn; auto.
Qed.

Lemma assign_at_length l o x : List.length (Js.assign_at l o x) = List.length l.
Proof. destruct o; cbn; auto using set_nth_length. Qed.

Lemma findIndex_None p l : find p l = None -> Js.findIndex p l = None.
Proof.
  induction l as [|a l IH]; cbn; auto.
  destruct (p a); [discriminate|]. intro H. rewrite (IH H). reflexivity.
Qed.

Lemma findIndex_Some p l x :
  find p l = Some x ->
  exists i, Js.findIndex p l = Some i /\ nth_error l i = Some x.
Proof.
  induction l as [|a l IH]; cbn; [discriminate|].
  destruct (p a).
  - intros [= ->]. exists O. auto.
  - intro H. destruct (IH H) as (i & Hi & Hn).
    exists (S i). rewrite Hi. auto.
Qed.

(** Writing [y] at the first index that satisfies [q], when the first
    element satisfying [p] satisfies [q] too, makes [y] the first
    element satisfying [p]. *)
Lemma find_assign_at p q l y z :
  p y = true -> find p l = Some z -> q z = true ->
  find p (Js.assign_at l (Js.findIndex q l) y) = Some y.
Proof.
  intros Hy. induction l as [|a l IH]; cbn; [discriminate|].
  destruct (q a) eqn:Hq; cbn.
  - intros _ _. rewrite Hy. reflexivity.
  - destruct (p a) eqn:Hp.
    + intros [= ->]. congruence.
    + intros Hz Hqz. specialize (IH Hz Hqz).
      destruct (Js.findIndex q l); cbn in *; rewrite Hp; exact IH.
Qed.

Lemma find_assign_at_same p l y z :
  p y = true -> find p l = Some z ->
  find p (Js.assign_at l (Js.findIndex p l) y) = Some y.
Proof.
  intros Hy Hz. apply find_assign_at with (z := z); auto.
  apply (find_some _ _ Hz).
Qed.

(** Writing at the first index satisfying [q] an element that [p]
    rejects, over an element that [p] rejects, does not change what
    [find p] returns. *)
Lemma find_assign_at_other p q l y :
  p y = false -> (forall x, q x = true -> p x = false) ->
  find p (Js.assign_at l (Js.findIndex q l) y) = find p l.
Proof.
  intros Hy Hq. induction l as [|a l IH]; cbn; auto.
  destruct (q a) eqn:Ha; cbn.
  - rewrite Hy, (Hq _ Ha). reflexivity.
  - destruct (Js.findIndex q l); cbn in *; destruct (p a); auto.
Qed.

(** The number of elements satisfying [p] is kept when an element is
    overwritten by one that [p] judges the same way. *)
Lemma count_set_nth p l i x y :
  nth_error l i = Some x -> p y = p x ->
  List.length (filter p (Js.set_nth l i y)) = List.length (filter p l).
Proof.
  revert i; induction l as [|a l IH]; intros [|i]; cbn; try discriminate.
  - intros [= ->] ->. destruct (p x); reflexivity.
  - intros Hn Hp. destruct (p a); cbn; rewrite (IH _ Hn Hp); reflexivity.
Qed.

Lemma nth_error_set_nth l i x :
  (i < List.length l)%nat -> nth_error (Js.set_nth l i x) i = Some x.
Proof.
  revert i; induction l as [|a l IH]; intros [|i]; cbn; try lia; auto.
  intro H. apply IH. lia.
Qed.

Lemma nth_error_set_nth_other l i j x :
  i <> j -> nth_error (Js.set_nth l i x) j = nth_error l j.
Proof.
  revert i j; induction l as [|a l IH]; intros [|i] [|j]; cbn; auto; try congruence.
Qed.

End Arrays.

(** ** Bills *)


Ltac bill_fields :=
  unfold Bill.with_paid_amount, Bill.with_status, Bill.with_payments;
  cbn [Bill.id Bill.tenantId Bill.month Bill.electricity_kwh Bill.electricity_rate
       Bill.electricity_amount Bill.water_cubic Bill.water_rate Bill.water_amount
       Bill.total_amount Bill.paid_amount Bill.status Bill.createdDate
       Bill.dueDate Bill.payments].

Section BillPayments.

Variables (bill : Bill.t) (paidAmount : Q) (paymentId : string).

Local Abbreviation bill' := (applyBillPayment bill paidAmount paymentId).
Local Abbreviation sum := (Js.round2 (Bill.paid_amount bill + paidAmount)).

(** The three outcomes of the status update, by case on the rounded sum. *)
Lemma applyBillPayment_cases :
  (Bill.total_amount bill <= sum /\
   Bill.paid_amount bill' = Bill.total_amount bill /\
   Bill.status bill' = "paid"%string)
  \/ (sum < Bill.total_amount bill /\ 0 < sum /\
      Bill.paid_amount bill' = sum /\ Bill.status bill' = "partial"%string)
  \/ (sum < Bill.total_amount bill /\ sum <= 0 /\
      Bill.paid_amount bill' = sum /\ Bill.status bill' = "unpaid"%string).
Proof.
  unfold applyBillPayment. bill_fields.
  destruct (Qle_bool _ _) eqn:Hcap.
  - left. apply Qle_bool_iff in Hcap. bill_fields. auto.
  - assert (Hlt : sum < Bill.total_amount bill).
    { apply Qnot_le_lt. intro H. apply Qle_bool_iff in H. congruence. }
    destruct (Js.Qltb _ _) eqn:Hpos; bill_fields.
    + right; left. apply Qltb_lt in Hpos. auto.
    + right; right. apply Qltb_ge in Hpos. auto.
Qed.

Lemma applyBillPayment_id : Bill.id bill' = Bill.id bill.
Proof.
  unfold applyBillPayment. bill_fields.
  destruct (Qle_bool _ _); [|destruct (Js.Qltb _ _)]; reflexivity.
Qed.

Lemma applyBillPayment_total : Bill.total_amount bill' = Bill.total_amount bill.
Proof.
  unfold applyBillPayment. bill_fields.
  destruct (Qle_bool _ _); [|destruct (Js.Qltb _ _)]; reflexivity.
Qed.

Lemma applyBillPayment_payments :
  Bill.payments bill' = Bill.payments bill ++ [paymentId].
Proof.
  unfold applyBillPayment. bill_fields.
  destruct (Qle_bool _ _); [|destruct (Js.Qltb _ _)]; reflexivity.
Qed.

(** After the update the paid amount never exceeds the total. *)
Lemma applyBillPayment_capped : Bill.paid_amount bill' <= Bill.total_amount bill'.
Proof.
  rewrite applyBillPayment_total.
  destruct applyBillPayment_cases as [(_ & -> & _) | [(H & _ & -> & _) | (H & _ & -> & _)]].
  - apply Qle_refl.
  - apply Qlt_le_weak, H.
  - apply Qlt_le_weak, H.
Qed.

Lemma applyBillPayment_unpaid :
  Bill.paid_amount bill' <= 0 ->
  Bill.paid_amount bill' < Bill.total_amount bill' ->
  Bill.status bill' = "unpaid"%string.
Proof.
  rewrite applyBillPayment_total.
  destruct applyBillPayment_cases as [(_ & E & _) | [(_ & H & E & _) | (_ & _ & _ & E)]].
  - rewrite E. intros _ H. exfalso. exact (Qlt_irrefl _ H).
  - rewrite E. intros H0 _. exfalso. exact (Qlt_not_le _ _ H H0).
  - intros _ _. exact E.
Qed.

End BillPayments.

Lemma updateBillStatus_found s billId paidAmount paymentId bill :
  getBillById s billId = Some bill ->
  let r := updateBillStatus s billId paidAmount paymentId in
  fst r = Some (applyBillPayment bill paidAmount paymentId)
  /\ getBillById (snd r) billId = Some (applyBillPayment bill paidAmount paymentId)
  /\ Store.payments (snd r) = Store.payments s
  /\ Store.rent_statuses (snd r) = Store.rent_statuses s.
Proof.
  unfold getBillById, getAllBills, updateBillStatus. intros H.
  unfold getAllBills. rewrite H. cbn.
  repeat split.
  apply find_assign_at_same with (z := bill); auto.
  rewrite applyBillPayment_id. apply (find_some _ _ H).
Qed.

Lemma updateBillStatus_missing s billId paidAmount paymentId :
  getBillById s billId = None ->
  updateBillStatus s billId paidAmount paymentId = (None, s).
Proof.
  unfold getBillById, getAllBills, updateBillStatus. intros H.
  unfold getAllBills. rewrite H. reflexivity.
Qed.

Lemma updateBillStatus_all_snoc s billId calls paidAmount paymentId :
  updateBillStatus_all s billId (calls ++ [(paidAmount, paymentId)])
  = snd (updateBillStatus (updateBillStatus_all s billId calls) billId
           paidAmount paymentId).
Proof.
  revert s. induction calls as [|[a p] calls IH]; intro s; cbn; auto.
Qed.

Lemma updateBillStatus_all_found s billId calls bill :
  getBillById s billId = Some bill ->
  exists bill', getBillById (updateBillStatus_all s billId calls) billId = Some bill'
                /\ Bill.total_amount bill' = Bill.total_amount bill.
Proof.
  revert s bill. induction calls as [|[a p] calls IH]; intros s bill H; cbn.
  - eauto.
  - destruct (updateBillStatus_found s billId a p bill H) as (_ & H1 & _).
    destruct (IH _ _ H1) as (b' & Hb' & Ht).
    exists b'. split; auto. rewrite Ht. apply applyBillPayment_total.
Qed.

(** C2 (amended). After every call of a non-empty sequence of
    [updateBillStatus] calls on an existing bill, with amounts of either
    sign, the stored bill has [paid_amount <= total_amount] (the total
    itself is never changed), and its status is ['unpaid'] whenever
    [paid_amount <= 0] and [paid_amount < total_amount]. *)
Theorem updateBillStatus_paid_le_total
    (s : Store.t) (billId : string) (bill : Bill.t) (calls : list (Q * string)) :
  getBillById s billId = Some bill ->
  calls <> [] ->
  exists bill',
    getBillById (updateBillStatus_all s billId calls) billId = Some bill'
    /\ Bill.total_amount bill' = Bill.total_amount bill
    /\ Bill.paid_amount bill' <= Bill.total_amount bill'
    /\ (Bill.paid_amount bill' <= 0 ->
        Bill.paid_amount bill' < Bill.total_amount bill' ->
        Bill.status bill' = "unpaid"%string).
Proof.
  intros Hbill Hne.
  destruct (exists_last Hne) as (init & [a p] & ->).
  rewrite updateBillStatus_all_snoc.
  destruct (updateBillStatus_all_found s billId init bill Hbill) as (b1 & Hb1 & Ht1).
  destruct (updateBillStatus_found _ billId a p b1 Hb1) as (_ & Hb2 & _).
  exists (applyBillPayment b1 a p). split; [exact Hb2|].
  split; [rewrite applyBillPayment_total; exact Ht1|].
  split; [apply applyBillPayment_capped|apply applyBillPayment_unpaid].
Qed.

(** ** Rent statuses *)

Ltac rent_fields :=
  unfold RentStatus.with_paid_amount, RentStatus.with_remaining_amount,
    RentStatus.with_status, RentStatus.with_payments;
  cbn [RentStatus.id RentStatus.tenantId RentStatus.month
       RentStatus.required_amount RentStatus.paid_amount
       RentStatus.remaining_amount RentStatus.status RentStatus.payments
       RentStatus.createdDate RentStatus.dueDate].

Section RentPayments.

Variables (status : RentStatus.t) (paidAmount : Q) (paymentId : string).

Local Abbreviation status' := (applyRentPayment status paidAmount paymentId).
Local Abbreviation paid1 := (Js.round2 (RentStatus.paid_amount status + paidAmount)).
Local Abbreviation rest1 := (Js.round2 (RentStatus.required_amount status - paid1)).

Lemma applyRentPayment_cases :
  RentStatus.paid_amount status' = paid1 /\
  ((rest1 <= 0 /\ RentStatus.remaining_amount status' = 0
    /\ RentStatus.status status' = "paid"%string)
   \/ (0 < rest1 /\ 0 < paid1 /\ RentStatus.remaining_amount status' = rest1
       /\ RentStatus.status status' = "partial"%string)
   \/ (0 < rest1 /\ paid1 <= 0 /\ RentStatus.remaining_amount status' = rest1
       /\ RentStatus.status status' = "unpaid"%string)).
Proof.
  unfold applyRentPayment. rent_fields.
  destruct (Qle_bool _ _) eqn:Hdone.
  - rent_fields. split; [reflexivity|]. left.
    apply Qle_bool_iff in Hdone. auto.
  - assert (Hlt : 0 < rest1).
    { apply Qnot_le_lt. intro H. apply Qle_bool_iff in H. congruence. }
    destruct (Js.Qltb _ _) eqn:Hpos; rent_fields; (split; [reflexivity|]).
    + right; left. apply Qltb_lt in Hpos. auto.
    + right; right. apply Qltb_ge in Hpos. auto.
Qed.

Lemma applyRentPayment_frame :
  RentStatus.id status' = RentStatus.id status
  /\ RentStatus.tenantId status' = RentStatus.tenantId status
  /\ RentStatus.month status' = RentStatus.month status
  /\ RentStatus.required_amount status' = RentStatus.required_amount status
  /\ RentStatus.payments status' = RentStatus.payments status ++ [paymentId].
Proof.
  unfold applyRentPayment. rent_fields.
  destruct (Qle_bool _ _); [|destruct (Js.Qltb _ _)]; rent_fields; auto.
Qed.

(** On whole cents the update is exact: the paid amount is the sum, the
    remaining amount is what is still owed and never negative, and the
    status follows the paid/partial/unpaid rule. *)
Lemma applyRentPayment_cents (r p a : Z) :
  RentStatus.required_amount status == Js.cents r ->
  RentStatus.paid_amount status == Js.cents p ->
  paidAmount == Js.cents a ->
  RentStatus.paid_amount status' = Js.cents (p + a)
  /\ RentStatus.remaining_amount status' == Js.cents (Z.max 0 (r - (p + a)))
  /\ RentStatus.status status' = status_rule (Js.cents r) (Js.cents (p + a)).
Proof.
  intros Hr Hp Ha.
  assert (E1 : paid1 = Js.cents (p + a)).
  { apply round2_cents_eq. rewrite Hp, Ha. apply cents_plus. }
  assert (E2 : rest1 = Js.cents (r - (p + a))).
  { apply round2_cents_eq. rewrite E1, Hr. apply cents_minus. }
  destruct applyRentPayment_cases as (Hpaid & Hcases).
  rewrite E1 in Hpaid. split; [exact Hpaid|].
  rewrite E2, E1 in Hcases. unfold status_rule.
  destruct Hcases as [(H & -> & ->) | [(H & H0 & -> & ->) | (H & H0 & -> & ->)]].
  - apply (proj1 (cents_le_0 _)) in H.
    rewrite Z.max_l by lia. split; [reflexivity|].
    replace (Qle_bool (Js.cents r) (Js.cents (p + a))) with true; [reflexivity|].
    symmetry. apply Qle_bool_iff, cents_le. lia.
  - apply (proj1 (cents_gt_0 _)) in H. apply (proj1 (cents_gt_0 _)) in H0.
    rewrite Z.max_r by lia. split; [reflexivity|].
    replace (Qle_bool (Js.cents r) (Js.cents (p + a))) with false.
    2:{ symmetry. destruct (Qle_bool _ _) eqn:E; [|reflexivity].
        apply Qle_bool_iff in E. apply (proj1 (cents_le _ _)) in E. lia. }
    replace (Js.Qltb 0 (Js.cents (p + a))) with true; [reflexivity|].
    symmetry. apply Qltb_lt, cents_gt_0. lia.
  - apply (proj1 (cents_gt_0 _)) in H. apply (proj1 (cents_le_0 _)) in H0.
    rewrite Z.max_r by lia. split; [reflexivity|].
    replace (Qle_bool (Js.cents r) (Js.cents (p + a))) with false.
    2:{ symmetry. destruct (Qle_bool _ _) eqn:E; [|reflexivity].
        apply Qle_bool_iff in E. apply (proj1 (cents_le _ _)) in E. lia. }
    replace (Js.Qltb 0 (Js.cents (p + a))) with false; [reflexivity|].
    symmetry. apply Qltb_ge, cents_le_0. lia.
Qed.

End RentPayments.

(** A stored status is updated where it stands and can be read back. *)
Lemma updateRentStatus_found s env tenantId month paidAmount paymentId status :
  findRentStatus s tenantId month = Some status ->
  let r := updateRentStatus s env tenantId month paidAmount paymentId in
  fst r = applyRentPayment status paidAmount paymentId
  /\ findRentStatus (snd r) tenantId month
     = Some (applyRentPayment status paidAmount paymentId)
  /\ Store.payments (snd r) = Store.payments s
  /\ Store.bills (snd r) = Store.bills s.
Proof.
  unfold findRentStatus, getAllRentStatuses, updateRentStatus. intros H.
  unfold getAllRentStatuses. rewrite H. cbn.
  repeat split.
  pose proof (applyRentPayment_frame status paidAmount paymentId)
    as (Hid & Hten & Hmon & _).
  assert (Hkey : same_rent_key tenantId month
                   (applyRentPayment status paidAmount paymentId) = true).
  { unfold same_rent_key. rewrite Hten, Hmon. apply (find_some _ _ H). }
  set (status' := applyRentPayment status paidAmount paymentId) in *.
  apply find_assign_at with (z := status'); auto.
  - apply find_assign_at_same with (z := status); auto.
  - apply String.eqb_refl.
Qed.

Lemma status_rule_comp (r r' p p' : Q) :
  r == r' -> p == p' -> status_rule r p = status_rule r' p'.
Proof.
  intros Hr Hp. unfold status_rule.
  rewrite (Qle_bool_comp _ _ _ _ Hr Hp), (Qltb_comp _ _ _ _ (Qeq_refl 0) Hp). reflexivity.
Qed.

Lemma Qmax_0_cents (c : Z) : Qmax 0 (Js.cents c) == Js.cents (Z.max 0 c).
Proof.
  destruct (Z.le_gt_cases c 0) as [H|H].
  - rewrite Z.max_l by lia. rewrite Q.max_l; [reflexivity|].
    apply cents_le_0. exact H.
  - rewrite Z.max_r by lia. rewrite Q.max_r; [reflexivity|].
    apply Qlt_le_weak, cents_gt_0. exact H.
Qed.

Lemma is_cents_plus (x y : Q) : is_cents x -> is_cents y -> is_cents (x + y).
Proof.
  intros [a Ha] [b Hb]. exists (a + b)%Z. rewrite Ha, Hb. apply cents_plus.
Qed.

(** One call on a stored status holding whole cents. *)
Lemma updateRentStatus_step s env tenantId month paidAmount paymentId status :
  findRentStatus s tenantId month = Some status ->
  is_cents (RentStatus.required_amount status) ->
  is_cents (RentStatus.paid_amount status) ->
  is_cents paidAmount ->
  exists status',
    findRentStatus (snd (updateRentStatus s env tenantId month paidAmount paymentId))
      tenantId month = Some status'
    /\ RentStatus.required_amount status' = RentStatus.required_amount status
    /\ RentStatus.paid_amount status' == RentStatus.paid_amount status + paidAmount
    /\ is_cents (RentStatus.paid_amount status')
    /\ RentStatus.remaining_amount status'
       == Qmax 0 (RentStatus.required_amount status' - RentStatus.paid_amount status')
    /\ RentStatus.status status'
       = status_rule (RentStatus.required_amount status')
           (RentStatus.paid_amount status').
Proof.
  intros Hfind [r Hr] [p Hp] [a Ha].
  destruct (updateRentStatus_found s env tenantId month paidAmount paymentId status Hfind)
    as (_ & Hfound & _).
  destruct (applyRentPayment_cents status paidAmount paymentId r p a Hr Hp Ha) as (Epaid & Erem & Est).
  destruct (applyRentPayment_frame status paidAmount paymentId)
    as (_ & _ & _ & Ereq & _).
  exists (applyRentPayment status paidAmount paymentId).
  split; [exact Hfound|]. split; [exact Ereq|].
  split; [rewrite Epaid, Hp, Ha; symmetry; apply cents_plus|].
  split; [exists (p + a)%Z; rewrite Epaid; reflexivity|].
  split.
  - rewrite Erem, Ereq, Epaid, Hr, cents_minus. symmetry. apply Qmax_0_cents.
  - rewrite Est, Ereq, Epaid. apply status_rule_comp; [symmetry; exact Hr|reflexivity].
Qed.

Lemma updateRentStatus_all_cents s env tenantId month calls status :
  findRentStatus s tenantId month = Some status ->
  is_cents (RentStatus.required_amount status) ->
  is_cents (RentStatus.paid_amount status) ->
  Forall (fun call => is_cents (fst call)) calls ->
  exists status',
    findRentStatus (updateRentStatus_all s env tenantId month calls) tenantId month
      = Some status'
    /\ RentStatus.required_amount status' = RentStatus.required_amount status
    /\ RentStatus.paid_amount status'
       == RentStatus.paid_amount status + Qsum (map fst calls)
    /\ (calls <> [] ->
        RentStatus.remaining_amount status'
        == Qmax 0 (RentStatus.required_amount status' - RentStatus.paid_amount status')
        /\ RentStatus.status status'
           = status_rule (RentStatus.required_amount status')
               (RentStatus.paid_amount status')).
Proof.
  revert s status.
  induction calls as [|[a pid] rest IH]; intros s status Hfind Hreq Hpaid Hall.
  - exists status. cbn. repeat split; auto.
    + rewrite Qplus_0_r. reflexivity.
    + congruence.
    + congruence.
  - inversion Hall as [|? ? Ha Hrest]; subst. cbn [fst] in Ha.
    destruct (updateRentStatus_step s env tenantId month a pid status Hfind Hreq Hpaid Ha)
      as (st1 & Hf1 & Hr1 & Hp1 & Hc1 & Hrem1 & Hst1).
    assert (Hreq1 : is_cents (RentStatus.required_amount st1)) by (rewrite Hr1; exact Hreq).
    destruct (IH _ _ Hf1 Hreq1 Hc1 Hrest) as (st2 & Hf2 & Hr2 & Hp2 & Hlast).
    exists st2. cbn [updateRentStatus_all map Qsum fst].
    split; [exact Hf2|]. split; [congruence|].
    split; [rewrite Hp2, Hp1; symmetry; apply Qplus_assoc|].
    intros _. destruct rest as [|c rest'].
    + cbn in Hf2. rewrite Hf1 in Hf2. injection Hf2 as <-. auto.
    + apply Hlast. discriminate.
Qed.

(** C4 (amended). A stored rent status has a required and a paid
    amount of whole cents, and payments of whole cents are applied to
    it by [updateRentStatus], at least one. After every application the
    remaining amount is [max(0, required - paid)] and the status follows
    the paid/partial/unpaid rule; when what was paid before and the
    payments sum to the required amount, the status is ['paid'] and
    nothing remains. *)
Theorem updateRentStatus_whole_cents
    (s : Store.t) (env : Env.t) (tenantId month : string)
    (status : RentStatus.t) (calls : list (Q * string)) :
  findRentStatus s tenantId month = Some status ->
  is_cents (RentStatus.required_amount status) ->
  is_cents (RentStatus.paid_amount status) ->
  Forall (fun call => is_cents (fst call)) calls ->
  calls <> [] ->
  exists status',
    findRentStatus (updateRentStatus_all s env tenantId month calls) tenantId month
      = Some status'
    /\ RentStatus.required_amount status' = RentStatus.required_amount status
    /\ RentStatus.paid_amount status'
       == RentStatus.paid_amount status + Qsum (map fst calls)
    /\ RentStatus.remaining_amount status'
       == Qmax 0 (RentStatus.required_amount status' - RentStatus.paid_amount status')
    /\ RentStatus.status status'
       = status_rule (RentStatus.required_amount status')
           (RentStatus.paid_amount status')
    /\ (RentStatus.paid_amount status + Qsum (map fst calls)
        == RentStatus.required_amount status ->
        RentStatus.status status' = "paid"%string
        /\ RentStatus.remaining_amount status' == 0).
Proof.
  intros Hfind Hreq Hpaid Hall Hne.
  destruct (updateRentStatus_all_cents s env tenantId month calls status
              Hfind Hreq Hpaid Hall)
    as (st & Hf & Hr & Hp & Hlast).
  destruct (Hlast Hne) as (Hrem & Hst).
  exists st. repeat (split; [assumption|]).
  intros Hsum.
  assert (E : RentStatus.paid_amount st == RentStatus.required_amount st).
  { rewrite Hp, Hr. exact Hsum. }
  split.
  - rewrite Hst. unfold status_rule.
    replace (Qle_bool (RentStatus.required_amount st) (RentStatus.paid_amount st))
      with true; [reflexivity|].
    symmetry. apply Qle_bool_iff. rewrite E. apply Qle_refl.
  - rewrite Hrem, E. rewrite Q.max_l; [reflexivity|].
    unfold Qminus. rewrite Qplus_opp_r. apply Qle_refl.
Qed.

(** ** Payment status transitions *)

Ltac payment_fields :=
  unfold Payment.with_status, Payment.with_adminNotes, Payment.with_paidDate;
  cbn [Payment.id Payment.payment_type Payment.billId Payment.tenantId
       Payment.tenantName Payment.unitNumber Payment.amount Payment.month
       Payment.method Payment.status Payment.reference Payment.submittedDate
       Payment.paidDate Payment.notes Payment.adminNotes Payment.metadata].

Lemma same_target_refl p : same_target p p.
Proof. repeat split. Qed.

Lemma same_target_trans p p' p'' :
  same_target p p' -> same_target p' p'' -> same_target p p''.
Proof.
  unfold same_target. intros (?&?&?&?&?&?) (?&?&?&?&?&?).
  repeat split; congruence.
Qed.

Lemma target_paid_amount_same s p p' :
  same_target p p' -> target_paid_amount s p' = target_paid_amount s p.
Proof.
  unfold same_target, target_paid_amount. intros (_ & -> & -> & -> & -> & _).
  reflexivity.
Qed.

Lemma applyToLedger_payments s env p delta :
  Store.payments (applyToLedger s env p delta) = Store.payments s.
Proof.
  unfold applyToLedger.
  destruct (String.eqb (Payment.payment_type p) "rent").
  - unfold updateRentStatus.
    destruct (find _ _); [reflexivity|].
    unfold getRentStatus. unfold getAllRentStatuses.
    destruct (find _ (Store.rent_statuses s)); reflexivity.
  - destruct (String.eqb (Payment.payment_type p) "bill"); [|reflexivity].
    destruct (Payment.billId p); [|reflexivity].
    unfold updateBillStatus. destruct (find _ _); reflexivity.
Qed.

(** What [updatePaymentStatus] does to a stored payment: the new record
    is stored under the same identifier, and the ledger is the one that
    [applyToLedger] leaves, or the earlier one. *)
Lemma updatePaymentStatus_verified s env paymentId adminNotes p :
  getPaymentById s paymentId = Some p ->
  let p2 :=
    Payment.with_paidDate
      (Payment.with_adminNotes (Payment.with_status p "verified") adminNotes)
      (Some (Env.now_iso env)) in
  let s' := snd (updatePaymentStatus s env paymentId "verified" adminNotes) in
  getPaymentById s' paymentId = Some p2
  /\ Store.bills s' = Store.bills (applyToLedger s env p2 (Payment.amount p))
  /\ Store.rent_statuses s'
     = Store.rent_statuses (applyToLedger s env p2 (Payment.amount p)).
Proof.
  unfold getPaymentById, getAllPayments, updatePaymentStatus. intros H.
  unfold getAllPayments. rewrite H. cbn.
  repeat split.
  apply find_assign_at_same with (z := p); auto.
  payment_fields. apply (find_some _ _ H).
Qed.

Lemma updatePaymentStatus_rejected_verified s env paymentId adminNotes p :
  getPaymentById s paymentId = Some p ->
  Payment.status p = "verified"%string ->
  let p1 := Payment.with_adminNotes (Payment.with_status p "rejected") adminNotes in
  let s' := snd (updatePaymentStatus s env paymentId "rejected" adminNotes) in
  getPaymentById s' paymentId = Some p1
  /\ Store.bills s' = Store.bills (applyToLedger s env p1 (- Payment.amount p))
  /\ Store.rent_statuses s'
     = Store.rent_statuses (applyToLedger s env p1 (- Payment.amount p)).
Proof.
  unfold getPaymentById, getAllPayments, updatePaymentStatus. intros H Hst.
  unfold getAllPayments. rewrite H, Hst. cbn.
  repeat split.
  apply find_assign_at_same with (z := p); auto.
  payment_fields. apply (find_some _ _ H).
Qed.

Lemma updatePaymentStatus_rejected_other s env paymentId adminNotes p :
  getPaymentById s paymentId = Some p ->
  Payment.status p <> "verified"%string ->
  let p1 := Payment.with_adminNotes (Payment.with_status p "rejected") adminNotes in
  let r := updatePaymentStatus s env paymentId "rejected" adminNotes in
  fst r = Some p1
  /\ getPaymentById (snd r) paymentId = Some p1
  /\ Store.bills (snd r) = Store.bills s
  /\ Store.rent_statuses (snd r) = Store.rent_statuses s.
Proof.
  unfold getPaymentById, getAllPayments, updatePaymentStatus. intros H Hst.
  unfold getAllPayments. rewrite H.
  apply String.eqb_neq in Hst. rewrite Hst. cbn.
  repeat split.
  apply find_assign_at_same with (z := p); auto.
  payment_fields. apply (find_some _ _ H).
Qed.

Lemma getBillById_ext s s' billId :
  Store.bills s' = Store.bills s -> getBillById s' billId = getBillById s billId.
Proof. unfold getBillById, getAllBills. intros ->. reflexivity. Qed.

Lemma findRentStatus_ext s s' tenantId month :
  Store.rent_statuses s' = Store.rent_statuses s ->
  findRentStatus s' tenantId month = findRentStatus s tenantId month.
Proof. unfold findRentStatus, getAllRentStatuses. intros ->. reflexivity. Qed.

Lemma target_paid_amount_ext s s' p :
  Store.bills s' = Store.bills s ->
  Store.rent_statuses s' = Store.rent_statuses s ->
  target_paid_amount s' p = target_paid_amount s p.
Proof.
  intros Hb Hr. unfold target_paid_amount.
  rewrite (findRentStatus_ext _ _ _ _ Hr).
  destruct (Payment.billId p) as [billId|]; [|reflexivity].
  rewrite (getBillById_ext _ _ billId Hb). reflexivity.
Qed.

Lemma within_total_ext s s' p :
  Store.bills s' = Store.bills s -> within_total s p -> within_total s' p.
Proof.
  intros Hb. unfold within_total.
  destruct (Payment.billId p) as [billId|]; [|auto].
  rewrite (getBillById_ext _ _ billId Hb). auto.
Qed.

(** The bill update is exact when the rounded sum is the sum and the
    total is not exceeded. *)
Lemma applyBillPayment_exact bill paidAmount paymentId (c : Z) :
  Bill.paid_amount bill + paidAmount == Js.cents c ->
  Js.cents c <= Bill.total_amount bill ->
  Bill.paid_amount (applyBillPayment bill paidAmount paymentId) == Js.cents c.
Proof.
  intros Hsum Hle.
  pose proof (round2_cents_eq _ _ Hsum) as E.
  destruct (applyBillPayment_cases bill paidAmount paymentId)
    as [(H & -> & _) | [(_ & _ & -> & _) | (_ & _ & -> & _)]].
  - rewrite E in H. apply Qle_antisym; assumption.
  - rewrite E. reflexivity.
  - rewrite E. reflexivity.
Qed.

Lemma applyRentPayment_paid status paidAmount paymentId :
  RentStatus.paid_amount (applyRentPayment status paidAmount paymentId)
  = Js.round2 (RentStatus.paid_amount status + paidAmount).
Proof. apply applyRentPayment_cases. Qed.

(** The ledger entry of a rent payment after [applyToLedger]. *)
Lemma applyToLedger_rent s env p delta status :
  Payment.payment_type p = "rent"%string ->
  findRentStatus s (Payment.tenantId p) (Payment.month p) = Some status ->
  findRentStatus (applyToLedger s env p delta) (Payment.tenantId p) (Payment.month p)
  = Some (applyRentPayment status delta (Payment.id p))
  /\ Store.bills (applyToLedger s env p delta) = Store.bills s.
Proof.
  intros Hty Hfind. unfold applyToLedger. rewrite Hty. cbn [String.eqb].
  replace (String.eqb "rent" "rent") with true by reflexivity.
  destruct (updateRentStatus_found s env _ _ delta (Payment.id p) status Hfind)
    as (_ & H1 & _ & H2).
  split; assumption.
Qed.

(** The ledger entry of a bill payment after [applyToLedger]. *)
Lemma applyToLedger_bill s env p delta billId bill :
  Payment.payment_type p = "bill"%string ->
  Payment.billId p = Some billId ->
  getBillById s billId = Some bill ->
  getBillById (applyToLedger s env p delta) billId
  = Some (applyBillPayment bill delta (Payment.id p))
  /\ Store.rent_statuses (applyToLedger s env p delta) = Store.rent_statuses s.
Proof.
  intros Hty Hid Hfind. unfold applyToLedger. rewrite Hty, Hid.
  replace (String.eqb "bill" "rent") with false by reflexivity.
  replace (String.eqb "bill" "bill") with true by reflexivity.
  destruct (updateBillStatus_found s billId delta (Payment.id p) bill Hfind)
    as (_ & H1 & _ & H2).
  split; assumption.
Qed.

(** Adding [delta] to the entry a payment targets, on whole cents and
    within the total of a bill, gives the exact sum; the total of the
    bill stays. *)
Lemma applyToLedger_exact s env p delta q (c : Z) :
  target_paid_amount s p = Some q ->
  q + delta == Js.cents c ->
  (forall billId bill,
      Payment.payment_type p = "bill"%string ->
      Payment.billId p = Some billId -> getBillById s billId = Some bill ->
      Js.cents c <= Bill.total_amount bill) ->
  exists q',
    target_paid_amount (applyToLedger s env p delta) p = Some q'
    /\ q' == Js.cents c
    /\ (forall billId bill,
          Payment.payment_type p = "bill"%string ->
          Payment.billId p = Some billId -> getBillById s billId = Some bill ->
          exists bill',
            getBillById (applyToLedger s env p delta) billId = Some bill'
            /\ Bill.total_amount bill' = Bill.total_amount bill).
Proof.
  unfold target_paid_amount. intros Htarget Hsum Hroom.
  destruct (String.eqb (Payment.payment_type p) "rent") eqn:Hrent.
  - apply String.eqb_eq in Hrent.
    destruct (findRentStatus s _ _) as [status|] eqn:Hfind; [|discriminate].
    cbn in Htarget. injection Htarget as <-.
    destruct (applyToLedger_rent s env p delta status Hrent Hfind) as (H1 & _).
    rewrite H1. cbn. eexists. split; [reflexivity|].
    split.
    + rewrite applyRentPayment_paid, (round2_cents_eq _ _ Hsum). reflexivity.
    + intros billId bill Hty. rewrite Hrent in Hty. discriminate.
  - destruct (String.eqb (Payment.payment_type p) "bill") eqn:Hbill; [|discriminate].
    apply String.eqb_eq in Hbill.
    destruct (Payment.billId p) as [billId|] eqn:Hid; [|discriminate].
    destruct (getBillById s billId) as [bill|] eqn:Hfind; [|discriminate].
    cbn in Htarget. injection Htarget as <-.
    destruct (applyToLedger_bill s env p delta billId bill Hbill Hid Hfind) as (H1 & _).
    rewrite H1. cbn. eexists. split; [reflexivity|].
    split.
    + apply applyBillPayment_exact; [exact Hsum|].
      apply (Hroom billId bill); auto.
    + intros billId' bill' _ [= <-] Hf'. rewrite Hfind in Hf'. injection Hf' as <-.
      eexists. split; [exact H1|]. apply applyBillPayment_total.
Qed.

Lemma target_bill s p q :
  Payment.payment_type p = "bill"%string ->
  target_paid_amount s p = Some q ->
  exists billId bill,
    Payment.billId p = Some billId /\ getBillById s billId = Some bill
    /\ Bill.paid_amount bill = q.
Proof.
  unfold target_paid_amount. intros ->.
  replace (String.eqb "bill" "rent") with false by reflexivity.
  replace (String.eqb "bill" "bill") with true by reflexivity.
  destruct (Payment.billId p) as [billId|]; [|discriminate].
  destruct (getBillById s billId) as [bill|] eqn:Hfind; [|discriminate].
  cbn. intros [= <-]. eauto.
Qed.

Lemma within_total_bill s p billId bill :
  Payment.payment_type p = "bill"%string ->
  Payment.billId p = Some billId -> getBillById s billId = Some bill ->
  within_total s p <->
  Bill.paid_amount bill <= Bill.total_amount bill
  /\ Bill.paid_amount bill + Payment.amount p <= Bill.total_amount bill.
Proof.
  unfold within_total. intros -> -> ->.
  replace (String.eqb "bill" "bill") with true by reflexivity.
  reflexivity.
Qed.

Lemma within_total_other s p :
  Payment.payment_type p <> "bill"%string -> within_total s p.
Proof.
  unfold within_total. intros Hty.
  apply String.eqb_neq in Hty. rewrite Hty. exact I.
Qed.

(** One round trip: the payment is verified, then rejected; the entry
    it targets has its earlier paid amount again and the payment can
    make the trip once more. *)
Lemma verify_then_reject_step s env paymentId p pre :
  getPaymentById s paymentId = Some p ->
  target_paid_amount s p = Some pre ->
  is_cents pre -> is_cents (Payment.amount p) ->
  within_total s p ->
  exists p' q,
    getPaymentById (verify_then_reject s env paymentId) paymentId = Some p'
    /\ same_target p p'
    /\ target_paid_amount (verify_then_reject s env paymentId) p = Some q
    /\ q == pre
    /\ within_total (verify_then_reject s env paymentId) p.
Proof.
  intros Hp Ht [pc Hpc] [ac Hac] Hw. unfold verify_then_reject.
  destruct (updatePaymentStatus_verified s env paymentId "" p Hp) as (Hp2 & Hb1 & Hr1).
  set (s1 := snd (updatePaymentStatus s env paymentId "verified" "")) in *.
  set (p2 := Payment.with_paidDate
               (Payment.with_adminNotes (Payment.with_status p "verified") "")
               (Some (Env.now_iso env))) in *.
  assert (Hsame2 : same_target p p2) by (repeat split).
  assert (Ht2 : target_paid_amount s p2 = Some pre)
    by (rewrite (target_paid_amount_same s _ _ Hsame2); exact Ht).
  (* the amount is applied *)
  destruct (applyToLedger_exact s env p2 (Payment.amount p) pre (pc + ac) Ht2)
    as (q1 & Hq1 & Eq1 & Htot1).
  { rewrite Hpc, Hac. apply cents_plus. }
  { intros billId bill Hty Hid Hfind.
    destruct (target_bill s p2 pre Hty Ht2) as (billId' & bill' & Hid' & Hfind' & Hpaid).
    rewrite Hid in Hid'. injection Hid' as <-.
    rewrite Hfind in Hfind'. injection Hfind' as <-.
    apply (within_total_bill s p billId bill Hty Hid Hfind) in Hw. destruct Hw as (_ & Hw).
    rewrite Hpaid in Hw. rewrite <- cents_plus, <- Hpc, <- Hac. exact Hw. }
  assert (Ht1 : target_paid_amount s1 p2 = Some q1)
    by (rewrite (target_paid_amount_ext _ _ p2 Hb1 Hr1); exact Hq1).
  (* the amount is taken back *)
  destruct (updatePaymentStatus_rejected_verified s1 env paymentId "" p2 Hp2 eq_refl)
    as (Hp3 & Hb2 & Hr2).
  set (s2 := snd (updatePaymentStatus s1 env paymentId "rejected" "")) in *.
  set (p3 := Payment.with_adminNotes (Payment.with_status p2 "rejected") "") in *.
  assert (Hsame3 : same_target p p3) by (repeat split).
  assert (Ht3 : target_paid_amount s1 p3 = Some q1)
    by (rewrite (target_paid_amount_same s1 _ _ Hsame3),
          <- (target_paid_amount_same s1 _ _ Hsame2); exact Ht1).
  assert (Hbill1 : forall billId bill,
             Payment.payment_type p = "bill"%string ->
             Payment.billId p = Some billId -> getBillById s billId = Some bill ->
             exists bill1, getBillById s1 billId = Some bill1
                           /\ Bill.total_amount bill1 = Bill.total_amount bill).
  { intros billId bill Hty Hid Hfind.
    destruct (Htot1 billId bill Hty Hid Hfind) as (bill1 & Hf1 & Htotal).
    exists bill1. split; [|exact Htotal].
    rewrite (getBillById_ext _ _ billId Hb1). exact Hf1. }
  destruct (applyToLedger_exact s1 env p3 (- Payment.amount p2) q1 pc Ht3)
    as (q2 & Hq2 & Eq2 & Htot2).
  { change (Payment.amount p2) with (Payment.amount p).
    rewrite Eq1, Hac, <- cents_plus. ring. }
  { intros billId bill1 Hty Hid Hfind1.
    destruct (target_bill s p pre Hty Ht) as (billId' & bill & Hid' & Hfind & Hpaid).
    change (Payment.billId p3) with (Payment.billId p) in Hid.
    rewrite Hid in Hid'. injection Hid' as <-.
    destruct (Hbill1 billId bill Hty Hid Hfind) as (bill1' & Hf1' & Htotal).
    rewrite Hfind1 in Hf1'. injection Hf1' as <-.
    apply (within_total_bill s p billId bill Hty Hid Hfind) in Hw. destruct Hw as (Hw & _).
    rewrite Htotal, <- Hpc, <- Hpaid. exact Hw. }
  assert (Hfinal : target_paid_amount s2 p = Some q2).
  { rewrite <- (target_paid_amount_same s2 _ _ Hsame3).
    rewrite (target_paid_amount_ext _ _ p3 Hb2 Hr2). exact Hq2. }
  exists p3, q2. split; [exact Hp3|]. split; [exact Hsame3|].
  split; [exact Hfinal|]. split; [rewrite Eq2, Hpc; reflexivity|].
  destruct (string_dec (Payment.payment_type p) "bill") as [Hty|Hty].
  - destruct (target_bill s p pre Hty Ht) as (billId & bill & Hid & Hfind & Hpaid).
    destruct (target_bill s2 p q2 Hty Hfinal) as (billId' & bill2 & Hid' & Hfind2 & Hpaid2).
    rewrite Hid in Hid'. injection Hid' as <-.
    apply (within_total_bill s2 p billId bill2 Hty Hid Hfind2).
    apply (within_total_bill s p billId bill Hty Hid Hfind) in Hw.
    destruct (Hbill1 billId bill Hty Hid Hfind) as (bill1 & Hf1 & Htotal1).
    destruct (Htot2 billId bill1 Hty Hid Hf1) as (bill2' & Hf2' & Htotal2).
    rewrite <- (getBillById_ext _ _ billId Hb2) in Hf2'.
    fold s2 in Hf2'. rewrite Hfind2 in Hf2'. injection Hf2' as <-.
    rewrite Htotal2, Htotal1, Hpaid2, Eq2, <- Hpc, <- Hpaid. exact Hw.
  - apply within_total_other. exact Hty.
Qed.

Lemma within_total_same s p p' :
  same_target p p' -> within_total s p -> within_total s p'.
Proof.
  unfold same_target, within_total. intros (_ & -> & -> & _ & _ & ->). auto.
Qed.

Lemma same_target_sym p p' : same_target p p' -> same_target p' p.
Proof.
  unfold same_target. intros (?&?&?&?&?&?). repeat split; congruence.
Qed.

Lemma is_cents_eq (x y : Q) : x == y -> is_cents x -> is_cents y.
Proof. intros H [c Hc]. exists c. rewrite <- H. exact Hc. Qed.

(** Verifying a payment applies its amount to the entry it targets. *)
Lemma verify_applies_amount s env paymentId p pre :
  getPaymentById s paymentId = Some p ->
  target_paid_amount s p = Some pre ->
  is_cents pre -> is_cents (Payment.amount p) ->
  within_total s p ->
  exists q,
    target_paid_amount
      (snd (updatePaymentStatus s env paymentId "verified" "")) p = Some q
    /\ q == pre + Payment.amount p.
Proof.
  intros Hp Ht [pc Hpc] [ac Hac] Hw.
  destruct (updatePaymentStatus_verified s env paymentId "" p Hp) as (Hp2 & Hb1 & Hr1).
  set (s1 := snd (updatePaymentStatus s env paymentId "verified" "")) in *.
  set (p2 := Payment.with_paidDate
               (Payment.with_adminNotes (Payment.with_status p "verified") "")
               (Some (Env.now_iso env))) in *.
  assert (Hsame2 : same_target p p2) by (repeat split).
  assert (Ht2 : target_paid_amount s p2 = Some pre)
    by (rewrite (target_paid_amount_same s _ _ Hsame2); exact Ht).
  destruct (applyToLedger_exact s env p2 (Payment.amount p) pre (pc + ac) Ht2)
    as (q1 & Hq1 & Eq1 & _).
  { rewrite Hpc, Hac. apply cents_plus. }
  { intros billId bill Hty Hid Hfind.
    destruct (target_bill s p2 pre Hty Ht2) as (billId' & bill' & Hid' & Hfind' & Hpaid).
    rewrite Hid in Hid'. injection Hid' as <-.
    rewrite Hfind in Hfind'. injection Hfind' as <-.
    apply (within_total_bill s p billId bill Hty Hid Hfind) in Hw.
    destruct Hw as (_ & Hw).
    rewrite Hpaid in Hw. rewrite <- cents_plus, <- Hpc, <- Hac. exact Hw. }
  exists q1. split.
  - rewrite <- (target_paid_amount_same s1 _ _ Hsame2).
    rewrite (target_paid_amount_ext _ _ p2 Hb1 Hr1). exact Hq1.
  - rewrite Eq1, Hpc, Hac. symmetry. apply cents_plus.
Qed.

Lemma round_trips_restore n : forall s env paymentId p p0 pre q0,
  getPaymentById s paymentId = Some p0 ->
  same_target p p0 ->
  target_paid_amount s p = Some q0 -> q0 == pre ->
  is_cents pre -> is_cents (Payment.amount p) ->
  within_total s p ->
  exists p' q,
    getPaymentById (round_trips n s env paymentId) paymentId = Some p'
    /\ same_target p p'
    /\ target_paid_amount (round_trips n s env paymentId) p = Some q
    /\ q == pre
    /\ within_total (round_trips n s env paymentId) p.
Proof.
  induction n as [|n IH]; intros s env paymentId p p0 pre q0 Hp Hsame Ht Hq Hpre Ha Hw.
  - exists p0, q0. cbn. auto.
  - cbn [round_trips].
    assert (Ht0 : target_paid_amount s p0 = Some q0)
      by (rewrite (target_paid_amount_same s _ _ Hsame); exact Ht).
    assert (Ha0 : is_cents (Payment.amount p0)).
    { destruct Hsame as (_ & _ & _ & _ & _ & ->). exact Ha. }
    assert (Hq0 : is_cents q0) by (apply (is_cents_eq pre); [symmetry|]; assumption).
    destruct (verify_then_reject_step s env paymentId p0 q0 Hp Ht0 Hq0 Ha0
                (within_total_same s _ _ Hsame Hw))
      as (p1 & q1 & Hp1 & Hsame1 & Ht1 & Hq1 & Hw1).
    apply (IH _ env paymentId p p1 pre q1); auto.
    + apply (same_target_trans p p0 p1); assumption.
    + rewrite <- (target_paid_amount_same _ _ _ Hsame). exact Ht1.
    + rewrite Hq1. exact Hq.
    + apply (within_total_same _ _ _ (same_target_sym _ _ Hsame)). exact Hw1.
Qed.

(** C1 (amended). A stored payment of whole cents targets a ledger
    entry whose paid amount is whole cents; if it is a bill payment,
    the bill is not paid beyond its total before the payment nor with
    it. Then verifying the payment adds its amount to the entry, and
    after any number of verify-then-reject round trips the paid amount
    of the entry is the one it had at the start. *)
Theorem reject_restores_paid_amount
    (s : Store.t) (env : Env.t) (paymentId : string) (p : Payment.t)
    (pre : Q) (n : nat) :
  getPaymentById s paymentId = Some p ->
  target_paid_amount s p = Some pre ->
  is_cents pre ->
  is_cents (Payment.amount p) ->
  within_total s p ->
  (exists q1,
      target_paid_amount
        (snd (updatePaymentStatus s env paymentId "verified" "")) p = Some q1
      /\ q1 == pre + Payment.amount p)
  /\ (exists q,
         target_paid_amount (round_trips n s env paymentId) p = Some q
         /\ q == pre).
Proof.
  intros Hp Ht Hpre Ha Hw. split.
  - apply verify_applies_amount; assumption.
  - destruct (round_trips_restore n s env paymentId p p pre pre Hp
                (same_target_refl p) Ht (Qeq_refl pre) Hpre Ha Hw)
      as (_ & q & _ & _ & Hq & Eq & _).
    exists q. split; assumption.
Qed.

(** C10. Rejecting a payment whose status is not ['verified'], be it
    ['completed'], ['pending'] or anything else, changes no bill and no
    rent status: the paid and remaining amounts, the status and the
    payment list of the targeted entry stay as they are. *)
Theorem reject_unverified_keeps_ledger
    (s : Store.t) (env : Env.t) (paymentId adminNotes : string) (p : Payment.t) :
  getPaymentById s paymentId = Some p ->
  Payment.status p <> "verified"%string ->
  let s' := snd (updatePaymentStatus s env paymentId "rejected" adminNotes) in
  Store.bills s' = Store.bills s
  /\ Store.rent_statuses s' = Store.rent_statuses s
  /\ exists p', getPaymentById s' paymentId = Some p'
                /\ Payment.status p' = "rejected"%string.
Proof.
  intros Hp Hst.
  destruct (updatePaymentStatus_rejected_other s env paymentId adminNotes p Hp Hst)
    as (_ & Hp' & Hb & Hr).
  cbn zeta. split; [exact Hb|]. split; [exact Hr|].
  eexists. split; [exact Hp'|]. reflexivity.
Qed.

(** ** Runs of the payment ledger *)

Import Example.

Lemma reject_restores_paid_amount_witness :
  (exists q1,
      target_paid_amount
        (snd (updatePaymentStatus with_bill_payment env "PAY-0001" "verified" ""))
        (bill_payment 1000) = Some q1
      /\ q1 == 0 + Payment.amount (bill_payment 1000))
  /\ (exists q,
         target_paid_amount (round_trips 3 with_bill_payment env "PAY-0001")
           (bill_payment 1000) = Some q
         /\ q == 0).
Proof.
  apply (reject_restores_paid_amount with_bill_payment env "PAY-0001"
           (bill_payment 1000) 0 3).
  - vm_compute. reflexivity.
  - vm_compute. reflexivity.
  - exists 0%Z. reflexivity.
  - exists 100000%Z. reflexivity.
  - vm_compute. split; discriminate.
Defined.

(** C1 as stated fails on both kinds of entry. A payment of 2000.00 on
    a bill of 1630.00 is capped at 1630.00 when verified, and rejecting
    it leaves -370.00 where 0 was paid before. A rent payment of half a
    cent is rounded to 0.01 when verified, and rejecting it rounds
    0.005 to 0.01 again. *)
Lemma reject_restores_paid_amount_counterexample :
  (getPaymentById with_bill_overpayment "PAY-0001" = Some (bill_payment 2000)
   /\ target_paid_amount with_bill_overpayment (bill_payment 2000) = Some 0
   /\ target_paid_amount
        (snd (updatePaymentStatus with_bill_overpayment env "PAY-0001" "verified" ""))
        (bill_payment 2000) = Some (163000 # 100)
   /\ target_paid_amount (verify_then_reject with_bill_overpayment env "PAY-0001")
        (bill_payment 2000) = Some (-37000 # 100)
   /\ ~ (-37000 # 100) == 0)
  /\ (getPaymentById with_rent_half_cent "PAY-0001" = Some (rent_payment (5 # 1000))
      /\ target_paid_amount with_rent_half_cent (rent_payment (5 # 1000)) = Some 0
      /\ target_paid_amount (verify_then_reject with_rent_half_cent env "PAY-0001")
           (rent_payment (5 # 1000)) = Some (1 # 100)
      /\ ~ (1 # 100) == 0).
Proof.
  repeat split; try (vm_compute; reflexivity); intro H; discriminate H.
Qed.

Lemma updateBillStatus_paid_le_total_witness :
  exists bill',
    getBillById
      (updateBillStatus_all with_bill "BILL-0001"
         [(1000, "PAY-0001"%string); (2000, "PAY-0002"%string);
          (-2000, "PAY-0002"%string)])
      "BILL-0001" = Some bill'
    /\ Bill.total_amount bill' = Bill.total_amount march_bill
    /\ Bill.paid_amount bill' <= Bill.total_amount bill'
    /\ (Bill.paid_amount bill' <= 0 ->
        Bill.paid_amount bill' < Bill.total_amount bill' ->
        Bill.status bill' = "unpaid"%string).
Proof.
  apply (updateBillStatus_paid_le_total with_bill "BILL-0001" march_bill).
  - vm_compute. reflexivity.
  - discriminate.
Defined.

(** C2 as stated fails on a bill whose total is zero: after a payment
    of 50.00 a bill generated for a month without consumption holds a
    paid amount of 0, capped at its total, and is ['paid'], not
    ['unpaid']. *)
Lemma updateBillStatus_unpaid_counterexample :
  exists bill',
    fst (updateBillStatus with_empty_bill "BILL-0001" 50 "PAY-0001") = Some bill'
    /\ Bill.paid_amount bill' <= Bill.total_amount bill'
    /\ Bill.paid_amount bill' <= 0
    /\ Bill.status bill' = "paid"%string
    /\ Bill.status bill' <> "unpaid"%string.
Proof.
  eexists. split; [vm_compute; reflexivity|].
  repeat split; try discriminate.
Qed.

Lemma reject_unverified_keeps_ledger_witness :
  let s' :=
    snd (updatePaymentStatus with_completed_payment env "PAY-0001" "rejected"
           "receipt not found") in
  Store.bills s' = Store.bills with_completed_payment
  /\ Store.rent_statuses s' = Store.rent_statuses with_completed_payment
  /\ exists p', getPaymentById s' "PAY-0001" = Some p'
                /\ Payment.status p' = "rejected"%string.
Proof.
  apply (reject_unverified_keeps_ledger with_completed_payment env "PAY-0001"
           "receipt not found" completed_payment).
  - vm_compute. reflexivity.
  - vm_compute. discriminate.
Defined.

(** The completed payment had been applied and stays applied. *)
Example completed_payment_stays_applied :
  option_map Bill.paid_amount (getBillById with_bill_payment "BILL-0001") = Some 0
  /\ option_map Bill.paid_amount (getBillById with_completed_payment "BILL-0001")
     = Some (100000 # 100)
  /\ option_map Bill.paid_amount
       (getBillById
          (snd (updatePaymentStatus with_completed_payment env "PAY-0001"
                  "rejected" ""))
          "BILL-0001")
     = Some (100000 # 100).
Proof. repeat split; vm_compute; reflexivity. Qed.

Lemma updateRentStatus_whole_cents_witness :
  exists status',
    findRentStatus
      (updateRentStatus_all with_rent_status env "alice" "2024-03"
         [(10000, "PAY-0001"%string); (5000, "PAY-0002"%string)])
      "alice" "2024-03" = Some status'
    /\ RentStatus.required_amount status' = RentStatus.required_amount march_rent
    /\ RentStatus.paid_amount status'
       == RentStatus.paid_amount march_rent + Qsum [10000; 5000]
    /\ RentStatus.remaining_amount status'
       == Qmax 0 (RentStatus.required_amount status' - RentStatus.paid_amount status')
    /\ RentStatus.status status'
       = status_rule (RentStatus.required_amount status')
           (RentStatus.paid_amount status')
    /\ (RentStatus.paid_amount march_rent + Qsum [10000; 5000]
        == RentStatus.required_amount march_rent ->
        RentStatus.status status' = "paid"%string
        /\ RentStatus.remaining_amount status' == 0).
Proof.
  apply (updateRentStatus_whole_cents with_rent_status env "alice" "2024-03"
           march_rent [(10000, "PAY-0001"%string); (5000, "PAY-0002"%string)]).
  - vm_compute. reflexivity.
  - exists 1500000%Z. reflexivity.
  - exists 0%Z. reflexivity.
  - repeat constructor.
    + exists 1000000%Z. reflexivity.
    + exists 500000%Z. reflexivity.
  - discriminate.
Defined.

(** The scenario of the tenant who owes 15000: 10000 leaves 5000 and
    ['partial'], 5000 more gives ['paid'] and nothing remaining. *)
Example rent_scenario :
  option_map (fun r => (RentStatus.paid_amount r, RentStatus.remaining_amount r,
                        RentStatus.status r))
    (findRentStatus
       (updateRentStatus_all with_rent_status env "alice" "2024-03"
          [(10000, "PAY-0001"%string)]) "alice" "2024-03")
  = Some (1000000 # 100, 500000 # 100, "partial"%string)
  /\ option_map (fun r => (RentStatus.paid_amount r, RentStatus.remaining_amount r,
                           RentStatus.status r))
       (findRentStatus
          (updateRentStatus_all with_rent_status env "alice" "2024-03"
             [(10000, "PAY-0001"%string); (5000, "PAY-0002"%string)])
          "alice" "2024-03")
     = Some (1500000 # 100, 0, "paid"%string).
Proof. split; vm_compute; reflexivity. Qed.

(** C4 as stated fails when the amounts are not whole cents: three
    payments of 5000.004, 5000.004 and 4999.992 sum to the 15000 that
    are required, each sum is rounded to cents when it is stored, and
    14999.99 is paid at the end, with 0.01 remaining. *)
Lemma updateRentStatus_sum_counterexample :
  let calls :=
    [(5000004 # 1000, "PAY-0001"%string); (5000004 # 1000, "PAY-0002"%string);
     (4999992 # 1000, "PAY-0003"%string)] in
  findRentStatus with_rent_status "alice" "2024-03" = Some march_rent
  /\ RentStatus.paid_amount march_rent + Qsum (map fst calls)
     == RentStatus.required_amount march_rent
  /\ exists status',
       findRentStatus
         (updateRentStatus_all with_rent_status env "alice" "2024-03" calls)
         "alice" "2024-03" = Some status'
       /\ RentStatus.paid_amount status' = 1499999 # 100
       /\ RentStatus.remaining_amount status' = 1 # 100
       /\ RentStatus.status status' = "partial"%string
       /\ RentStatus.status status' <> "paid"%string.
Proof.
  cbv zeta. split; [vm_compute; reflexivity|].
  split; [vm_compute; reflexivity|].
  eexists. split; [vm_compute; reflexivity|].
  repeat split. discriminate.
Qed.

(** When no status of the tenant and month is stored, [updateRentStatus]
    returns an updated status but writes back the list it read before
    the status was created: the store holds no status afterwards. *)
Example updateRentStatus_fresh_status_not_stored :
  findRentStatus empty "alice" "2024-03" = None
  /\ RentStatus.paid_amount
       (fst (updateRentStatus empty env "alice" "2024-03" 10000 "PAY-0001"))
     = 1000000 # 100
  /\ findRentStatus
       (snd (updateRentStatus empty env "alice" "2024-03" 10000 "PAY-0001"))
       "alice" "2024-03" = None.
Proof. repeat split; vm_compute; reflexivity. Qed.

(** ** Bill generation and utility rates *)

Lemma find_app_None {A : Type} (p : A -> bool) (l : list A) (x : A) :
  find p l = None -> p x = true -> find p (l ++ [x]) = Some x.
Proof.
  induction l as [|a l IH]; cbn.
  - intros _ ->. reflexivity.
  - destruct (p a); [discriminate|]. exact IH.
Qed.

Lemma same_bill_key_generated s env tenantId month kwh cubic :
  same_bill_key tenantId month (fst (generateBill s env tenantId month kwh cubic))
  = true.
Proof.
  unfold same_bill_key, generateBill. cbn [fst].
  bill_fields. rewrite !String.eqb_refl. reflexivity.
Qed.

(** The bill that [generateBill] returns is the bill of its tenant and
    month in the store it leaves. *)
Lemma generateBill_stored s env tenantId month kwh cubic :
  getBillForMonth (snd (generateBill s env tenantId month kwh cubic)) tenantId month
  = Some (fst (generateBill s env tenantId month kwh cubic)).
Proof.
  pose proof (same_bill_key_generated s env tenantId month kwh cubic) as Hkey.
  unfold getBillForMonth, getAllBills.
  unfold generateBill in *. cbn [fst snd] in *.
  unfold getAllBills in *.
  destruct (find (same_bill_key tenantId month) (Store.bills s)) as [e|] eqn:Hfind;
    cbn [Store.bills Store.with_bills].
  - apply find_assign_at with (z := e); auto. apply String.eqb_refl.
  - apply find_app_None; assumption.
Qed.

Lemma round_half_up2_comp (x y r : Q) :
  x == y -> round_half_up2 x r -> round_half_up2 y r.
Proof.
  intros E (Hc & Hnear & Htie). split; [exact Hc|].
  split; [rewrite <- E; exact Hnear|].
  rewrite <- E. exact Htie.
Qed.

(** C6 (amended). [generateBill] stores, as the amount of each
    resource, the binary64 product of consumption and rate rounded half
    up to two decimals, and as the total the binary64 sum of the two
    amounts rounded the same way. Where the binary64 product, or sum,
    is the exact one, the stored number is the exact product, or sum,
    rounded half up to two decimals. It is for 120 kWh at 11.50 and 10
    cubic meters at 25.00, which give 1380.00, 250.00 and 1630.00. *)
Theorem generateBill_amounts
    (s : Store.t) (env : Env.t) (tenantId month : string)
    (electricity_kwh water_cubic : Q) :
  let rates := getUtilityRates s in
  let bill := fst (generateBill s env tenantId month electricity_kwh water_cubic) in
  let electricity := Js.mul electricity_kwh (UtilityRates.electricity_rate rates) in
  let water := Js.mul water_cubic (UtilityRates.water_rate rates) in
  let total := Js.add (Bill.electricity_amount bill) (Bill.water_amount bill) in
  (round_half_up2 electricity (Bill.electricity_amount bill)
   /\ round_half_up2 water (Bill.water_amount bill)
   /\ round_half_up2 total (Bill.total_amount bill))
  /\ (electricity == electricity_kwh * UtilityRates.electricity_rate rates ->
      round_half_up2 (electricity_kwh * UtilityRates.electricity_rate rates)
        (Bill.electricity_amount bill))
  /\ (water == water_cubic * UtilityRates.water_rate rates ->
      round_half_up2 (water_cubic * UtilityRates.water_rate rates)
        (Bill.water_amount bill))
  /\ (total == Bill.electricity_amount bill + Bill.water_amount bill ->
      round_half_up2 (Bill.electricity_amount bill + Bill.water_amount bill)
        (Bill.total_amount bill))
  /\ (let march := fst (generateBill Example.empty Example.env "alice" "2024-03" 120 10) in
      UtilityRates.electricity_rate (getUtilityRates Example.empty) == 11.50
      /\ UtilityRates.water_rate (getUtilityRates Example.empty) == 25.00
      /\ Js.mul 120 11.50 == 120 * 11.50
      /\ Js.mul 10 25.00 == 10 * 25.00
      /\ Js.add 1380.00 250.00 == 1380.00 + 250.00
      /\ Bill.electricity_amount march = 138000 # 100
      /\ Bill.water_amount march = 25000 # 100
      /\ Bill.total_amount march = 163000 # 100).
Proof.
  cbv zeta.
  assert (Hstored :
    round_half_up2
      (Js.mul electricity_kwh (UtilityRates.electricity_rate (getUtilityRates s)))
      (Bill.electricity_amount
         (fst (generateBill s env tenantId month electricity_kwh water_cubic)))
    /\ round_half_up2
         (Js.mul water_cubic (UtilityRates.water_rate (getUtilityRates s)))
         (Bill.water_amount
            (fst (generateBill s env tenantId month electricity_kwh water_cubic)))
    /\ round_half_up2
         (Js.add
            (Bill.electricity_amount
               (fst (generateBill s env tenantId month electricity_kwh water_cubic)))
            (Bill.water_amount
               (fst (generateBill s env tenantId month electricity_kwh water_cubic))))
         (Bill.total_amount
            (fst (generateBill s env tenantId month electricity_kwh water_cubic)))).
  { unfold generateBill. cbn [fst]. bill_fields.
    repeat split; apply round2_half_up. }
  destruct Hstored as (He & Hw & Ht).
  split; [auto|].
  split; [intros E; exact (round_half_up2_comp _ _ _ E He)|].
  split; [intros E; exact (round_half_up2_comp _ _ _ E Hw)|].
  split; [intros E; exact (round_half_up2_comp _ _ _ E Ht)|].
  repeat split; vm_compute; reflexivity.
Qed.

(** The claim read on the exact product fails. 120.13 kWh at 11.50 make
    1381.495, which rounds half up to 1381.50, but the binary64 product
    lies below the tie and 1381.49 is stored, with the total 1631.49.
    Nor does it help to take the consumption and the rate as the
    binary64 numbers themselves: the product of 1 + 2^-52 and
    1/8 - 2^-55 is 1/8 - 2^-107, which rounds half up to 0.12, but its
    binary64 product is 1/8 and 0.13 is stored. *)
Lemma generateBill_amounts_counterexample :
  (let bill :=
     fst (generateBill Example.empty Example.env "alice" "2024-03" (12013 # 100) 10) in
   UtilityRates.electricity_rate (getUtilityRates Example.empty) == 11.50
   /\ Bill.electricity_amount bill = 138149 # 100
   /\ Bill.total_amount bill = 163149 # 100
   /\ round_half_up2 ((12013 # 100) * 11.50) (138150 # 100)
   /\ ~ round_half_up2 ((12013 # 100) * 11.50) (Bill.electricity_amount bill))
  /\ (let kwh := 4503599627370497 # 4503599627370496 in
      let rate := 4503599627370495 # 36028797018963968 in
      let s :=
        snd (updateUtilityRates Example.empty (NewRates.mk (Some rate) None)) in
      let bill := fst (generateBill s Example.env "alice" "2024-03" kwh 0) in
      Js.of_double (Js.to_double kwh) == kwh
      /\ Js.of_double (Js.to_double rate) == rate
      /\ Bill.electricity_amount bill = 13 # 100
      /\ round_half_up2 (kwh * rate) (12 # 100)
      /\ ~ round_half_up2 (kwh * rate) (Bill.electricity_amount bill)).
Proof.
  assert (Hcents : forall c : Z, is_cents (c # 100)).
  { intros c. exists c. reflexivity. }
  assert (Hno : forall (x : Q) (a b : Z),
             round_half_up2 x (a # 100) -> a <> b -> ~ round_half_up2 x (b # 100)).
  { intros x a b Ha Hne Hb.
    pose proof (round_half_up2_unique x _ _ Ha Hb) as E.
    apply Hne. unfold Qeq in E. cbn in E. lia. }
  cbv zeta. split.
  - assert (Hr : round_half_up2 ((12013 # 100) * 11.50) (138150 # 100)).
    { split; [apply Hcents|]. split.
      - vm_compute. discriminate.
      - intros _. vm_compute. reflexivity. }
    split; [vm_compute; reflexivity|].
    split; [vm_compute; reflexivity|].
    split; [vm_compute; reflexivity|].
    split; [exact Hr|].
    replace (Bill.electricity_amount _) with (138149 # 100) by (vm_compute; reflexivity).
    apply (Hno _ 138150%Z 138149%Z Hr). discriminate.
  - assert (Hr : round_half_up2
                   ((4503599627370497 # 4503599627370496)
                    * (4503599627370495 # 36028797018963968)) (12 # 100)).
    { split; [apply Hcents|]. split.
      - vm_compute. discriminate.
      - intros E. exfalso. revert E. vm_compute. discriminate. }
    split; [vm_compute; reflexivity|].
    split; [vm_compute; reflexivity|].
    split; [vm_compute; reflexivity|].
    split; [exact Hr|].
    replace (Bill.electricity_amount _) with (13 # 100) by (vm_compute; reflexivity).
    apply (Hno _ 12%Z 13%Z Hr). discriminate.
Qed.

(** Regenerating a bill that is found under its own identifier replaces
    it where it stands. *)
Lemma generateBill_replaces
    (s : Store.t) (env : Env.t) (tenantId month : string)
    (electricity_kwh water_cubic : Q) (existing : Bill.t) :
  getBillForMonth s tenantId month = Some existing ->
  getBillById s (Bill.id existing) = Some existing ->
  let bill := fst (generateBill s env tenantId month electricity_kwh water_cubic) in
  let s' := snd (generateBill s env tenantId month electricity_kwh water_cubic) in
  (Bill.id bill = Bill.id existing
   /\ Bill.paid_amount bill = Bill.paid_amount existing
   /\ Bill.status bill = Bill.status existing
   /\ Bill.createdDate bill = Bill.createdDate existing
   /\ Bill.payments bill = Bill.payments existing)
  /\ (Bill.electricity_kwh bill = electricity_kwh
      /\ Bill.water_cubic bill = water_cubic
      /\ Bill.electricity_rate bill = UtilityRates.electricity_rate (getUtilityRates s)
      /\ Bill.water_rate bill = UtilityRates.water_rate (getUtilityRates s)
      /\ Bill.electricity_amount bill
         = Js.round2 (Js.mul electricity_kwh
                        (UtilityRates.electricity_rate (getUtilityRates s)))
      /\ Bill.water_amount bill
         = Js.round2 (Js.mul water_cubic (UtilityRates.water_rate (getUtilityRates s)))
      /\ Bill.total_amount bill
         = Js.round2 (Js.add (Bill.electricity_amount bill) (Bill.water_amount bill)))
  /\ getBillForMonth s' tenantId month = Some bill
  /\ getBillById s' (Bill.id existing) = Some bill
  /\ List.length (getAllBills s') = List.length (getAllBills s)
  /\ List.length (filter (same_bill_key tenantId month) (getAllBills s'))
     = List.length (filter (same_bill_key tenantId month) (getAllBills s)).
Proof.
  intros Hmonth Hid. cbv zeta.
  pose proof (generateBill_stored s env tenantId month electricity_kwh water_cubic)
    as Hstored.
  pose proof (same_bill_key_generated s env tenantId month electricity_kwh water_cubic)
    as Hkey.
  unfold getBillForMonth, getBillById, getAllBills in *.
  unfold generateBill in *. unfold getAllBills in *.
  rewrite Hmonth in *. cbn [fst snd Store.bills Store.with_bills] in *.
  split; [bill_fields; auto|].
  split; [bill_fields; repeat split|].
  split; [exact Hstored|].
  split.
  { apply find_assign_at_same with (z := existing); auto.
    bill_fields. apply String.eqb_refl. }
  destruct (findIndex_Some _ _ _ Hid) as (i & Hi & Hnth).
  rewrite Hi. cbn [Js.assign_at].
  split.
  - apply set_nth_length.
  - apply count_set_nth with (x := existing); [exact Hnth|].
    rewrite Hkey. symmetry. apply (find_some _ _ Hmonth).
Qed.

(** C8. When [billId] names no stored bill, [createBillPayment] returns
    no payment and the store it leaves is the store it was given: the
    payments, the bills and the rent statuses are untouched. *)
Theorem createBillPayment_missing_bill
    (s : Store.t) (env : Env.t) (paymentData : PaymentData.t) :
  (forall billId,
      PaymentData.billId paymentData = Some billId -> getBillById s billId = None) ->
  createBillPayment s env paymentData = (None, s)
  /\ Store.payments (snd (createBillPayment s env paymentData)) = Store.payments s
  /\ Store.bills (snd (createBillPayment s env paymentData)) = Store.bills s
  /\ Store.rent_statuses (snd (createBillPayment s env paymentData))
     = Store.rent_statuses s.
Proof.
  intros Hmissing.
  assert (E : createBillPayment s env paymentData = (None, s)).
  { unfold createBillPayment.
    destruct (getCurrentTenant s) as [tenant|]; [|reflexivity].
    destruct (PaymentData.billId paymentData) as [billId|]; [|reflexivity].
    rewrite (Hmissing billId eq_refl). reflexivity. }
  rewrite E. auto.
Qed.

(** C9. [updateUtilityRates] changes no bill: the list of bills is the
    same after it, so a bill keeps the rates and amounts it was
    generated with, and everything else, whatever the new rates are. *)
Theorem updateUtilityRates_keeps_bills
    (s : Store.t) (newRates : NewRates.t) :
  let s' := snd (updateUtilityRates s newRates) in
  getAllBills s' = getAllBills s
  /\ (forall billId, getBillById s' billId = getBillById s billId)
  /\ (forall tenantId month,
         getBillForMonth s' tenantId month = getBillForMonth s tenantId month)
  /\ (forall env tenantId month kwh cubic,
         let generated := generateBill s env tenantId month kwh cubic in
         Bill.electricity_rate (fst generated)
         = UtilityRates.electricity_rate (getUtilityRates s)
         /\ Bill.water_rate (fst generated)
            = UtilityRates.water_rate (getUtilityRates s)
         /\ getBillForMonth (snd (updateUtilityRates (snd generated) newRates))
              tenantId month
            = Some (fst generated)).
Proof.
  cbv zeta. split; [reflexivity|]. split; [reflexivity|]. split; [reflexivity|].
  intros env tenantId month kwh cubic.
  split; [reflexivity|]. split; [reflexivity|].
  change (getBillForMonth
            (snd (updateUtilityRates (snd (generateBill s env tenantId month kwh cubic))
                    newRates)) tenantId month)
    with (getBillForMonth (snd (generateBill s env tenantId month kwh cubic))
            tenantId month).
  apply generateBill_stored.
Qed.

(** ** The payment period and the duplicate check *)

Section PaymentPeriod.

Import PaymentStorage.
Import Period.

Lemma existsb_filter {A : Type} (p q : A -> bool) (l : list A) :
  existsb q (filter p l) = existsb (fun x => p x && q x) l.
Proof.
  induction l as [|a l IH]; cbn; auto.
  destruct (p a); cbn; rewrite IH; reflexivity.
Qed.



(** Without a tenant in session, or without a lease start, there is no
    period. *)
Lemma getCurrentPaymentPeriod_null s env :
  (getCurrentTenant s = None -> getCurrentPaymentPeriod s env = None)
  /\ (forall tenant,
         getCurrentTenant s = Some tenant -> Tenant.leaseStart tenant = None ->
         getCurrentPaymentPeriod s env = None).
Proof.
  unfold getCurrentPaymentPeriod. split.
  - intros ->. reflexivity.
  - intros tenant -> ->. reflexivity.
Qed.

(** When the month the period falls in has the day of the lease start,
    the period is the month of the lease start advanced by the months
    elapsed. *)
Lemma getCurrentPaymentPeriod_by_months s env tenant text start :
  getCurrentTenant s = Some tenant ->
  Tenant.leaseStart tenant = Some text ->
  JsDate.of_string (Env.west_of_utc env) text = Some start ->
  (JsDate.day start
   <= JsDate.days_in_month
        ((Env.today_year env * 12 + Env.today_month env) / 12)
        ((Env.today_year env * 12 + Env.today_month env) mod 12))%Z ->
  getCurrentPaymentPeriod s env
  = Some (period_by_months start (Env.today_year env) (Env.today_month env)).
Proof.
  intros Ht Hl Hs Hday. unfold getCurrentPaymentPeriod, period_by_months.
  rewrite Ht, Hl, Hs. unfold JsDate.setMonth.
  replace (JsDate.year start * 12
           + (JsDate.month start
              + ((Env.today_year env - JsDate.year start) * 12
                 + (Env.today_month env - JsDate.month start))))%Z
    with (Env.today_year env * 12 + Env.today_month env)%Z by lia.
  replace (JsDate.year start * 12 + JsDate.month start
           + ((Env.today_year env - JsDate.year start) * 12
              + (Env.today_month env - JsDate.month start)))%Z
    with (Env.today_year env * 12 + Env.today_month env)%Z by lia.
  apply Z.leb_le in Hday. rewrite Hday. reflexivity.
Qed.

(** Every month has the first 28 days. *)
Lemma days_in_month_ge_28 y m : (28 <= JsDate.days_in_month y m)%Z.
Proof.
  unfold JsDate.days_in_month.
  destruct (m =? 1)%Z; [destruct (JsDate.is_leap y); lia|].
  destruct ((m =? 3) || (m =? 5) || (m =? 8) || (m =? 10))%Z; lia.
Qed.

(** The month of the lease start advanced by the months elapsed is the
    month of today. *)
Lemma period_by_months_today start year month :
  (0 <= month < 12)%Z ->
  period_by_months start year month
  = (Js.string_of_Z year ++ "-" ++ Js.padStart0 2 (Js.string_of_Z (month + 1)))%string.
Proof.
  intros Hm. unfold period_by_months, format_period.
  cbn [JsDate.year JsDate.month].
  replace (JsDate.year start * 12 + JsDate.month start
           + ((year - JsDate.year start) * 12 + (month - JsDate.month start)))%Z
    with (month + year * 12)%Z by lia.
  rewrite Z.div_add, Z.mod_add by lia.
  rewrite Z.div_small, Z.mod_small by lia.
  reflexivity.
Qed.

(** A lease that starts on one of the first 28 days of a month has the
    period the specification describes, whatever the day of today. *)
Lemma getCurrentPaymentPeriod_day_28 s env tenant text start :
  getCurrentTenant s = Some tenant ->
  Tenant.leaseStart tenant = Some text ->
  JsDate.of_string (Env.west_of_utc env) text = Some start ->
  (JsDate.day start <= 28)%Z ->
  getCurrentPaymentPeriod s env
  = Some (period_by_months start (Env.today_year env) (Env.today_month env)).
Proof.
  intros Ht Hl Hs Hday.
  apply (getCurrentPaymentPeriod_by_months s env tenant text start Ht Hl Hs).
  pose proof (days_in_month_ge_28
                ((Env.today_year env * 12 + Env.today_month env) / 12)
                ((Env.today_year env * 12 + Env.today_month env) mod 12)).
  lia.
Qed.





End PaymentPeriod.

(** ** Runs of bill generation, the period and the duplicate check *)

(** The bill of 1630.00 with 1000.00 paid, generated again for 150 kWh
    and 12 cubic meters: the total is 2025.00, and the identifier, the
    1000.00 paid, the status and the payment list are kept. *)
Example regenerated_bill :
  let bill := fst (generateBill with_partial_bill env "alice" "2024-03" 150 12) in
  (Bill.id bill, Bill.total_amount bill, Bill.paid_amount bill, Bill.status bill,
   Bill.payments bill)
  = ("BILL-0001"%string, 202500 # 100, 100000 # 100, "partial"%string,
     ["PAY-0001"%string]).
Proof. vm_compute. reflexivity. Qed.

Lemma createBillPayment_missing_bill_witness :
  createBillPayment with_bill env (pay (Some "BILL-0009"%string) 500) = (None, with_bill)
  /\ Store.payments
       (snd (createBillPayment with_bill env (pay (Some "BILL-0009"%string) 500)))
     = Store.payments with_bill
  /\ Store.bills
       (snd (createBillPayment with_bill env (pay (Some "BILL-0009"%string) 500)))
     = Store.bills with_bill
  /\ Store.rent_statuses
       (snd (createBillPayment with_bill env (pay (Some "BILL-0009"%string) 500)))
     = Store.rent_statuses with_bill.
Proof.
  apply (createBillPayment_missing_bill with_bill env
           (pay (Some "BILL-0009"%string) 500)).
  intros billId [= <-]. vm_compute. reflexivity.
Defined.



(** With the rent of March verified, a second rent payment is refused
    and a payment of the utility bills is allowed; with both verified,
    everything is refused in March and allowed again in April. *)
Example duplicate_check_scenario :
  let rent := Period.verified "PAY-0001" "Monthly Rent" "2024-03-15" in
  let bills := Period.verified "PAY-0002" "Utility Bills" "2024-03-15" in
  let allowed s e ty :=
    PaymentStorage.Verdict.allowed (PaymentStorage.canMakePayment s e ty) in
  allowed (Period.store [rent]) env "Monthly Rent"%string = false
  /\ allowed (Period.store [rent]) env "Utility Bills"%string = true
  /\ allowed (Period.store [rent; bills]) env "Monthly Rent"%string = false
  /\ allowed (Period.store [rent; bills]) env "Utility Bills"%string = false
  /\ allowed (Period.store [rent; bills]) env "Security Deposit"%string = false
  /\ allowed (Period.store [rent; bills]) (Period.on_day 2024 3 16)
       "Monthly Rent"%string = true.
Proof. cbv zeta. repeat split; vm_compute; reflexivity. Qed.

(** The scenario of the specification: a lease that starts on
    2024-01-15 is in the period 2024-03 on 2024-03-20, east and west of
    UTC. *)
Example period_scenario :
  PaymentStorage.getCurrentPaymentPeriod (Period.store []) (Period.on_day 2024 2 20)
  = Some "2024-03"%string
  /\ PaymentStorage.getCurrentPaymentPeriod (Period.store [])
       (Env.mk "" 0 0 2024 2 20 true)
     = Some "2024-03"%string
  /\ PaymentStorage.getCurrentPaymentPeriod
       (Period.store_of_lease None) (Period.on_day 2024 2 20) = None
  /\ PaymentStorage.getCurrentPaymentPeriod
       (Period.store_of_lease (Some ""%string)) (Period.on_day 2024 2 20) = None.
Proof. repeat split; vm_compute; reflexivity. Qed.

(** C7 fails on the code. A lease starts on 2024-01-31 and today is
    2024-02-15: one month has elapsed and the lease-start month
    advanced by one month is 2024-02, but [setMonth] keeps day 31,
    February has no such day, the date runs over into March and the
    period comes out as 2024-03. In a time zone behind UTC the lease
    start reads as 30 January and the outcome is the same. *)
Theorem getCurrentPaymentPeriod_day_overflow :
  JsDate.of_string false "2024-01-31" = Some (JsDate.mk 2024 0 31)
  /\ Period.period_by_months (JsDate.mk 2024 0 31) 2024 1 = "2024-02"%string
  /\ PaymentStorage.getCurrentPaymentPeriod
       (Period.store_of_lease (Some "2024-01-31"%string)) (Period.on_day 2024 1 15)
     = Some "2024-03"%string
  /\ PaymentStorage.getCurrentPaymentPeriod
       (Period.store_of_lease (Some "2024-01-31"%string))
       (Env.mk "" 0 0 2024 1 15 true)
     = Some "2024-03"%string.
Proof. repeat split; vm_compute; reflexivity. Qed.

(** ** Identifiers *)

Section Identifiers.

Import Reach.

Lemma digit_is_not_dash c : Js.is_digit c = true -> Ascii.eqb c "-" = false.
Proof. destruct c as [[] [] [] [] [] [] [] []]; vm_compute; congruence. Qed.

Lemma digit_is_not_space c : Js.is_digit c = true -> Js.is_space c = false.
Proof. destruct c as [[] [] [] [] [] [] [] []]; vm_compute; congruence. Qed.

Lemma split_aux_digits t cur :
  all_digits t = true -> Js.split_aux "-" t cur = [(cur ++ t)%string].
Proof.
  revert cur. induction t as [|c t IH]; intros cur; cbn.
  - intros _. f_equal. induction cur; cbn; congruence.
  - intros H. apply andb_prop in H. destruct H as [Hc Ht].
    rewrite (digit_is_not_dash c Hc), (IH _ Ht). f_equal.
    induction cur; cbn; congruence.
Qed.

Lemma all_digits_app t u :
  all_digits t = true -> all_digits u = true -> all_digits (t ++ u) = true.
Proof.
  induction t as [|c t IH]; cbn; auto.
  intros H Hu. apply andb_prop in H. destruct H as [-> Ht]. cbn. auto.
Qed.

Lemma all_digits_zeros n : all_digits (Js.zeros n) = true.
Proof. induction n; cbn; auto. Qed.

Lemma all_digits_uint d : all_digits (NilEmpty.string_of_uint d) = true.
Proof. induction d; cbn; auto. Qed.

Lemma all_digits_string_of_Z n : (0 <= n)%Z -> all_digits (Js.string_of_Z n) = true.
Proof.
  unfold Js.string_of_Z. destruct n as [|p|p]; try lia; intros _.
  - reflexivity.
  - cbn [Z.to_int NilZero.string_of_int NilZero.string_of_uint].
    destruct (Pos.to_uint p); try reflexivity; apply all_digits_uint.
Qed.

(** Reading the digits of a printed number gives the number. *)
Lemma digits_prefix_uint_acc d (a : positive) :
  Js.digits_prefix (NilEmpty.string_of_uint d) (Zpos a)
  = Zpos (Pos.of_uint_acc d a).
Proof.
  revert a.
  induction d; intro a;
    cbn [NilEmpty.string_of_uint Js.digits_prefix Pos.of_uint_acc];
    try reflexivity;
    match goal with
    | |- context [Js.is_digit ?c] =>
        replace (Js.is_digit c) with true by reflexivity
    end;
    match goal with
    | |- Js.digits_prefix _ ?z = Zpos (Pos.of_uint_acc _ ?q) =>
        replace z with (Zpos q)
          by (match goal with
              | |- context [Js.digit_val ?c] =>
                  let v := eval vm_compute in (Js.digit_val c) in
                  change (Js.digit_val c) with v
              end; lia)
    end; apply IHd.
Qed.

Lemma digits_prefix_uint d :
  Js.digits_prefix (NilEmpty.string_of_uint d) 0 = Z.of_N (Pos.of_uint d).
Proof.
  induction d; cbn [NilEmpty.string_of_uint Js.digits_prefix Pos.of_uint];
    try reflexivity;
    match goal with
    | |- context [Js.is_digit ?c] =>
        replace (Js.is_digit c) with true by reflexivity
    end;
    [exact IHd | ..];
    match goal with
    | |- Js.digits_prefix _ ?z = Z.of_N (Npos (Pos.of_uint_acc _ ?q)) =>
        replace z with (Zpos q) by reflexivity
    end; apply digits_prefix_uint_acc.
Qed.

Lemma digits_prefix_string_of_Z n :
  (0 <= n)%Z -> Js.digits_prefix (Js.string_of_Z n) 0 = n.
Proof.
  unfold Js.string_of_Z. destruct n as [|p|p]; try lia; intros _.
  - reflexivity.
  - cbn [Z.to_int NilZero.string_of_int].
    pose proof (DecimalPos.Unsigned.to_uint_nonnil p) as Hnil.
    pose proof (DecimalPos.Unsigned.of_to p) as Hp.
    unfold NilZero.string_of_uint.
    destruct (Pos.to_uint p) eqn:E; try congruence;
      rewrite digits_prefix_uint, Hp; reflexivity.
Qed.

Lemma digits_prefix_zeros n t :
  Js.digits_prefix (Js.zeros n ++ t) 0 = Js.digits_prefix t 0.
Proof. induction n; cbn; auto. Qed.

Lemma parseInt_digits t :
  all_digits t = true -> t <> ""%string ->
  Js.parseInt (Some t) = Some (Js.digits_prefix t 0).
Proof.
  destruct t as [|c t]; [congruence|]. cbn [all_digits].
  intros H _. apply andb_prop in H. destruct H as [Hc _].
  unfold Js.parseInt. cbn [Js.skip_spaces].
  rewrite (digit_is_not_space c Hc).
  destruct c as [[] [] [] [] [] [] [] []]; vm_compute in Hc; try discriminate Hc;
    reflexivity.
Qed.

Lemma padStart0_nonempty w t : t <> ""%string -> Js.padStart0 w t <> ""%string.
Proof.
  unfold Js.padStart0. destruct (Js.zeros (w - String.length t)); cbn; congruence.
Qed.

Lemma string_of_Z_nonempty n : Js.string_of_Z n <> ""%string.
Proof.
  unfold Js.string_of_Z. destruct n as [|p|p]; cbn; try congruence.
  pose proof (DecimalPos.Unsigned.to_uint_nonnil p).
  destruct (Pos.to_uint p); cbn; congruence.
Qed.

Lemma split_aux_dashless letters t cur :
  dashless letters = true ->
  Js.split_aux "-" (letters ++ String "-" t) cur
  = (cur ++ letters)%string :: Js.split_aux "-" t "".
Proof.
  revert cur. induction letters as [|c letters IH]; intros cur; cbn.
  - intros _. f_equal. induction cur; cbn; congruence.
  - intros H. apply andb_prop in H. destruct H as [Hc Hl].
    apply negb_true_iff in Hc. rewrite Hc, (IH _ Hl). f_equal.
    induction cur; cbn; congruence.
Qed.

(** The number of a generated identifier is the number it was made of. *)
Lemma id_number_generated (letters : string) (n : Z) :
  dashless letters = true -> (0 <= n)%Z ->
  EnhancedPaymentStorage.id_number
    (letters ++ "-" ++ Js.padStart0 4 (Js.string_of_Z n)) = Some n.
Proof.
  intros Hl Hn.
  assert (Hd : all_digits (Js.padStart0 4 (Js.string_of_Z n)) = true).
  { apply all_digits_app; [apply all_digits_zeros|apply all_digits_string_of_Z, Hn]. }
  unfold EnhancedPaymentStorage.id_number, Js.split.
  change (letters ++ "-" ++ Js.padStart0 4 (Js.string_of_Z n))%string
    with (letters ++ String "-" (Js.padStart0 4 (Js.string_of_Z n)))%string.
  rewrite (split_aux_dashless _ _ _ Hl), (split_aux_digits _ _ Hd).
  cbn [nth_error String.append].
  rewrite parseInt_digits.
  - unfold Js.padStart0. rewrite digits_prefix_zeros.
    rewrite digits_prefix_string_of_Z by exact Hn. reflexivity.
  - exact Hd.
  - apply padStart0_nonempty, string_of_Z_nonempty.
Qed.

Lemma math_max_numbered ids :
  Forall numbered ids -> ids <> [] ->
  exists m,
    Js.math_max (map EnhancedPaymentStorage.id_number ids) = Some m
    /\ (0 <= m)%Z
    /\ Forall (fun id => exists k,
                   EnhancedPaymentStorage.id_number id = Some k /\ (k <= m)%Z) ids.
Proof.
  induction ids as [|id ids IH]; [congruence|].
  intros Hall _. inversion Hall as [|? ? (k & Hk & Eid) Hrest]; subst.
  destruct ids as [|id' ids'].
  - exists k. cbn. rewrite Eid. repeat split; auto.
    constructor; [|constructor]. exists k. split; [exact Eid|lia].
  - destruct (IH Hrest ltac:(discriminate)) as (m & Em & Hm & Hle).
    exists (Z.max k m).
    change (Js.math_max (map EnhancedPaymentStorage.id_number (id :: id' :: ids')))
      with (match EnhancedPaymentStorage.id_number id,
                  Js.math_max (map EnhancedPaymentStorage.id_number (id' :: ids'))
            with
            | Some a, Some b => Some (Z.max a b)
            | _, _ => None
            end).
    rewrite Eid, Em. split; [reflexivity|]. split; [lia|].
    constructor.
    + exists k. split; [exact Eid|lia].
    + eapply Forall_impl; [|exact Hle].
      intros x (k' & Ek' & Hk'). exists k'. split; [exact Ek'|lia].
Qed.

(** A generated identifier is numbered and differs from the
    identifiers it was generated after. *)
Lemma next_id_fresh letters ids :
  dashless letters = true -> Forall numbered ids ->
  numbered (EnhancedPaymentStorage.next_id letters ids)
  /\ ~ In (EnhancedPaymentStorage.next_id letters ids) ids.
Proof.
  intros Hl Hall. unfold EnhancedPaymentStorage.next_id.
  destruct ids as [|id ids].
  - cbn [option_map Js.string_of_num]. split; [|intros []].
    exists 1%Z. split; [lia|]. apply (id_number_generated letters (0 + 1) Hl). lia.
  - destruct (math_max_numbered (id :: ids) Hall ltac:(discriminate))
      as (m & Em & Hm & Hle).
    rewrite Em. cbn [option_map Js.string_of_num].
    assert (E : EnhancedPaymentStorage.id_number
                  (letters ++ "-" ++ Js.padStart0 4 (Js.string_of_Z (m + 1)))
                = Some (m + 1)%Z) by (apply id_number_generated; [exact Hl|lia]).
    split.
    + exists (m + 1)%Z. split; [lia|exact E].
    + intros Hin. rewrite Forall_forall in Hle.
      destruct (Hle _ Hin) as (k & Ek & Hk). rewrite E in Ek.
      injection Ek as <-. lia.
Qed.

End Identifiers.

(** ** Bill identifiers in the stores the scripts can build *)

Section BillIdentifiers.

Import Reach.

Lemma map_assign_at_key {A B : Type} (f : A -> B) (q : A -> bool) (l : list A) (y : A) :
  (forall x, In x l -> q x = true -> f x = f y) ->
  map f (Js.assign_at l (Js.findIndex q l) y) = map f l.
Proof.
  induction l as [|a l IH]; cbn; auto.
  intros H. destruct (q a) eqn:Hq; cbn.
  - rewrite (H a (or_introl eq_refl) Hq). reflexivity.
  - assert (IH' := IH (fun x Hx => H x (or_intror Hx))).
    destruct (Js.findIndex q l); cbn in *; congruence.
Qed.

Lemma find_by_unique_key {A : Type} (f : A -> string) (l : list A) (x : A) :
  NoDup (map f l) -> In x l ->
  find (fun y => String.eqb (f y) (f x)) l = Some x.
Proof.
  induction l as [|a l IH]; cbn; [intros _ []|].
  intros Hnd [->|Hin].
  - rewrite String.eqb_refl. reflexivity.
  - inversion Hnd as [|? ? Hnotin Hnd']; subst.
    destruct (String.eqb (f a) (f x)) eqn:E.
    + apply String.eqb_eq in E. exfalso. apply Hnotin. rewrite E.
      apply in_map. exact Hin.
    + apply IH; assumption.
Qed.

Lemma updateBillStatus_bill_ids s billId paidAmount paymentId :
  bill_ids (snd (updateBillStatus s billId paidAmount paymentId)) = bill_ids s.
Proof.
  unfold bill_ids, updateBillStatus, getAllBills.
  destruct (find _ _) as [bill|] eqn:Hfind; [|reflexivity].
  cbn [snd Store.bills Store.with_bills].
  apply map_assign_at_key. intros x _ Hx.
  rewrite applyBillPayment_id.
  apply String.eqb_eq in Hx. rewrite Hx.
  symmetry. apply String.eqb_eq. apply (find_some _ _ Hfind).
Qed.

Lemma generateBill_bill_ids s env tenantId month kwh cubic :
  bill_ids (snd (generateBill s env tenantId month kwh cubic)) = bill_ids s
  \/ bill_ids (snd (generateBill s env tenantId month kwh cubic))
     = bill_ids s ++ [next_id "BILL" (bill_ids s)].
Proof.
  unfold bill_ids, generateBill, getAllBills.
  destruct (find _ _) as [e|] eqn:Hfind; cbn [snd Store.bills Store.with_bills].
  - left. apply map_assign_at_key. intros x _ Hx. bill_fields.
    apply String.eqb_eq. exact Hx.
  - right. rewrite map_app. reflexivity.
Qed.

Lemma getRentStatus_bills s env tenantId month :
  Store.bills (snd (getRentStatus s env tenantId month)) = Store.bills s.
Proof. unfold getRentStatus. destruct (find _ _); reflexivity. Qed.

Lemma updateRentStatus_bills s env tenantId month paidAmount paymentId :
  Store.bills (snd (updateRentStatus s env tenantId month paidAmount paymentId))
  = Store.bills s.
Proof.
  unfold updateRentStatus. destruct (find _ _) eqn:Hfind; [reflexivity|].
  unfold getRentStatus. unfold getAllRentStatuses in Hfind. rewrite Hfind.
  reflexivity.
Qed.

Lemma applyToLedger_bill_ids s env p delta :
  bill_ids (applyToLedger s env p delta) = bill_ids s.
Proof.
  unfold applyToLedger.
  destruct (String.eqb (Payment.payment_type p) "rent").
  - unfold bill_ids. rewrite updateRentStatus_bills. reflexivity.
  - destruct (String.eqb (Payment.payment_type p) "bill"); [|reflexivity].
    destruct (Payment.billId p); [|reflexivity].
    apply updateBillStatus_bill_ids.
Qed.

Lemma step_bill_ids s s' :
  step s s' ->
  bill_ids s' = bill_ids s
  \/ bill_ids s' = bill_ids s ++ [next_id "BILL" (bill_ids s)]
  \/ bill_ids s' = [].
Proof.
  intros [newRates | env tenantId month kwh cubic | env tenantId month
          | env tenantId month paidAmount paymentId | billId paidAmount paymentId
          | env paymentData | env paymentData | env paymentId status adminNotes
          | paymentId | | session tenants].
  - left. reflexivity.
  - destruct (generateBill_bill_ids s env tenantId month kwh cubic) as [H|H];
      auto.
  - left. unfold bill_ids. rewrite getRentStatus_bills. reflexivity.
  - left. unfold bill_ids. rewrite updateRentStatus_bills. reflexivity.
  - left. apply updateBillStatus_bill_ids.
  - left. unfold createRentPayment.
    destruct (getCurrentTenant s) as [tenant|]; [|reflexivity].
    destruct (getRentStatus s env (Tenant.id tenant) _) as [r s1] eqn:E.
    assert (E1 : Store.bills s1 = Store.bills s).
    { change s1 with (snd (r, s1)). rewrite <- E. apply getRentStatus_bills. }
    cbn [snd]. destruct (String.eqb _ "verified").
    + unfold bill_ids. rewrite updateRentStatus_bills. cbn. rewrite E1. reflexivity.
    + unfold bill_ids. cbn. rewrite E1. reflexivity.
  - left. unfold createBillPayment.
    destruct (getCurrentTenant s) as [tenant|]; [|reflexivity].
    destruct (match PaymentData.billId paymentData with
              | Some billId => getBillById s billId
              | None => None
              end) as [bill|]; [|reflexivity].
    cbn [snd]. destruct (String.eqb _ "verified").
    + rewrite updateBillStatus_bill_ids. reflexivity.
    + reflexivity.
  - left. unfold updatePaymentStatus.
    destruct (find _ _) as [payment|]; [|reflexivity].
    destruct (String.eqb status "verified" || String.eqb status "completed").
    + cbn [snd]. unfold bill_ids at 1. cbn [Store.bills Store.with_payments].
      apply applyToLedger_bill_ids.
    + destruct (String.eqb status "rejected" && String.eqb (Payment.status payment) "verified").
      * cbn [snd]. unfold bill_ids at 1. cbn [Store.bills Store.with_payments].
        apply applyToLedger_bill_ids.
      * reflexivity.
  - left. reflexivity.
  - right; right. reflexivity.
  - left. reflexivity.
Qed.

(** In every store the scripts can build, the bills carry pairwise
    different, numbered identifiers. *)
Lemma reachable_bill_ids_wf s : reachable s -> bill_ids_wf s.
Proof.
  induction 1 as [s (_ & Hb & _) | s s' _ (Hnd & Hnum) Hstep].
  - unfold bill_ids_wf, bill_ids. rewrite Hb. split; constructor.
  - unfold bill_ids_wf.
    destruct (step_bill_ids s s' Hstep) as [-> | [-> | ->]];
      [split; assumption | | split; constructor].
    destruct (next_id_fresh "BILL" (bill_ids s) eq_refl Hnum) as (Hn & Hfresh).
    split.
    + apply NoDup_app; [exact Hnd | constructor; [intros []|constructor] |].
      intros x Hx [<-|[]]. exact (Hfresh Hx).
    + apply Forall_app. split; [exact Hnum|]. constructor; [exact Hn|constructor].
Qed.

(** There, a stored bill is the one found under its identifier. *)
Lemma reachable_bill_lookup s bill :
  reachable s -> In bill (getAllBills s) ->
  getBillById s (Bill.id bill) = Some bill.
Proof.
  intros Hr Hin. destruct (reachable_bill_ids_wf s Hr) as (Hnd & _).
  unfold getBillById. apply find_by_unique_key; assumption.
Qed.

End BillIdentifiers.

(** ** Whole cents in the stores the scripts can build *)

Section LedgerCents.

Import Reach.

Lemma Forall_set_nth {A : Type} (P : A -> Prop) (l : list A) (i : nat) (y : A) :
  Forall P l -> P y -> Forall P (Js.set_nth l i y).
Proof.
  intros Hl Hy. revert i. induction Hl as [|a l Ha Hl IH]; intros [|i]; cbn;
    constructor; auto.
Qed.

Lemma Forall_assign_at {A : Type} (P : A -> Prop) (l : list A) (o : option nat) (y : A) :
  Forall P l -> P y -> Forall P (Js.assign_at l o y).
Proof. destruct o; cbn; auto using Forall_set_nth. Qed.

Lemma is_cents_round2 x : is_cents (Js.round2 x).
Proof. exists (Js.toFixed2_cents x). reflexivity. Qed.

Lemma is_cents_0 : is_cents 0.
Proof. exists 0%Z. reflexivity. Qed.

Lemma applyBillPayment_keeps_cents bill paidAmount paymentId :
  is_cents (Bill.total_amount bill) ->
  is_cents (Bill.paid_amount (applyBillPayment bill paidAmount paymentId))
  /\ is_cents (Bill.total_amount (applyBillPayment bill paidAmount paymentId)).
Proof.
  intros Ht. rewrite applyBillPayment_total. split; [|exact Ht].
  destruct (applyBillPayment_cases bill paidAmount paymentId)
    as [(_ & -> & _) | [(_ & _ & -> & _) | (_ & _ & -> & _)]];
    auto using is_cents_round2.
Qed.

Lemma applyRentPayment_keeps_cents status paidAmount paymentId :
  is_cents (RentStatus.paid_amount (applyRentPayment status paidAmount paymentId)).
Proof. rewrite applyRentPayment_paid. apply is_cents_round2. Qed.

Lemma updateBillStatus_ledger_cents s billId paidAmount paymentId :
  ledger_cents s ->
  ledger_cents (snd (updateBillStatus s billId paidAmount paymentId)).
Proof.
  intros (Hb & Hr). unfold updateBillStatus, getAllBills.
  destruct (find _ _) as [bill|] eqn:Hfind; [|split; assumption].
  split; [|exact Hr]. cbn [snd Store.bills Store.with_bills].
  apply Forall_assign_at; [exact Hb|].
  apply applyBillPayment_keeps_cents.
  rewrite Forall_forall in Hb. apply (Hb bill). apply (find_some _ _ Hfind).
Qed.

Lemma getRentStatus_ledger_cents s env tenantId month :
  ledger_cents s ->
  ledger_cents (snd (getRentStatus s env tenantId month))
  /\ is_cents (RentStatus.paid_amount (fst (getRentStatus s env tenantId month))).
Proof.
  intros (Hb & Hr). unfold getRentStatus.
  destruct (find _ _) as [status|] eqn:Hfind.
  - split; [split; assumption|]. cbn [fst].
    rewrite Forall_forall in Hr. apply (Hr status). apply (find_some _ _ Hfind).
  - cbn [fst snd]. split; [|apply is_cents_0].
    split; [exact Hb|]. cbn [Store.rent_statuses Store.with_rent_statuses].
    apply Forall_app. split; [exact Hr|].
    constructor; [apply is_cents_0|constructor].
Qed.

Lemma updateRentStatus_ledger_cents s env tenantId month paidAmount paymentId :
  ledger_cents s ->
  ledger_cents (snd (updateRentStatus s env tenantId month paidAmount paymentId)).
Proof.
  intros (Hb & Hr). unfold updateRentStatus, getAllRentStatuses.
  destruct (find _ _) as [status|] eqn:Hfind.
  - split; [exact Hb|]. cbn [snd Store.rent_statuses Store.with_rent_statuses].
    repeat apply Forall_assign_at; auto using applyRentPayment_keeps_cents.
  - unfold getRentStatus. rewrite Hfind.
    split; [exact Hb|]. cbn [snd Store.rent_statuses Store.with_rent_statuses].
    apply Forall_assign_at; auto using applyRentPayment_keeps_cents.
Qed.

Lemma generateBill_ledger_cents s env tenantId month kwh cubic :
  ledger_cents s -> ledger_cents (snd (generateBill s env tenantId month kwh cubic)).
Proof.
  intros (Hb & Hr). unfold generateBill, getAllBills.
  split; [|exact Hr].
  destruct (find _ _) as [e|] eqn:Hfind; cbn [snd Store.bills Store.with_bills].
  - apply Forall_assign_at; [exact Hb|]. bill_fields.
    split; [|apply is_cents_round2].
    rewrite Forall_forall in Hb. apply (Hb e). apply (find_some _ _ Hfind).
  - apply Forall_app. split; [exact Hb|].
    constructor; [|constructor]. bill_fields.
    split; [apply is_cents_0|apply is_cents_round2].
Qed.

Lemma with_payments_ledger_cents s payments :
  ledger_cents s -> ledger_cents (Store.with_payments s payments).
Proof. intros H. exact H. Qed.

Lemma applyToLedger_ledger_cents s env p delta :
  ledger_cents s -> ledger_cents (applyToLedger s env p delta).
Proof.
  intros H. unfold applyToLedger.
  destruct (String.eqb (Payment.payment_type p) "rent");
    [apply updateRentStatus_ledger_cents; exact H|].
  destruct (String.eqb (Payment.payment_type p) "bill"); [|exact H].
  destruct (Payment.billId p); [|exact H].
  apply updateBillStatus_ledger_cents; exact H.
Qed.

Lemma step_ledger_cents s s' : ledger_cents s -> step s s' -> ledger_cents s'.
Proof.
  intros H [newRates | env tenantId month kwh cubic | env tenantId month
            | env tenantId month paidAmount paymentId | billId paidAmount paymentId
            | env paymentData | env paymentData | env paymentId status adminNotes
            | paymentId | | session tenants].
  - exact H.
  - apply generateBill_ledger_cents; exact H.
  - apply getRentStatus_ledger_cents; exact H.
  - apply updateRentStatus_ledger_cents; exact H.
  - apply updateBillStatus_ledger_cents; exact H.
  - unfold createRentPayment.
    destruct (getCurrentTenant s) as [tenant|]; [|exact H].
    pose proof (getRentStatus_ledger_cents s env (Tenant.id tenant)
                  (Js.or_else (PaymentData.month paymentData) (getCurrentMonth env)) H)
      as (H1 & _).
    destruct (getRentStatus s env (Tenant.id tenant) _) as [r s1].
    cbn [snd] in *. destruct (String.eqb _ "verified").
    + apply updateRentStatus_ledger_cents. exact H1.
    + exact H1.
  - unfold createBillPayment.
    destruct (getCurrentTenant s) as [tenant|]; [|exact H].
    destruct (match PaymentData.billId paymentData with
              | Some billId => getBillById s billId
              | None => None
              end) as [bill|]; [|exact H].
    cbn [snd]. destruct (String.eqb _ "verified").
    + apply updateBillStatus_ledger_cents. exact H.
    + exact H.
  - unfold updatePaymentStatus.
    destruct (find _ _) as [payment|]; [|exact H].
    destruct (String.eqb status "verified" || String.eqb status "completed").
    + cbn [snd]. apply with_payments_ledger_cents, applyToLedger_ledger_cents, H.
    + destruct (String.eqb status "rejected"
                && String.eqb (Payment.status payment) "verified").
      * cbn [snd]. apply with_payments_ledger_cents, applyToLedger_ledger_cents, H.
      * exact H.
  - exact H.
  - split; constructor.
  - exact H.
Qed.

(** In every store the scripts can build, the paid amounts of the bills
    and of the rent statuses, and the totals of the bills, are whole
    cents. *)
Lemma reachable_ledger_cents s : reachable s -> ledger_cents s.
Proof.
  induction 1 as [s (_ & Hb & Hr) | s s' _ IH Hstep].
  - unfold ledger_cents. rewrite Hb, Hr. split; constructor.
  - exact (step_ledger_cents s s' IH Hstep).
Qed.

(** There, the paid amount of the entry a payment targets is whole
    cents. *)
Lemma reachable_target_cents s p pre :
  reachable s -> target_paid_amount s p = Some pre -> is_cents pre.
Proof.
  intros Hreach. destruct (reachable_ledger_cents s Hreach) as (Hb & Hr).
  rewrite Forall_forall in Hb, Hr.
  unfold target_paid_amount, findRentStatus, getBillById.
  destruct (String.eqb (Payment.payment_type p) "rent").
  - destruct (find _ _) as [r|] eqn:Hfind; [|discriminate].
    cbn. intros [= <-]. apply Hr. apply (find_some _ _ Hfind).
  - destruct (String.eqb (Payment.payment_type p) "bill"); [|discriminate].
    destruct (Payment.billId p); [|discriminate].
    destruct (find _ _) as [b|] eqn:Hfind; [|discriminate].
    cbn. intros [= <-]. apply (Hb b). apply (find_some _ _ Hfind).
Qed.

End LedgerCents.

(** ** Regenerating a bill *)

(** C5. In a store the scripts have built, when a bill of the tenant
    and month exists, [generateBill] returns a bill with the new
    consumption, the current rates and the amounts computed from them,
    and with the identifier, paid amount, status, creation date and
    payment list of the existing bill; that bill replaces the existing
    one: it is the bill of the tenant and month afterwards, and there
    are as many bills, and as many for that tenant and month, as
    before. *)
Theorem generateBill_existing
    (s : Store.t) (env : Env.t) (tenantId month : string)
    (electricity_kwh water_cubic : Q) (existing : Bill.t) :
  Reach.reachable s ->
  getBillForMonth s tenantId month = Some existing ->
  let bill := fst (generateBill s env tenantId month electricity_kwh water_cubic) in
  let s' := snd (generateBill s env tenantId month electricity_kwh water_cubic) in
  (Bill.id bill = Bill.id existing
   /\ Bill.paid_amount bill = Bill.paid_amount existing
   /\ Bill.status bill = Bill.status existing
   /\ Bill.createdDate bill = Bill.createdDate existing
   /\ Bill.payments bill = Bill.payments existing)
  /\ (Bill.electricity_kwh bill = electricity_kwh
      /\ Bill.water_cubic bill = water_cubic
      /\ Bill.electricity_rate bill = UtilityRates.electricity_rate (getUtilityRates s)
      /\ Bill.water_rate bill = UtilityRates.water_rate (getUtilityRates s)
      /\ Bill.electricity_amount bill
         = Js.round2 (Js.mul electricity_kwh
                        (UtilityRates.electricity_rate (getUtilityRates s)))
      /\ Bill.water_amount bill
         = Js.round2 (Js.mul water_cubic (UtilityRates.water_rate (getUtilityRates s)))
      /\ Bill.total_amount bill
         = Js.round2 (Js.add (Bill.electricity_amount bill) (Bill.water_amount bill)))
  /\ getBillForMonth s' tenantId month = Some bill
  /\ getBillById s' (Bill.id existing) = Some bill
  /\ List.length (getAllBills s') = List.length (getAllBills s)
  /\ List.length (filter (same_bill_key tenantId month) (getAllBills s'))
     = List.length (filter (same_bill_key tenantId month) (getAllBills s)).
Proof.
  intros Hreach Hmonth.
  apply generateBill_replaces; [exact Hmonth|].
  apply reachable_bill_lookup; [exact Hreach|].
  apply (find_some _ _ Hmonth).
Qed.

(** The store with 1000.00 paid on the March bill is built by
    generating the bill and applying the payment. *)
Lemma reachable_with_partial_bill : Reach.reachable with_partial_bill.
Proof.
  apply Reach.reachable_step with (s := with_bill).
  - apply Reach.reachable_step with (s := empty).
    + apply Reach.reachable_initial. repeat split.
    + exact (Reach.step_generateBill empty env "alice" "2024-03" 120 10).
  - exact (Reach.step_updateBillStatus with_bill "BILL-0001" 1000 "PAY-0001").
Defined.

Lemma generateBill_existing_witness :
  let bill := fst (generateBill with_partial_bill env "alice" "2024-03" 150 12) in
  let s' := snd (generateBill with_partial_bill env "alice" "2024-03" 150 12) in
  (Bill.id bill = Bill.id partial_bill
   /\ Bill.paid_amount bill = Bill.paid_amount partial_bill
   /\ Bill.status bill = Bill.status partial_bill
   /\ Bill.createdDate bill = Bill.createdDate partial_bill
   /\ Bill.payments bill = Bill.payments partial_bill)
  /\ (Bill.electricity_kwh bill = 150
      /\ Bill.water_cubic bill = 12
      /\ Bill.electricity_rate bill
         = UtilityRates.electricity_rate (getUtilityRates with_partial_bill)
      /\ Bill.water_rate bill
         = UtilityRates.water_rate (getUtilityRates with_partial_bill)
      /\ Bill.electricity_amount bill
         = Js.round2
             (150 * UtilityRates.electricity_rate (getUtilityRates with_partial_bill))
      /\ Bill.water_amount bill
         = Js.round2 (12 * UtilityRates.water_rate (getUtilityRates with_partial_bill))
      /\ Bill.total_amount bill
         = Js.round2 (Js.add (Bill.electricity_amount bill) (Bill.water_amount bill)))
  /\ getBillForMonth s' "alice" "2024-03" = Some bill
  /\ getBillById s' (Bill.id partial_bill) = Some bill
  /\ List.length (getAllBills s') = List.length (getAllBills with_partial_bill)
  /\ List.length (filter (same_bill_key "alice" "2024-03") (getAllBills s'))
     = List.length
         (filter (same_bill_key "alice" "2024-03") (getAllBills with_partial_bill)).
Proof.
  apply (generateBill_existing with_partial_bill env "alice" "2024-03" 150 12
           partial_bill).
  - exact reachable_with_partial_bill.
  - vm_compute. reflexivity.
Defined.


(** ** Well-formed lists in the stores the scripts can build *)

Section WellFormed.

Import Reach.

Lemma map_assign_at_found {A B : Type} (f : A -> B) (q : A -> bool)
    (l : list A) (y z : A) :
  find q l = Some z -> f z = f y ->
  map f (Js.assign_at l (Js.findIndex q l) y) = map f l.
Proof.
  induction l as [|a l IH]; cbn; [discriminate|].
  destruct (q a) eqn:Hq; cbn.
  - intros [= ->] ->. reflexivity.
  - intros Hz Hf. specialize (IH Hz Hf).
    destruct (Js.findIndex q l); cbn in *; congruence.
Qed.

Lemma assign_at_found_same {A : Type} (q : A -> bool) (l : list A) (z : A) :
  find q l = Some z -> Js.assign_at l (Js.findIndex q l) z = l.
Proof.
  induction l as [|a l IH]; cbn; [discriminate|].
  destruct (q a) eqn:Hq; cbn.
  - intros [= ->]. reflexivity.
  - intros Hz. specialize (IH Hz).
    destruct (Js.findIndex q l); cbn in *; congruence.
Qed.

Lemma unique_by_key {A : Type} (f : A -> string) (l : list A) (x y : A) :
  NoDup (map f l) -> In x l -> In y l -> f x = f y -> x = y.
Proof.
  intros Hnd Hx Hy Hf.
  pose proof (find_by_unique_key f l x Hnd Hx) as H1.
  pose proof (find_by_unique_key f l y Hnd Hy) as H2.
  rewrite <- Hf in H2. congruence.
Qed.

Lemma find_None_not_in_keys {A K : Type} (p : A -> bool) (key : A -> K) (k : K)
    (l : list A) :
  (forall x, key x = k -> p x = true) ->
  find p l = None -> ~ In k (map key l).
Proof.
  intros Hp Hnone Hin. apply in_map_iff in Hin. destruct Hin as (x & Hk & Hx).
  pose proof (find_none _ _ Hnone x Hx) as Hf. rewrite (Hp x Hk) in Hf.
  discriminate.
Qed.

Lemma NoDup_snoc {A : Type} (l : list A) (x : A) :
  NoDup l -> ~ In x l -> NoDup (l ++ [x]).
Proof.
  intros Hnd Hx. apply NoDup_app; [exact Hnd | constructor; [intros []|constructor] |].
  intros y Hy [<-|[]]. exact (Hx Hy).
Qed.

Lemma NoDup_map_filter {A B : Type} (f : A -> B) (keep : A -> bool) (l : list A) :
  NoDup (map f l) -> NoDup (map f (filter keep l)).
Proof.
  induction l as [|a l IH]; cbn; auto.
  intros Hnd. inversion Hnd as [|? ? Hnotin Hnd']; subst.
  destruct (keep a); cbn; auto.
  constructor; auto. intros Hin. apply Hnotin.
  apply in_map_iff in Hin. destruct Hin as (x & Hx & Hin).
  apply filter_In in Hin. apply in_map_iff. exists x. tauto.
Qed.

Lemma Forall_map_filter {A B : Type} (P : B -> Prop) (f : A -> B) (p : A -> bool)
    (l : list A) :
  Forall P (map f l) -> Forall P (map f (filter p l)).
Proof.
  rewrite !Forall_forall. intros H y Hy.
  apply in_map_iff in Hy. destruct Hy as (x & <- & Hx).
  apply filter_In in Hx. apply H. apply in_map. tauto.
Qed.

Lemma ids_wf_snoc letters ids :
  dashless letters = true -> ids_wf ids -> ids_wf (ids ++ [next_id letters ids]).
Proof.
  intros Hl (Hnd & Hnum).
  destruct (next_id_fresh letters ids Hl Hnum) as (Hn & Hfresh).
  split; [apply NoDup_snoc; assumption|].
  apply Forall_app. split; [exact Hnum|]. constructor; [exact Hn|constructor].
Qed.

Lemma ids_wf_nil : ids_wf [].
Proof. split; constructor. Qed.

(** *** Bills *)

Lemma applyBillPayment_key bill paidAmount paymentId :
  Bill.tenantId (applyBillPayment bill paidAmount paymentId) = Bill.tenantId bill
  /\ Bill.month (applyBillPayment bill paidAmount paymentId) = Bill.month bill.
Proof.
  unfold applyBillPayment. bill_fields.
  destruct (Qle_bool _ _); [|destruct (Js.Qltb _ _)]; auto.
Qed.

Lemma updateBillStatus_bill_keys s billId paidAmount paymentId :
  bill_keys (snd (updateBillStatus s billId paidAmount paymentId)) = bill_keys s.
Proof.
  unfold bill_keys, updateBillStatus, getAllBills.
  destruct (find _ _) as [bill|] eqn:Hfind; [|reflexivity].
  cbn [snd Store.bills Store.with_bills].
  apply map_assign_at_found with (z := bill); [exact Hfind|].
  destruct (applyBillPayment_key bill paidAmount paymentId) as (-> & ->).
  reflexivity.
Qed.

Lemma generateBill_bills_wf s env tenantId month kwh cubic :
  bills_wf s -> bills_wf (snd (generateBill s env tenantId month kwh cubic)).
Proof.
  intros ((Hnd & Hnum) & Hkeys).
  unfold bills_wf, bill_ids, bill_keys, generateBill, getAllBills in *.
  destruct (find (same_bill_key tenantId month) (Store.bills s)) as [e|] eqn:Hfind;
    cbn [snd Store.bills Store.with_bills].
  - assert (Hlookup : find (fun b => String.eqb (Bill.id b) (Bill.id e)) (Store.bills s)
                      = Some e).
    { apply find_by_unique_key; [exact Hnd|]. apply (find_some _ _ Hfind). }
    rewrite (map_assign_at_found Bill.id _ _ _ e Hlookup) by reflexivity.
    rewrite (map_assign_at_found (fun b => (Bill.tenantId b, Bill.month b))
               _ _ _ e Hlookup).
    + repeat split; assumption.
    + bill_fields. destruct (find_some _ _ Hfind) as (_ & Hk).
      unfold same_bill_key in Hk. apply andb_prop in Hk. destruct Hk as (Ht & Hm).
      apply String.eqb_eq in Ht, Hm. congruence.
  - rewrite !map_app. cbn [map]. bill_fields.
    split.
    + apply (ids_wf_snoc "BILL" _ eq_refl). split; assumption.
    + apply NoDup_snoc; [exact Hkeys|].
      apply (find_None_not_in_keys (same_bill_key tenantId month)
               (fun b => (Bill.tenantId b, Bill.month b))); [|exact Hfind].
      intros x [= <- <-]. unfold same_bill_key. rewrite !String.eqb_refl. reflexivity.
Qed.

Lemma updateBillStatus_bills_wf s billId paidAmount paymentId :
  bills_wf s -> bills_wf (snd (updateBillStatus s billId paidAmount paymentId)).
Proof.
  intros (Hids & Hkeys). unfold bills_wf.
  rewrite updateBillStatus_bill_ids, updateBillStatus_bill_keys. split; assumption.
Qed.

Lemma bills_wf_same s s' : Store.bills s' = Store.bills s -> bills_wf s -> bills_wf s'.
Proof. unfold bills_wf, bill_ids, bill_keys. intros ->. auto. Qed.

Lemma applyToLedger_bills_wf s env p delta :
  bills_wf s -> bills_wf (applyToLedger s env p delta).
Proof.
  intros H. unfold applyToLedger.
  destruct (String.eqb (Payment.payment_type p) "rent").
  - apply (bills_wf_same s); [apply updateRentStatus_bills|exact H].
  - destruct (String.eqb (Payment.payment_type p) "bill"); [|exact H].
    destruct (Payment.billId p); [|exact H].
    apply updateBillStatus_bills_wf; exact H.
Qed.

Lemma step_bills_wf s s' : bills_wf s -> step s s' -> bills_wf s'.
Proof.
  intros H [newRates | env tenantId month kwh cubic | env tenantId month
            | env tenantId month paidAmount paymentId | billId paidAmount paymentId
            | env paymentData | env paymentData | env paymentId status adminNotes
            | paymentId | | session tenants].
  - exact H.
  - apply generateBill_bills_wf; exact H.
  - apply (bills_wf_same s); [apply getRentStatus_bills|exact H].
  - apply (bills_wf_same s); [apply updateRentStatus_bills|exact H].
  - apply updateBillStatus_bills_wf; exact H.
  - apply (bills_wf_same s); [|exact H].
    unfold createRentPayment.
    destruct (getCurrentTenant s) as [tenant|]; [|reflexivity].
    pose proof (getRentStatus_bills s env (Tenant.id tenant)
                  (Js.or_else (PaymentData.month paymentData) (getCurrentMonth env)))
      as E1.
    destruct (getRentStatus s env (Tenant.id tenant) _) as [r s1].
    cbn [snd] in *. destruct (String.eqb _ "verified").
    + rewrite updateRentStatus_bills. exact E1.
    + exact E1.
  - unfold createBillPayment.
    destruct (getCurrentTenant s) as [tenant|]; [|exact H].
    destruct (match PaymentData.billId paymentData with
              | Some billId => getBillById s billId
              | None => None
              end) as [bill|]; [|exact H].
    cbn [snd]. destruct (String.eqb _ "verified").
    + apply updateBillStatus_bills_wf. exact H.
    + exact H.
  - unfold updatePaymentStatus.
    destruct (find _ _) as [payment|]; [|exact H].
    destruct (String.eqb status "verified" || String.eqb status "completed").
    + cbn [snd]. apply (applyToLedger_bills_wf s env _ _ H).
    + destruct (String.eqb status "rejected"
                && String.eqb (Payment.status payment) "verified").
      * cbn [snd]. apply (applyToLedger_bills_wf s env _ _ H).
      * exact H.
  - exact H.
  - repeat split; constructor.
  - exact H.
Qed.

Lemma reachable_bills_wf s : reachable s -> bills_wf s.
Proof.
  induction 1 as [s (_ & Hb & _) | s s' _ IH Hstep].
  - unfold bills_wf, ids_wf, bill_ids, bill_keys. rewrite Hb.
    repeat split; constructor.
  - exact (step_bills_wf s s' IH Hstep).
Qed.

(** *** Rent statuses *)

Lemma getRentStatus_payments s env tenantId month :
  Store.payments (snd (getRentStatus s env tenantId month)) = Store.payments s.
Proof. unfold getRentStatus. destruct (find _ _); reflexivity. Qed.

Lemma updateRentStatus_payments s env tenantId month paidAmount paymentId :
  Store.payments (snd (updateRentStatus s env tenantId month paidAmount paymentId))
  = Store.payments s.
Proof.
  unfold updateRentStatus. destruct (find _ _) eqn:Hfind; [reflexivity|].
  unfold getRentStatus. unfold getAllRentStatuses in Hfind. rewrite Hfind.
  reflexivity.
Qed.

Lemma updateBillStatus_payments s billId paidAmount paymentId :
  Store.payments (snd (updateBillStatus s billId paidAmount paymentId))
  = Store.payments s.
Proof. unfold updateBillStatus. destruct (find _ _); reflexivity. Qed.

Lemma updateBillStatus_rent_statuses s billId paidAmount paymentId :
  Store.rent_statuses (snd (updateBillStatus s billId paidAmount paymentId))
  = Store.rent_statuses s.
Proof. unfold updateBillStatus. destruct (find _ _); reflexivity. Qed.

Lemma getRentStatus_rents_wf s env tenantId month :
  rents_wf s -> rents_wf (snd (getRentStatus s env tenantId month)).
Proof.
  intros (Hids & Hkeys). unfold getRentStatus.
  destruct (find _ _) eqn:Hfind; [split; assumption|].
  unfold rents_wf, rent_ids, rent_keys in *.
  cbn [snd Store.rent_statuses Store.with_rent_statuses].
  rewrite !map_app. cbn [map]. rent_fields. split.
  - apply (ids_wf_snoc "RENT" _ eq_refl). exact Hids.
  - apply NoDup_snoc; [exact Hkeys|].
    apply (find_None_not_in_keys (same_rent_key tenantId month)
             (fun r => (RentStatus.tenantId r, RentStatus.month r))); [|exact Hfind].
    intros x [= <- <-]. unfold same_rent_key. rewrite !String.eqb_refl. reflexivity.
Qed.

(** A stored status is overwritten where it stands, once. *)
Lemma updateRentStatus_found_list s env tenantId month paidAmount paymentId status :
  NoDup (rent_ids s) ->
  findRentStatus s tenantId month = Some status ->
  Store.rent_statuses (snd (updateRentStatus s env tenantId month paidAmount paymentId))
  = Js.assign_at (Store.rent_statuses s)
      (Js.findIndex (same_rent_key tenantId month) (Store.rent_statuses s))
      (applyRentPayment status paidAmount paymentId).
Proof.
  intros Hnd Hfind.
  unfold findRentStatus, getAllRentStatuses in Hfind.
  unfold updateRentStatus, getAllRentStatuses. rewrite Hfind.
  cbn [snd Store.rent_statuses Store.with_rent_statuses].
  set (status' := applyRentPayment status paidAmount paymentId).
  set (mutated := Js.assign_at (Store.rent_statuses s)
                    (Js.findIndex (same_rent_key tenantId month) (Store.rent_statuses s))
                    status').
  destruct (applyRentPayment_frame status paidAmount paymentId)
    as (Hid & Hten & Hmon & _).
  assert (Hkey : same_rent_key tenantId month status' = true).
  { unfold same_rent_key. subst status'. rewrite Hten, Hmon.
    apply (find_some _ _ Hfind). }
  assert (Hin : find (same_rent_key tenantId month) mutated = Some status').
  { apply find_assign_at_same with (z := status); assumption. }
  assert (Hids : map RentStatus.id mutated = map RentStatus.id (Store.rent_statuses s)).
  { apply map_assign_at_found with (z := status); [exact Hfind|]. symmetry. exact Hid. }
  apply assign_at_found_same.
  apply (find_by_unique_key RentStatus.id).
  - rewrite Hids. exact Hnd.
  - apply (find_some _ _ Hin).
Qed.

(** A status that is not stored is not stored afterwards either: the
    list written back is the list read before the status was created. *)
Lemma updateRentStatus_missing_list s env tenantId month paidAmount paymentId :
  Forall numbered (rent_ids s) ->
  findRentStatus s tenantId month = None ->
  Store.rent_statuses (snd (updateRentStatus s env tenantId month paidAmount paymentId))
  = Store.rent_statuses s.
Proof.
  intros Hnum Hfind.
  unfold findRentStatus, getAllRentStatuses in Hfind.
  unfold updateRentStatus, getAllRentStatuses. rewrite Hfind.
  unfold getRentStatus. rewrite Hfind.
  cbn [snd Store.rent_statuses Store.with_rent_statuses].
  destruct (applyRentPayment_frame
              (RentStatus.mk (generateRentStatusId s) tenantId month
                 match getCurrentTenantById s tenantId with
                 | Some tenant => Tenant.monthlyRent tenant
                 | None => 0
                 end 0
                 match getCurrentTenantById s tenantId with
                 | Some tenant => Tenant.monthlyRent tenant
                 | None => 0
                 end "unpaid" [] (Env.now_iso env) (getRentDueDate month))
              paidAmount paymentId) as (Hid & _).
  cbn [RentStatus.id] in Hid. rewrite Hid.
  rewrite findIndex_None; [reflexivity|].
  destruct (find (fun r => String.eqb (RentStatus.id r) (generateRentStatusId s))
              (Store.rent_statuses s)) as [z|] eqn:Hz; [|reflexivity].
  exfalso. destruct (find_some _ _ Hz) as (Hin & Heq).
  apply String.eqb_eq in Heq.
  destruct (next_id_fresh "RENT" (rent_ids s) eq_refl Hnum) as (_ & Hfresh).
  apply Hfresh. unfold generateRentStatusId, getAllRentStatuses in Heq.
  unfold rent_ids. rewrite <- Heq. apply in_map. exact Hin.
Qed.

Lemma updateRentStatus_rents_wf s env tenantId month paidAmount paymentId :
  rents_wf s ->
  rents_wf (snd (updateRentStatus s env tenantId month paidAmount paymentId)).
Proof.
  intros ((Hnd & Hnum) & Hkeys).
  destruct (findRentStatus s tenantId month) as [status|] eqn:Hfind.
  - unfold rents_wf, rent_ids, rent_keys in *.
    rewrite (updateRentStatus_found_list s env tenantId month paidAmount paymentId
               status Hnd Hfind).
    destruct (applyRentPayment_frame status paidAmount paymentId)
      as (Hid & Hten & Hmon & _).
    rewrite (map_assign_at_found RentStatus.id _ _ _ status Hfind)
      by (symmetry; exact Hid).
    rewrite (map_assign_at_found
               (fun r => (RentStatus.tenantId r, RentStatus.month r))
               _ _ _ status Hfind) by (rewrite Hten, Hmon; reflexivity).
    repeat split; assumption.
  - unfold rents_wf, rent_ids, rent_keys in *.
    rewrite (updateRentStatus_missing_list s env tenantId month paidAmount paymentId
               Hnum Hfind).
    repeat split; assumption.
Qed.

Lemma rents_wf_same s s' :
  Store.rent_statuses s' = Store.rent_statuses s -> rents_wf s -> rents_wf s'.
Proof. unfold rents_wf, rent_ids, rent_keys. intros ->. auto. Qed.

Lemma applyToLedger_rents_wf s env p delta :
  rents_wf s -> rents_wf (applyToLedger s env p delta).
Proof.
  intros H. unfold applyToLedger.
  destruct (String.eqb (Payment.payment_type p) "rent").
  - apply updateRentStatus_rents_wf; exact H.
  - destruct (String.eqb (Payment.payment_type p) "bill"); [|exact H].
    destruct (Payment.billId p); [|exact H].
    apply (rents_wf_same s); [apply updateBillStatus_rent_statuses|exact H].
Qed.

Lemma step_rents_wf s s' : rents_wf s -> step s s' -> rents_wf s'.
Proof.
  intros H [newRates | env tenantId month kwh cubic | env tenantId month
            | env tenantId month paidAmount paymentId | billId paidAmount paymentId
            | env paymentData | env paymentData | env paymentId status adminNotes
            | paymentId | | session tenants].
  - exact H.
  - exact H.
  - apply getRentStatus_rents_wf; exact H.
  - apply updateRentStatus_rents_wf; exact H.
  - apply (rents_wf_same s); [apply updateBillStatus_rent_statuses|exact H].
  - unfold createRentPayment.
    destruct (getCurrentTenant s) as [tenant|]; [|exact H].
    pose proof (getRentStatus_rents_wf s env (Tenant.id tenant)
                  (Js.or_else (PaymentData.month paymentData) (getCurrentMonth env)) H)
      as H1.
    destruct (getRentStatus s env (Tenant.id tenant) _) as [r s1].
    cbn [snd] in *. destruct (String.eqb _ "verified").
    + apply updateRentStatus_rents_wf. exact H1.
    + exact H1.
  - apply (rents_wf_same s); [|exact H].
    unfold createBillPayment.
    destruct (getCurrentTenant s) as [tenant|]; [|reflexivity].
    destruct (match PaymentData.billId paymentData with
              | Some billId => getBillById s billId
              | None => None
              end) as [bill|]; [|reflexivity].
    cbn [snd]. destruct (String.eqb _ "verified").
    + rewrite updateBillStatus_rent_statuses. reflexivity.
    + reflexivity.
  - unfold updatePaymentStatus.
    destruct (find _ _) as [payment|]; [|exact H].
    destruct (String.eqb status "verified" || String.eqb status "completed").
    + cbn [snd]. apply (applyToLedger_rents_wf s env _ _ H).
    + destruct (String.eqb status "rejected"
                && String.eqb (Payment.status payment) "verified").
      * cbn [snd]. apply (applyToLedger_rents_wf s env _ _ H).
      * exact H.
  - exact H.
  - repeat split; constructor.
  - exact H.
Qed.

Lemma reachable_rents_wf s : reachable s -> rents_wf s.
Proof.
  induction 1 as [s (_ & _ & Hr) | s s' _ IH Hstep].
  - unfold rents_wf, ids_wf, rent_ids, rent_keys. rewrite Hr.
    repeat split; constructor.
  - exact (step_rents_wf s s' IH Hstep).
Qed.

End WellFormed.

(** *** Payments *)

Section PaymentsWellFormed.

Import Reach.

Lemma payments_wf_same s s' :
  Store.payments s' = Store.payments s -> payments_wf s -> payments_wf s'.
Proof. unfold payments_wf, payment_ids. intros ->. auto. Qed.

(** What [createRentPayment] stores: one more payment, under a
    generated identifier. *)
Lemma createRentPayment_payments s env paymentData tenant :
  getCurrentTenant s = Some tenant ->
  exists payment,
    fst (createRentPayment s env paymentData) = Some payment
    /\ Payment.id payment = next_id "PAY" (payment_ids s)
    /\ Store.payments (snd (createRentPayment s env paymentData))
       = Store.payments s ++ [payment].
Proof.
  intros Ht. unfold createRentPayment. rewrite Ht.
  pose proof (getRentStatus_payments s env (Tenant.id tenant)
                (Js.or_else (PaymentData.month paymentData) (getCurrentMonth env)))
    as E1.
  destruct (getRentStatus s env (Tenant.id tenant) _) as [r s1].
  cbn [snd] in E1. cbn [fst snd].
  eexists. split; [reflexivity|]. split.
  - cbn [Payment.id]. unfold generatePaymentId, getAllPayments, payment_ids.
    rewrite E1. reflexivity.
  - destruct (String.eqb _ "verified").
    + rewrite updateRentStatus_payments. reflexivity.
    + reflexivity.
Qed.

(** What [createBillPayment] stores. *)
Lemma createBillPayment_payments s env paymentData tenant billId bill :
  getCurrentTenant s = Some tenant ->
  PaymentData.billId paymentData = Some billId ->
  getBillById s billId = Some bill ->
  exists payment,
    fst (createBillPayment s env paymentData) = Some payment
    /\ Payment.id payment = next_id "PAY" (payment_ids s)
    /\ Store.payments (snd (createBillPayment s env paymentData))
       = Store.payments s ++ [payment].
Proof.
  intros Ht Hid Hb. unfold createBillPayment. rewrite Ht, Hid, Hb.
  cbn [fst snd]. eexists. split; [reflexivity|]. split; [reflexivity|].
  destruct (String.eqb _ "verified").
  - rewrite updateBillStatus_payments. reflexivity.
  - reflexivity.
Qed.

Lemma payments_wf_snoc s s' payment :
  payments_wf s ->
  Payment.id payment = next_id "PAY" (payment_ids s) ->
  Store.payments s' = Store.payments s ++ [payment] ->
  payments_wf s'.
Proof.
  intros H Hid Hs'. unfold payments_wf, payment_ids in *.
  rewrite Hs', map_app. cbn [map]. rewrite Hid.
  apply (ids_wf_snoc "PAY" _ eq_refl). exact H.
Qed.

Lemma updatePaymentStatus_payment_ids s env paymentId status adminNotes :
  payment_ids (snd (updatePaymentStatus s env paymentId status adminNotes))
  = payment_ids s.
Proof.
  unfold payment_ids, updatePaymentStatus, getAllPayments.
  destruct (find _ _) as [payment|] eqn:Hfind; [|reflexivity].
  destruct (String.eqb status "verified" || String.eqb status "completed");
    [|destruct (String.eqb status "rejected"
                && String.eqb (Payment.status payment) "verified")];
    cbn [snd Store.payments Store.with_payments];
    apply map_assign_at_found with (z := payment); auto.
Qed.

Lemma step_payments_wf s s' : payments_wf s -> step s s' -> payments_wf s'.
Proof.
  intros H [newRates | env tenantId month kwh cubic | env tenantId month
            | env tenantId month paidAmount paymentId | billId paidAmount paymentId
            | env paymentData | env paymentData | env paymentId status adminNotes
            | paymentId | | session tenants].
  - exact H.
  - exact H.
  - apply (payments_wf_same s); [apply getRentStatus_payments|exact H].
  - apply (payments_wf_same s); [apply updateRentStatus_payments|exact H].
  - apply (payments_wf_same s); [apply updateBillStatus_payments|exact H].
  - destruct (getCurrentTenant s) as [tenant|] eqn:Ht.
    + destruct (createRentPayment_payments s env paymentData tenant Ht)
        as (payment & _ & Hid & Hs').
      exact (payments_wf_snoc s _ payment H Hid Hs').
    + unfold createRentPayment. rewrite Ht. exact H.
  - destruct (getCurrentTenant s) as [tenant|] eqn:Ht.
    + destruct (PaymentData.billId paymentData) as [billId|] eqn:Hid.
      * destruct (getBillById s billId) as [bill|] eqn:Hb.
        -- destruct (createBillPayment_payments s env paymentData tenant billId bill
                       Ht Hid Hb) as (payment & _ & Hpid & Hs').
           exact (payments_wf_snoc s _ payment H Hpid Hs').
        -- unfold createBillPayment. rewrite Ht, Hid, Hb. exact H.
      * unfold createBillPayment. rewrite Ht, Hid. exact H.
    + unfold createBillPayment. rewrite Ht. exact H.
  - unfold payments_wf. rewrite updatePaymentStatus_payment_ids. exact H.
  - destruct H as (Hnd & Hnum). unfold payments_wf, payment_ids, deletePayment.
    cbn [snd Store.payments Store.with_payments]. split.
    + apply NoDup_map_filter. exact Hnd.
    + apply Forall_map_filter. exact Hnum.
  - apply ids_wf_nil.
  - exact H.
Qed.

Lemma reachable_payments_wf s : reachable s -> payments_wf s.
Proof.
  induction 1 as [s (Hp & _ & _) | s s' _ IH Hstep].
  - unfold payments_wf, payment_ids. rewrite Hp. apply ids_wf_nil.
  - exact (step_payments_wf s s' IH Hstep).
Qed.

End PaymentsWellFormed.

(** ** What the stores the scripts can build guarantee *)

Lemma filter_none {A : Type} (p : A -> bool) (l : list A) :
  (forall y, In y l -> p y = false) -> filter p l = [].
Proof.
  induction l as [|a l IH]; cbn; auto.
  intros H. rewrite (H a (or_introl eq_refl)). apply IH.
  intros y Hy. apply H. right. exact Hy.
Qed.

Lemma filter_unique {A K : Type} (key : A -> K) (p : A -> bool) (l : list A) (x : A) :
  (forall y, p y = true <-> key y = key x) ->
  NoDup (map key l) -> In x l -> filter p l = [x].
Proof.
  intros Hp. induction l as [|a l IH]; cbn; [intros _ []|].
  intros Hnd Hin. inversion Hnd as [|? ? Hnotin Hnd']; subst.
  destruct Hin as [->|Hin].
  - rewrite (proj2 (Hp x) eq_refl). f_equal. apply filter_none.
    intros y Hy. destruct (p y) eqn:E; [|reflexivity].
    exfalso. apply Hnotin. rewrite <- (proj1 (Hp y) E). apply in_map. exact Hy.
  - destruct (p a) eqn:E.
    + exfalso. apply Hnotin. rewrite (proj1 (Hp a) E). apply in_map. exact Hin.
    + apply IH; assumption.
Qed.

Lemma find_of_filter_singleton {A : Type} (p : A -> bool) (l : list A) (x : A) :
  filter p l = [x] -> find p l = Some x.
Proof.
  induction l as [|a l IH]; cbn; [discriminate|].
  destruct (p a) eqn:E.
  - intros [= -> _]. reflexivity.
  - exact IH.
Qed.

Lemma same_bill_key_iff b y :
  same_bill_key (Bill.tenantId b) (Bill.month b) y = true
  <-> (Bill.tenantId y, Bill.month y) = (Bill.tenantId b, Bill.month b).
Proof.
  unfold same_bill_key. rewrite andb_true_iff, !String.eqb_eq.
  split; [intros (-> & ->); reflexivity|intros [= -> ->]; auto].
Qed.

Lemma same_rent_key_iff r y :
  same_rent_key (RentStatus.tenantId r) (RentStatus.month r) y = true
  <-> (RentStatus.tenantId y, RentStatus.month y)
      = (RentStatus.tenantId r, RentStatus.month r).
Proof.
  unfold same_rent_key. rewrite andb_true_iff, !String.eqb_eq.
  split; [intros (-> & ->); reflexivity|intros [= -> ->]; auto].
Qed.

(** X1. In every store the scripts can build, each stored bill is the
    only bill of its tenant and month, and it is the bill found under
    its identifier and the bill found for its tenant and month. *)
Theorem bill_unique_per_tenant_month (s : Store.t) (bill : Bill.t) :
  Reach.reachable s ->
  In bill (getAllBills s) ->
  filter (same_bill_key (Bill.tenantId bill) (Bill.month bill)) (getAllBills s)
  = [bill]
  /\ getBillForMonth s (Bill.tenantId bill) (Bill.month bill) = Some bill
  /\ getBillById s (Bill.id bill) = Some bill
  /\ In bill (getTenantBills s (Bill.tenantId bill)).
Proof.
  intros Hreach Hin.
  destruct (reachable_bills_wf s Hreach) as ((Hnd & _) & Hkeys).
  assert (Hone : filter (same_bill_key (Bill.tenantId bill) (Bill.month bill))
                   (getAllBills s) = [bill]).
  { apply (filter_unique (fun b => (Bill.tenantId b, Bill.month b)));
      [apply same_bill_key_iff | exact Hkeys | exact Hin]. }
  split; [exact Hone|].
  split; [apply find_of_filter_singleton; exact Hone|].
  split; [unfold getBillById; apply find_by_unique_key; assumption|].
  unfold getTenantBills. apply filter_In. split; [exact Hin|apply String.eqb_refl].
Qed.

(** X2. In every store the scripts can build, each stored rent status
    is the only one of its tenant and month, it is the one that
    [getRentStatus] returns for them, without writing, and no other
    status carries its identifier. *)
Theorem rent_status_unique_per_tenant_month
    (s : Store.t) (env : Env.t) (status : RentStatus.t) :
  Reach.reachable s ->
  In status (getAllRentStatuses s) ->
  filter (same_rent_key (RentStatus.tenantId status) (RentStatus.month status))
    (getAllRentStatuses s) = [status]
  /\ getRentStatus s env (RentStatus.tenantId status) (RentStatus.month status)
     = (status, s)
  /\ find (fun r => String.eqb (RentStatus.id r) (RentStatus.id status))
       (getAllRentStatuses s) = Some status
  /\ In status (getTenantRentHistory s (RentStatus.tenantId status)).
Proof.
  intros Hreach Hin.
  destruct (reachable_rents_wf s Hreach) as ((Hnd & _) & Hkeys).
  assert (Hone : filter (same_rent_key (RentStatus.tenantId status)
                           (RentStatus.month status)) (getAllRentStatuses s)
                 = [status]).
  { apply (filter_unique (fun r => (RentStatus.tenantId r, RentStatus.month r)));
      [apply same_rent_key_iff | exact Hkeys | exact Hin]. }
  split; [exact Hone|].
  split.
  - unfold getRentStatus. unfold getAllRentStatuses in Hone.
    rewrite (find_of_filter_singleton _ _ _ Hone). reflexivity.
  - split; [apply find_by_unique_key; assumption|].
    unfold getTenantRentHistory. apply filter_In.
    split; [exact Hin|apply String.eqb_refl].
Qed.

(** X3. In every store the scripts can build, deletions included, the
    stored payments carry pairwise different identifiers: each one is
    the payment that [getPaymentById] finds under its identifier. *)
Theorem payment_found_by_id (s : Store.t) (payment : Payment.t) :
  Reach.reachable s ->
  In payment (getAllPayments s) ->
  getPaymentById s (Payment.id payment) = Some payment
  /\ NoDup (map Payment.id (getAllPayments s)).
Proof.
  intros Hreach Hin.
  destruct (reachable_payments_wf s Hreach) as (Hnd & _).
  split; [|exact Hnd].
  unfold getPaymentById. apply find_by_unique_key; assumption.
Qed.

(** The example stores are built by the scripts. *)
Lemma reachable_empty : Reach.reachable empty.
Proof. apply Reach.reachable_initial. repeat split. Defined.

Lemma reachable_with_bill : Reach.reachable with_bill.
Proof.
  apply Reach.reachable_step with (s := empty); [exact reachable_empty|].
  exact (Reach.step_generateBill empty env "alice" "2024-03" 120 10).
Defined.

Lemma reachable_with_bill_payment : Reach.reachable with_bill_payment.
Proof.
  apply Reach.reachable_step with (s := with_bill); [exact reachable_with_bill|].
  exact (Reach.step_createBillPayment with_bill env
           (pay (Some "BILL-0001"%string) 1000)).
Defined.

Lemma reachable_with_rent_payment : Reach.reachable with_rent_payment.
Proof.
  apply Reach.reachable_step with (s := empty); [exact reachable_empty|].
  exact (Reach.step_createRentPayment empty env (pay None 10000)).
Defined.


Lemma bill_unique_per_tenant_month_witness :
  filter (same_bill_key (Bill.tenantId partial_bill) (Bill.month partial_bill))
    (getAllBills with_partial_bill) = [partial_bill]
  /\ getBillForMonth with_partial_bill (Bill.tenantId partial_bill)
       (Bill.month partial_bill) = Some partial_bill
  /\ getBillById with_partial_bill (Bill.id partial_bill) = Some partial_bill
  /\ In partial_bill (getTenantBills with_partial_bill (Bill.tenantId partial_bill)).
Proof.
  apply (bill_unique_per_tenant_month with_partial_bill partial_bill).
  - exact reachable_with_partial_bill.
  - vm_compute. left. reflexivity.
Defined.

Lemma rent_status_unique_per_tenant_month_witness :
  filter (same_rent_key (RentStatus.tenantId march_rent) (RentStatus.month march_rent))
    (getAllRentStatuses with_rent_payment) = [march_rent]
  /\ getRentStatus with_rent_payment env (RentStatus.tenantId march_rent)
       (RentStatus.month march_rent) = (march_rent, with_rent_payment)
  /\ find (fun r => String.eqb (RentStatus.id r) (RentStatus.id march_rent))
       (getAllRentStatuses with_rent_payment) = Some march_rent
  /\ In march_rent (getTenantRentHistory with_rent_payment
                      (RentStatus.tenantId march_rent)).
Proof.
  apply (rent_status_unique_per_tenant_month with_rent_payment env march_rent).
  - exact reachable_with_rent_payment.
  - vm_compute. left. reflexivity.
Defined.

Lemma payment_found_by_id_witness :
  getPaymentById with_bill_payment (Payment.id (bill_payment 1000))
  = Some (bill_payment 1000)
  /\ NoDup (map Payment.id (getAllPayments with_bill_payment)).
Proof.
  apply (payment_found_by_id with_bill_payment (bill_payment 1000)).
  - exact reachable_with_bill_payment.
  - vm_compute. left. reflexivity.
Defined.

(** ** Creating rent statuses and payments *)

Lemma getRentStatus_stored s env tenantId month :
  findRentStatus (snd (getRentStatus s env tenantId month)) tenantId month
  = Some (fst (getRentStatus s env tenantId month)).
Proof.
  unfold findRentStatus, getAllRentStatuses, getRentStatus.
  destruct (find (same_rent_key tenantId month) (Store.rent_statuses s))
    as [status|] eqn:Hfind; cbn [fst snd]; [exact Hfind|].
  cbn [Store.rent_statuses Store.with_rent_statuses].
  apply find_app_None; [exact Hfind|].
  unfold same_rent_key. rent_fields. rewrite !String.eqb_refl. reflexivity.
Qed.

(** X4. [getRentStatus] fetches or creates: the status it returns is the
    stored status of the tenant and month afterwards, and a second call,
    at any later moment, returns the same status and writes nothing.
    A status that was stored is returned as it is, and the store is not
    written; otherwise one status is appended that requires the monthly
    rent of the tenant (0 for an unknown tenant), has nothing paid, the
    whole rent remaining, status ['unpaid'] and no payments. *)
Theorem getRentStatus_fetch_or_create
    (s : Store.t) (env env' : Env.t) (tenantId month : string) :
  let status := fst (getRentStatus s env tenantId month) in
  let s' := snd (getRentStatus s env tenantId month) in
  findRentStatus s' tenantId month = Some status
  /\ getRentStatus s' env' tenantId month = (status, s')
  /\ (forall stored,
         findRentStatus s tenantId month = Some stored -> status = stored /\ s' = s)
  /\ (findRentStatus s tenantId month = None ->
      getAllRentStatuses s' = getAllRentStatuses s ++ [status]
      /\ RentStatus.tenantId status = tenantId
      /\ RentStatus.month status = month
      /\ RentStatus.required_amount status
         = match getCurrentTenantById s tenantId with
           | Some tenant => Tenant.monthlyRent tenant
           | None => 0
           end
      /\ RentStatus.paid_amount status = 0
      /\ RentStatus.remaining_amount status = RentStatus.required_amount status
      /\ RentStatus.status status = "unpaid"%string
      /\ RentStatus.payments status = [])
  /\ Store.payments s' = Store.payments s
  /\ Store.bills s' = Store.bills s.
Proof.
  cbv zeta.
  pose proof (getRentStatus_stored s env tenantId month) as Hstored.
  split; [exact Hstored|].
  split.
  { unfold findRentStatus, getAllRentStatuses in Hstored.
    unfold getRentStatus at 1. rewrite Hstored. reflexivity. }
  split.
  { intros stored Hfind. unfold findRentStatus, getAllRentStatuses in Hfind.
    unfold getRentStatus. rewrite Hfind. auto. }
  split.
  { intros Hfind. unfold findRentStatus, getAllRentStatuses in Hfind.
    unfold getRentStatus, getAllRentStatuses. rewrite Hfind.
    cbn [fst snd]. repeat split. }
  split; [apply getRentStatus_payments|apply getRentStatus_bills].
Qed.

(** X5. In a store the scripts have built, [updateRentStatus] for a
    tenant and month without a stored status returns a status with the
    amount applied, but leaves the stored list as it was: the list it
    writes back is the one it read before the status was created, so
    no status of the tenant and month is stored afterwards. *)
Theorem updateRentStatus_missing_not_stored
    (s : Store.t) (env : Env.t) (tenantId month : string)
    (paidAmount : Q) (paymentId : string) :
  Reach.reachable s ->
  findRentStatus s tenantId month = None ->
  let result := updateRentStatus s env tenantId month paidAmount paymentId in
  getAllRentStatuses (snd result) = getAllRentStatuses s
  /\ findRentStatus (snd result) tenantId month = None
  /\ RentStatus.paid_amount (fst result) = Js.round2 (0 + paidAmount)
  /\ RentStatus.payments (fst result) = [paymentId].
Proof.
  intros Hreach Hfind. cbv zeta.
  destruct (reachable_rents_wf s Hreach) as ((_ & Hnum) & _).
  pose proof (updateRentStatus_missing_list s env tenantId month paidAmount paymentId
                Hnum Hfind) as Hlist.
  split; [exact Hlist|].
  split; [unfold findRentStatus, getAllRentStatuses in *; rewrite Hlist; exact Hfind|].
  unfold findRentStatus, getAllRentStatuses in Hfind.
  unfold updateRentStatus, getAllRentStatuses. rewrite Hfind.
  unfold getRentStatus. rewrite Hfind. cbn [fst].
  split.
  - rewrite applyRentPayment_paid. reflexivity.
  - destruct (applyRentPayment_frame
                (RentStatus.mk (generateRentStatusId s) tenantId month
                   match getCurrentTenantById s tenantId with
                   | Some tenant => Tenant.monthlyRent tenant
                   | None => 0
                   end 0
                   match getCurrentTenantById s tenantId with
                   | Some tenant => Tenant.monthlyRent tenant
                   | None => 0
                   end "unpaid" [] (Env.now_iso env) (getRentDueDate month))
                paidAmount paymentId) as (_ & _ & _ & _ & Hp).
    exact Hp.
Qed.

Lemma updateRentStatus_missing_not_stored_witness :
  let result := updateRentStatus with_bill env "alice" "2024-03" 10000 "PAY-0001" in
  getAllRentStatuses (snd result) = getAllRentStatuses with_bill
  /\ findRentStatus (snd result) "alice" "2024-03" = None
  /\ RentStatus.paid_amount (fst result) = Js.round2 (0 + 10000)
  /\ RentStatus.payments (fst result) = ["PAY-0001"%string].
Proof.
  apply (updateRentStatus_missing_not_stored with_bill env "alice" "2024-03"
           10000 "PAY-0001").
  - exact reachable_with_bill.
  - vm_compute. reflexivity.
Defined.

Lemma find_fresh_id {A : Type} (f : A -> string) (l : list A) (x : A) :
  ~ In (f x) (map f l) ->
  find (fun y => String.eqb (f y) (f x)) (l ++ [x]) = Some x.
Proof.
  intros Hfresh. apply find_app_None; [|apply String.eqb_refl].
  destruct (find _ l) as [y|] eqn:Hy; [|reflexivity].
  exfalso. destruct (find_some _ _ Hy) as (Hin & Heq).
  apply String.eqb_eq in Heq. apply Hfresh. rewrite <- Heq. apply in_map. exact Hin.
Qed.

Lemma generated_payment_id_fresh s :
  Reach.reachable s ->
  ~ In (next_id "PAY" (Reach.payment_ids s)) (map Payment.id (Store.payments s)).
Proof.
  intros Hreach. destruct (reachable_payments_wf s Hreach) as (_ & Hnum).
  apply (next_id_fresh "PAY" _ eq_refl Hnum).
Qed.

(** X6. In a store the scripts have built, with a tenant logged in,
    [createRentPayment] returns a payment of type ['rent'] for the
    tenant, pending unless a status is given, for the given month or
    the current one, stores it after the earlier payments under an
    identifier of its own, and makes sure the rent status of the
    tenant and month exists. That status is the fetched or created one
    when the payment is not ['verified'], and has the amount applied
    when it is. No bill is touched. *)
Theorem createRentPayment_stores_payment
    (s : Store.t) (env : Env.t) (paymentData : PaymentData.t) (tenant : Tenant.t) :
  Reach.reachable s ->
  getCurrentTenant s = Some tenant ->
  let month := Js.or_else (PaymentData.month paymentData) (getCurrentMonth env) in
  let before := fst (getRentStatus s env (Tenant.id tenant) month) in
  let s' := snd (createRentPayment s env paymentData) in
  exists payment,
    fst (createRentPayment s env paymentData) = Some payment
    /\ getAllPayments s' = getAllPayments s ++ [payment]
    /\ getPaymentById s' (Payment.id payment) = Some payment
    /\ (Payment.payment_type payment = "rent"%string
        /\ Payment.tenantId payment = Tenant.id tenant
        /\ Payment.month payment = month
        /\ Payment.amount payment = PaymentData.amount paymentData
        /\ Payment.status payment
           = Js.or_else (PaymentData.status paymentData) "pending"
        /\ Payment.paidDate payment = None)
    /\ findRentStatus s' (Tenant.id tenant) month
       = Some (if String.eqb (Payment.status payment) "verified"
               then applyRentPayment before (Payment.amount payment)
                      (Payment.id payment)
               else before)
    /\ Store.bills s' = Store.bills s.
Proof.
  intros Hreach Ht. cbv zeta.
  destruct (createRentPayment_payments s env paymentData tenant Ht)
    as (payment & Hfst & Hid & Hpay).
  exists payment. split; [exact Hfst|]. split; [exact Hpay|].
  split.
  { unfold getPaymentById, getAllPayments. rewrite Hpay.
    apply (find_fresh_id Payment.id). rewrite Hid.
    apply generated_payment_id_fresh. exact Hreach. }
  pose proof (getRentStatus_stored s env (Tenant.id tenant)
                (Js.or_else (PaymentData.month paymentData) (getCurrentMonth env)))
    as Hstored.
  pose proof (getRentStatus_bills s env (Tenant.id tenant)
                (Js.or_else (PaymentData.month paymentData) (getCurrentMonth env)))
    as Hbills.
  clear Hid Hpay. revert Hfst. unfold createRentPayment. rewrite Ht.
  destruct (getRentStatus s env (Tenant.id tenant) _) as [before s1].
  cbn [fst snd] in *. intros [= <-]. cbn [Payment.payment_type Payment.tenantId
    Payment.month Payment.amount Payment.status Payment.paidDate Payment.id].
  split; [repeat split|].
  destruct (String.eqb (Js.or_else (PaymentData.status paymentData) "pending")
              "verified").
  - match goal with
    | |- context [updateRentStatus ?s2 env ?t ?m ?a ?i] =>
        destruct (updateRentStatus_found s2 env t m a i before Hstored)
          as (_ & Hfound & _ & Hb)
    end.
    split; [exact Hfound|]. rewrite Hb. exact Hbills.
  - split; [exact Hstored|exact Hbills].
Qed.

Lemma createRentPayment_stores_payment_witness :
  let month := Js.or_else (PaymentData.month (pay None 10000)) (getCurrentMonth env) in
  let before := fst (getRentStatus with_bill env (Tenant.id (tenant_view alice)) month) in
  let s' := snd (createRentPayment with_bill env (pay None 10000)) in
  exists payment,
    fst (createRentPayment with_bill env (pay None 10000)) = Some payment
    /\ getAllPayments s' = getAllPayments with_bill ++ [payment]
    /\ getPaymentById s' (Payment.id payment) = Some payment
    /\ (Payment.payment_type payment = "rent"%string
        /\ Payment.tenantId payment = Tenant.id (tenant_view alice)
        /\ Payment.month payment = month
        /\ Payment.amount payment = PaymentData.amount (pay None 10000)
        /\ Payment.status payment
           = Js.or_else (PaymentData.status (pay None 10000)) "pending"
        /\ Payment.paidDate payment = None)
    /\ findRentStatus s' (Tenant.id (tenant_view alice)) month
       = Some (if String.eqb (Payment.status payment) "verified"
               then applyRentPayment before (Payment.amount payment)
                      (Payment.id payment)
               else before)
    /\ Store.bills s' = Store.bills with_bill.
Proof.
  apply (createRentPayment_stores_payment with_bill env (pay None 10000)
           (tenant_view alice)).
  - exact reachable_with_bill.
  - vm_compute. reflexivity.
Defined.

Lemma createBillPayment_outcome
    (s : Store.t) (env : Env.t) (paymentData : PaymentData.t)
    (tenant : Tenant.t) (billId : string) (bill : Bill.t) :
  Reach.reachable s ->
  getCurrentTenant s = Some tenant ->
  PaymentData.billId paymentData = Some billId ->
  getBillById s billId = Some bill ->
  let s' := snd (createBillPayment s env paymentData) in
  exists payment,
    fst (createBillPayment s env paymentData) = Some payment
    /\ getAllPayments s' = getAllPayments s ++ [payment]
    /\ getPaymentById s' (Payment.id payment) = Some payment
    /\ (Payment.payment_type payment = "bill"%string
        /\ Payment.billId payment = Some billId
        /\ Payment.tenantId payment = Tenant.id tenant
        /\ Payment.month payment = Bill.month bill
        /\ Payment.amount payment = PaymentData.amount paymentData
        /\ Payment.status payment
           = Js.or_else (PaymentData.status paymentData) "pending"
        /\ Payment.paidDate payment = None)
    /\ (if String.eqb (Payment.status payment) "verified"
        then getBillById s' billId
             = Some (applyBillPayment bill (Payment.amount payment)
                       (Payment.id payment))
        else Store.bills s' = Store.bills s)
    /\ Store.rent_statuses s' = Store.rent_statuses s.
Proof.
  intros Hreach Ht Hid Hb. cbv zeta.
  destruct (createBillPayment_payments s env paymentData tenant billId bill Ht Hid Hb)
    as (payment & Hfst & Hpid & Hpay).
  exists payment. split; [exact Hfst|]. split; [exact Hpay|].
  split.
  { unfold getPaymentById, getAllPayments. rewrite Hpay.
    apply (find_fresh_id Payment.id). rewrite Hpid.
    apply generated_payment_id_fresh. exact Hreach. }
  assert (Hbid : Bill.id bill = billId).
  { unfold getBillById in Hb. apply find_some in Hb. apply String.eqb_eq, Hb. }
  clear Hpid Hpay. revert Hfst. unfold createBillPayment. rewrite Ht, Hid, Hb.
  cbn [fst snd]. intros [= <-]. cbn [Payment.payment_type Payment.tenantId
    Payment.month Payment.amount Payment.status Payment.paidDate Payment.id
    Payment.billId].
  rewrite Hbid.
  split; [repeat split|].
  destruct (String.eqb (Js.or_else (PaymentData.status paymentData) "pending")
              "verified").
  - match goal with
    | |- context [updateBillStatus ?s1 billId ?a ?i] =>
        destruct (updateBillStatus_found s1 billId a i bill Hb)
          as (_ & Hfound & _ & Hr)
    end.
    split; [exact Hfound|exact Hr].
  - split; reflexivity.
Qed.

(** X7. In a store the scripts have built, with a tenant logged in and
    the bill of [paymentData.billId] stored, [createBillPayment] returns
    a payment of type ['bill'] for that bill and its month, pending
    unless a status is given, and stores it after the earlier payments
    under an identifier of its own. The bills are left as they were
    unless the payment is created ['verified'], in which case the
    amount is applied to the bill; no rent status is touched, and no
    paid date is set either way. *)
Theorem createBillPayment_stores_payment
    (s : Store.t) (env : Env.t) (paymentData : PaymentData.t)
    (tenant : Tenant.t) (billId : string) (bill : Bill.t) :
  Reach.reachable s ->
  getCurrentTenant s = Some tenant ->
  PaymentData.billId paymentData = Some billId ->
  getBillById s billId = Some bill ->
  let s' := snd (createBillPayment s env paymentData) in
  exists payment,
    fst (createBillPayment s env paymentData) = Some payment
    /\ getAllPayments s' = getAllPayments s ++ [payment]
    /\ getPaymentById s' (Payment.id payment) = Some payment
    /\ (Payment.payment_type payment = "bill"%string
        /\ Payment.billId payment = Some billId
        /\ Payment.tenantId payment = Tenant.id tenant
        /\ Payment.month payment = Bill.month bill
        /\ Payment.amount payment = PaymentData.amount paymentData
        /\ Payment.status payment
           = Js.or_else (PaymentData.status paymentData) "pending"
        /\ Payment.paidDate payment = None)
    /\ (if String.eqb (Payment.status payment) "verified"
        then getBillById s' billId
             = Some (applyBillPayment bill (Payment.amount payment)
                       (Payment.id payment))
        else Store.bills s' = Store.bills s)
    /\ Store.rent_statuses s' = Store.rent_statuses s.
Proof. exact (createBillPayment_outcome s env paymentData tenant billId bill). Qed.

Lemma createBillPayment_stores_payment_witness :
  let s' := snd (createBillPayment with_bill env (pay (Some "BILL-0001"%string) 1000)) in
  exists payment,
    fst (createBillPayment with_bill env (pay (Some "BILL-0001"%string) 1000))
    = Some payment
    /\ getAllPayments s' = getAllPayments with_bill ++ [payment]
    /\ getPaymentById s' (Payment.id payment) = Some payment
    /\ (Payment.payment_type payment = "bill"%string
        /\ Payment.billId payment = Some "BILL-0001"%string
        /\ Payment.tenantId payment = Tenant.id (tenant_view alice)
        /\ Payment.month payment = Bill.month march_bill
        /\ Payment.amount payment
           = PaymentData.amount (pay (Some "BILL-0001"%string) 1000)
        /\ Payment.status payment
           = Js.or_else (PaymentData.status (pay (Some "BILL-0001"%string) 1000))
               "pending"
        /\ Payment.paidDate payment = None)
    /\ (if String.eqb (Payment.status payment) "verified"
        then getBillById s' "BILL-0001"
             = Some (applyBillPayment march_bill (Payment.amount payment)
                       (Payment.id payment))
        else Store.bills s' = Store.bills with_bill)
    /\ Store.rent_statuses s' = Store.rent_statuses with_bill.
Proof.
  apply (createBillPayment_stores_payment with_bill env
           (pay (Some "BILL-0001"%string) 1000) (tenant_view alice)
           "BILL-0001" march_bill).
  - exact reachable_with_bill.
  - vm_compute. reflexivity.
  - reflexivity.
  - vm_compute. reflexivity.
Defined.

(** ** Deleting and updating payments *)

Lemma find_filter_removed {A : Type} (f : A -> string) (l : list A) (k : string) :
  find (fun y => String.eqb (f y) k)
    (filter (fun y => negb (String.eqb (f y) k)) l) = None.
Proof.
  induction l as [|a l IH]; cbn; [reflexivity|].
  destruct (String.eqb (f a) k) eqn:Ha; cbn; [exact IH|].
  rewrite Ha. exact IH.
Qed.

Lemma find_filter_other {A : Type} (f : A -> string) (l : list A) (k other : string) :
  other <> k ->
  find (fun y => String.eqb (f y) other)
    (filter (fun y => negb (String.eqb (f y) k)) l)
  = find (fun y => String.eqb (f y) other) l.
Proof.
  intros Hne. induction l as [|a l IH]; cbn; [reflexivity|].
  destruct (String.eqb (f a) k) eqn:Ha; cbn.
  - apply String.eqb_eq in Ha.
    destruct (String.eqb (f a) other) eqn:Ho; [|exact IH].
    apply String.eqb_eq in Ho. congruence.
  - rewrite IH. reflexivity.
Qed.

Lemma filter_all {A : Type} (p : A -> bool) (l : list A) :
  (forall x, In x l -> p x = true) -> filter p l = l.
Proof.
  induction l as [|a l IH]; cbn; [reflexivity|]. intros H.
  rewrite (H a (or_introl eq_refl)). f_equal. apply IH. intros x Hx. apply H. auto.
Qed.

(** X8. [deletePayment] always answers [true]. Afterwards no payment is
    stored under the identifier, every other identifier finds what it
    found before, and deleting an identifier that is not stored leaves
    the list as it was. Bills and rent statuses are not touched: what a
    verified payment added to the ledger stays there when the payment
    is deleted. *)
Theorem deletePayment_removes (s : Store.t) (paymentId : string) :
  let s' := snd (deletePayment s paymentId) in
  fst (deletePayment s paymentId) = true
  /\ getPaymentById s' paymentId = None
  /\ (forall other, other <> paymentId ->
        getPaymentById s' other = getPaymentById s other)
  /\ (getPaymentById s paymentId = None -> getAllPayments s' = getAllPayments s)
  /\ Store.bills s' = Store.bills s
  /\ Store.rent_statuses s' = Store.rent_statuses s.
Proof.
  cbv zeta. unfold deletePayment, getPaymentById, getAllPayments.
  cbn [fst snd Store.payments Store.with_payments Store.bills Store.rent_statuses].
  split; [reflexivity|].
  split; [apply (find_filter_removed Payment.id)|].
  split; [intros other Hne; apply (find_filter_other Payment.id); exact Hne|].
  split; [|split; reflexivity].
  intros Hnone. apply filter_all. intros x Hx.
  apply (find_none _ _ Hnone) in Hx. rewrite Hx. reflexivity.
Qed.

(** X9. [updatePaymentStatus] answers [null] and writes nothing for an
    identifier that is not stored. For a stored payment it returns and
    stores, at the same place, the payment with the new status and the
    admin notes; the paid date is set to the current time exactly for
    ['verified'] and ['completed'] and kept otherwise; identifier,
    type, tenant, month, bill and amount are kept. Every other
    identifier finds what it found before, and a status other than
    ['verified'], ['completed'] and ['rejected'] never touches bills
    or rent statuses. *)
Theorem updatePaymentStatus_frame
    (s : Store.t) (env : Env.t) (paymentId status adminNotes : string) :
  let result := updatePaymentStatus s env paymentId status adminNotes in
  (getPaymentById s paymentId = None -> result = (None, s))
  /\ (forall payment,
        getPaymentById s paymentId = Some payment ->
        exists payment',
          fst result = Some payment'
          /\ getPaymentById (snd result) paymentId = Some payment'
          /\ Payment.status payment' = status
          /\ Payment.adminNotes payment' = adminNotes
          /\ Payment.paidDate payment'
             = (if String.eqb status "verified" || String.eqb status "completed"
                then Some (Env.now_iso env)
                else Payment.paidDate payment)
          /\ Payment.id payment' = Payment.id payment
          /\ Payment.payment_type payment' = Payment.payment_type payment
          /\ Payment.tenantId payment' = Payment.tenantId payment
          /\ Payment.month payment' = Payment.month payment
          /\ Payment.billId payment' = Payment.billId payment
          /\ Payment.amount payment' = Payment.amount payment)
  /\ (forall other, other <> paymentId ->
        getPaymentById (snd result) other = getPaymentById s other)
  /\ map Payment.id (getAllPayments (snd result)) = map Payment.id (getAllPayments s)
  /\ (String.eqb status "verified" || String.eqb status "completed"
      || String.eqb status "rejected" = false ->
      Store.bills (snd result) = Store.bills s
      /\ Store.rent_statuses (snd result) = Store.rent_statuses s).
Proof.
  cbv zeta.
  split.
  { unfold getPaymentById, getAllPayments, updatePaymentStatus, getAllPayments.
    intros H. rewrite H. reflexivity. }
  split.
  { intros payment H. unfold getPaymentById, getAllPayments in H.
    unfold getPaymentById, getAllPayments, updatePaymentStatus, getAllPayments.
    rewrite H.
    assert (Hid : String.eqb (Payment.id payment) paymentId = true)
      by apply (find_some _ _ H).
    destruct (String.eqb status "verified" || String.eqb status "completed");
      [|destruct (String.eqb status "rejected"
                  && String.eqb (Payment.status payment) "verified")];
      cbn [fst snd Store.payments Store.with_payments];
      eexists; (split; [reflexivity|]);
      (split; [rewrite ?applyToLedger_payments;
               apply find_assign_at_same with (z := payment);
               [payment_fields; exact Hid|exact H]|]);
      payment_fields; repeat split. }
  split.
  { intros other Hne.
    unfold getPaymentById, getAllPayments, updatePaymentStatus, getAllPayments.
    destruct (find (fun p => String.eqb (Payment.id p) paymentId) (Store.payments s))
      as [payment|] eqn:H; [|reflexivity].
    assert (Hid : String.eqb (Payment.id payment) paymentId = true)
      by apply (find_some _ _ H).
    assert (Hother : forall x, String.eqb (Payment.id x) paymentId = true ->
                               String.eqb (Payment.id x) other = false).
    { intros x Hx. apply String.eqb_eq in Hx. apply String.eqb_neq. congruence. }
    destruct (String.eqb status "verified" || String.eqb status "completed");
      [|destruct (String.eqb status "rejected"
                  && String.eqb (Payment.status payment) "verified")];
      cbn [fst snd Store.payments Store.with_payments];
      (apply find_assign_at_other; [payment_fields; apply Hother, Hid|exact Hother]). }
  split.
  { apply updatePaymentStatus_payment_ids. }
  intros Hstatus. apply orb_false_elim in Hstatus. destruct Hstatus as (Hvc & Hrej).
  unfold updatePaymentStatus, getAllPayments.
  destruct (find (fun p => String.eqb (Payment.id p) paymentId) (Store.payments s))
    as [payment|] eqn:H; [|split; reflexivity].
  rewrite Hvc, Hrej. cbn. split; reflexivity.
Qed.




(** ** What one ledger update does *)

(** X11. [updateBillStatus] on a stored bill returns the bill it
    stores. Its status is ['paid'] exactly when the paid amount equals
    the total, ['partial'] exactly when the paid amount is positive and
    below the total, and ['unpaid'] exactly when it is at most zero and
    below the total. The payment identifier is appended to the payments
    of the bill; identifier, tenant, month and total are kept. *)
Theorem updateBillStatus_outcome
    (s : Store.t) (billId : string) (paidAmount : Q) (paymentId : string)
    (bill : Bill.t) :
  getBillById s billId = Some bill ->
  let result := updateBillStatus s billId paidAmount paymentId in
  exists bill',
    fst result = Some bill'
    /\ getBillById (snd result) billId = Some bill'
    /\ (Bill.status bill' = "paid"%string
        <-> Bill.paid_amount bill' == Bill.total_amount bill')
    /\ (Bill.status bill' = "partial"%string
        <-> 0 < Bill.paid_amount bill'
            /\ Bill.paid_amount bill' < Bill.total_amount bill')
    /\ (Bill.status bill' = "unpaid"%string
        <-> Bill.paid_amount bill' <= 0
            /\ Bill.paid_amount bill' < Bill.total_amount bill')
    /\ Bill.payments bill' = Bill.payments bill ++ [paymentId]
    /\ Bill.id bill' = Bill.id bill
    /\ Bill.tenantId bill' = Bill.tenantId bill
    /\ Bill.month bill' = Bill.month bill
    /\ Bill.total_amount bill' = Bill.total_amount bill.
Proof.
  intros Hb. cbv zeta.
  destruct (updateBillStatus_found s billId paidAmount paymentId bill Hb)
    as (Hfst & Hfound & _).
  exists (applyBillPayment bill paidAmount paymentId).
  split; [exact Hfst|]. split; [exact Hfound|].
  destruct (applyBillPayment_key bill paidAmount paymentId) as (Hten & Hmon).
  rewrite (applyBillPayment_total bill paidAmount paymentId).
  rewrite (applyBillPayment_payments bill paidAmount paymentId).
  rewrite (applyBillPayment_id bill paidAmount paymentId).
  assert (Hirr : forall x y : Q, x < y -> x == y -> False).
  { intros x y Hlt Heq. rewrite Heq in Hlt. exact (Qlt_irrefl _ Hlt). }
  destruct (applyBillPayment_cases bill paidAmount paymentId)
    as [(Hle & Hpaid & Hst) | [(Hlt & Hpos & Hpaid & Hst) | (Hlt & Hneg & Hpaid & Hst)]];
    rewrite Hpaid, Hst.
  - split; [split; intros _; [apply Qeq_refl|reflexivity]|].
    split; [split; [discriminate|intros (_ & H); exfalso; exact (Qlt_irrefl _ H)]|].
    split; [split; [discriminate|intros (_ & H); exfalso; exact (Qlt_irrefl _ H)]|].
    auto.
  - split; [split; [discriminate|intros H; exfalso; exact (Hirr _ _ Hlt H)]|].
    split; [split; auto|].
    split; [split; [discriminate|intros (H & _); exfalso; exact (Qlt_not_le _ _ Hpos H)]|].
    auto.
  - split; [split; [discriminate|intros H; exfalso; exact (Hirr _ _ Hlt H)]|].
    split; [split; [discriminate|intros (H & _); exfalso; exact (Qlt_not_le _ _ H Hneg)]|].
    split; [split; auto|].
    auto.
Qed.

Lemma updateBillStatus_outcome_witness :
  let result := updateBillStatus with_bill "BILL-0001" 1000 "PAY-0001" in
  exists bill',
    fst result = Some bill'
    /\ getBillById (snd result) "BILL-0001" = Some bill'
    /\ (Bill.status bill' = "paid"%string
        <-> Bill.paid_amount bill' == Bill.total_amount bill')
    /\ (Bill.status bill' = "partial"%string
        <-> 0 < Bill.paid_amount bill'
            /\ Bill.paid_amount bill' < Bill.total_amount bill')
    /\ (Bill.status bill' = "unpaid"%string
        <-> Bill.paid_amount bill' <= 0
            /\ Bill.paid_amount bill' < Bill.total_amount bill')
    /\ Bill.payments bill' = Bill.payments march_bill ++ ["PAY-0001"%string]
    /\ Bill.id bill' = Bill.id march_bill
    /\ Bill.tenantId bill' = Bill.tenantId march_bill
    /\ Bill.month bill' = Bill.month march_bill
    /\ Bill.total_amount bill' = Bill.total_amount march_bill.
Proof.
  apply (updateBillStatus_outcome with_bill "BILL-0001" 1000 "PAY-0001" march_bill).
  vm_compute. reflexivity.
Defined.

(** X12. [updateBillStatus] answers [null] and writes nothing for an
    identifier no bill carries. Whatever the identifier, every other
    identifier finds the bill it found before, the bills keep their
    identifiers, tenants and months in the same order, and neither
    payments nor rent statuses are written. *)
Theorem updateBillStatus_frame
    (s : Store.t) (billId : string) (paidAmount : Q) (paymentId : string) :
  let result := updateBillStatus s billId paidAmount paymentId in
  (getBillById s billId = None -> result = (None, s))
  /\ (forall other, other <> billId ->
        getBillById (snd result) other = getBillById s other)
  /\ map Bill.id (getAllBills (snd result)) = map Bill.id (getAllBills s)
  /\ map (fun b => (Bill.tenantId b, Bill.month b)) (getAllBills (snd result))
     = map (fun b => (Bill.tenantId b, Bill.month b)) (getAllBills s)
  /\ Store.payments (snd result) = Store.payments s
  /\ Store.rent_statuses (snd result) = Store.rent_statuses s.
Proof.
  cbv zeta.
  split; [apply updateBillStatus_missing|].
  split.
  { intros other Hne. unfold getBillById, getAllBills, updateBillStatus, getAllBills.
    destruct (find (fun b => String.eqb (Bill.id b) billId) (Store.bills s))
      as [bill|] eqn:H; [|reflexivity].
    cbn [snd Store.bills Store.with_bills].
    assert (Hother : forall x, String.eqb (Bill.id x) billId = true ->
                               String.eqb (Bill.id x) other = false).
    { intros x Hx. apply String.eqb_eq in Hx. apply String.eqb_neq. congruence. }
    apply find_assign_at_other; [|exact Hother].
    rewrite applyBillPayment_id. apply Hother. apply (find_some _ _ H). }
  split; [exact (updateBillStatus_bill_ids s billId paidAmount paymentId)|].
  split; [exact (updateBillStatus_bill_keys s billId paidAmount paymentId)|].
  split; [apply updateBillStatus_payments|apply updateBillStatus_rent_statuses].
Qed.




(** ** Statistics and filters *)

Section Statistics.



End Statistics.


(** The amounts of [getPaymentStats] are binary64 sums in stored order
    and need not add up: with a pending 0.10, a verified 0.10 and a
    pending 0.40 the total amount is the binary64 number above 0.6
    while the paid and the pending amount add up to the one below. *)
Example getPaymentStats_amounts_not_additive :
  let payment status amount :=
    Payment.with_status (pending_payment "rent" None amount "") status in
  let s :=
    Store.with_payments empty
      [payment "pending"%string (1 # 10); payment "verified"%string (1 # 10);
       payment "pending"%string (4 # 10)] in
  let stats := getPaymentStats s in
  PaymentStats.totalAmount stats == 5404319552844596 # 9007199254740992
  /\ PaymentStats.paidAmount stats == Js.of_double (Js.to_double (1 # 10))
  /\ PaymentStats.pendingAmount stats == 1 # 2
  /\ Js.add (PaymentStats.paidAmount stats) (PaymentStats.pendingAmount stats)
     == 5404319552844595 # 9007199254740992.
Proof. cbv zeta. repeat split; vm_compute; reflexivity. Qed.

Section Search.






End Search.


(** ** Invariants of the ledger and of the identifiers *)

(** X16. In every store the scripts have built, whatever amounts the
    payments carried, the total and the paid amount of every bill and
    the paid amount of every rent status are whole cents; so is the
    amount a lookup of the bill or rent status of a payment gives. *)
Theorem ledger_amounts_whole_cents (s : Store.t) :
  Reach.reachable s ->
  (forall bill, In bill (getAllBills s) ->
     is_cents (Bill.total_amount bill) /\ is_cents (Bill.paid_amount bill))
  /\ (forall status, In status (getAllRentStatuses s) ->
        is_cents (RentStatus.paid_amount status))
  /\ (forall payment paid, target_paid_amount s payment = Some paid -> is_cents paid).
Proof.
  intros Hreach. destruct (reachable_ledger_cents s Hreach) as (Hb & Hr).
  split; [|split].
  - intros bill Hin. apply (proj1 (Forall_forall _ _) Hb) in Hin. tauto.
  - intros status Hin. exact (proj1 (Forall_forall _ _) Hr status Hin).
  - intros payment paid. apply reachable_target_cents. exact Hreach.
Qed.

Lemma ledger_amounts_whole_cents_witness :
  (forall bill, In bill (getAllBills with_completed_payment) ->
     is_cents (Bill.total_amount bill) /\ is_cents (Bill.paid_amount bill))
  /\ (forall status, In status (getAllRentStatuses with_completed_payment) ->
        is_cents (RentStatus.paid_amount status))
  /\ (forall payment paid,
        target_paid_amount with_completed_payment payment = Some paid ->
        is_cents paid).
Proof.
  apply (ledger_amounts_whole_cents with_completed_payment).
  apply Reach.reachable_step with (s := with_bill_payment);
    [exact reachable_with_bill_payment|].
  exact (Reach.step_updatePaymentStatus with_bill_payment env "PAY-0001" "completed" "").
Defined.

Lemma filter_drop_fresh {A : Type} (f : A -> string) (l : list A) (x : A) :
  ~ In (f x) (map f l) ->
  filter (fun y => negb (String.eqb (f y) (f x))) (l ++ [x]) = l.
Proof.
  intros Hfresh. rewrite filter_app. cbn. rewrite String.eqb_refl. cbn.
  rewrite app_nil_r. apply filter_all. intros y Hy.
  apply negb_true_iff, String.eqb_neq. intros E. apply Hfresh.
  rewrite <- E. apply in_map. exact Hy.
Qed.

(** X17. Payment identifiers are handed out again after a deletion. In
    a store the scripts have built, when [createBillPayment] has stored
    a payment and [deletePayment] removes it, the payments are those of
    before, no payment carries the identifier, and [generatePaymentId]
    answers that same identifier for the next payment. The bill is not
    restored: if the payment was created ['verified'], the bill still
    has the amount applied and lists the identifier among its payments. *)
Theorem deleted_payment_id_reused
    (s : Store.t) (env : Env.t) (paymentData : PaymentData.t)
    (tenant : Tenant.t) (billId : string) (bill : Bill.t) :
  Reach.reachable s ->
  getCurrentTenant s = Some tenant ->
  PaymentData.billId paymentData = Some billId ->
  getBillById s billId = Some bill ->
  exists payment,
    fst (createBillPayment s env paymentData) = Some payment
    /\ let s' :=
         snd (deletePayment (snd (createBillPayment s env paymentData))
                (Payment.id payment)) in
       getAllPayments s' = getAllPayments s
       /\ getPaymentById s' (Payment.id payment) = None
       /\ generatePaymentId s' = Payment.id payment
       /\ (Payment.status payment = "verified"%string ->
           getBillById s' billId
           = Some (applyBillPayment bill (Payment.amount payment) (Payment.id payment))
           /\ In (Payment.id payment)
                (Bill.payments
                   (applyBillPayment bill (Payment.amount payment)
                      (Payment.id payment)))).
Proof.
  intros Hreach Ht Hid Hb.
  destruct (createBillPayment_outcome s env paymentData tenant billId bill
              Hreach Ht Hid Hb)
    as (payment & Hfst & Hpay & _ & _ & Hbill & _).
  destruct (createBillPayment_payments s env paymentData tenant billId bill Ht Hid Hb)
    as (payment' & Hfst' & Hpid & _).
  rewrite Hfst in Hfst'. injection Hfst' as <-.
  exists payment. split; [exact Hfst|]. cbv zeta.
  assert (Hfresh : ~ In (Payment.id payment) (map Payment.id (getAllPayments s))).
  { rewrite Hpid. apply generated_payment_id_fresh. exact Hreach. }
  assert (Hdel : getAllPayments
                   (snd (deletePayment (snd (createBillPayment s env paymentData))
                           (Payment.id payment)))
                 = getAllPayments s).
  { unfold deletePayment. cbn [snd]. unfold getAllPayments at 1.
    cbn [Store.payments Store.with_payments]. rewrite Hpay.
    apply (filter_drop_fresh Payment.id). exact Hfresh. }
  split; [exact Hdel|].
  split.
  { unfold getPaymentById. rewrite Hdel.
    destruct (find _ (getAllPayments s)) as [y|] eqn:Hy; [|reflexivity].
    exfalso. destruct (find_some _ _ Hy) as (Hin & Heq).
    apply String.eqb_eq in Heq. apply Hfresh. rewrite <- Heq. apply in_map. exact Hin. }
  split.
  { unfold generatePaymentId. rewrite Hdel. symmetry. exact Hpid. }
  intros Hver. rewrite Hver in Hbill. cbn in Hbill.
  split.
  - rewrite <- Hbill. apply getBillById_ext. reflexivity.
  - rewrite applyBillPayment_payments. apply in_or_app. right. left. reflexivity.
Qed.

Lemma deleted_payment_id_reused_witness :
  exists payment,
    fst (createBillPayment with_bill env (pay (Some "BILL-0001"%string) 1000))
    = Some payment
    /\ let s' :=
         snd (deletePayment
                (snd (createBillPayment with_bill env
                        (pay (Some "BILL-0001"%string) 1000)))
                (Payment.id payment)) in
       getAllPayments s' = getAllPayments with_bill
       /\ getPaymentById s' (Payment.id payment) = None
       /\ generatePaymentId s' = Payment.id payment
       /\ (Payment.status payment = "verified"%string ->
           getBillById s' "BILL-0001"
           = Some (applyBillPayment march_bill (Payment.amount payment)
                     (Payment.id payment))
           /\ In (Payment.id payment)
                (Bill.payments
                   (applyBillPayment march_bill (Payment.amount payment)
                      (Payment.id payment)))).
Proof.
  apply (deleted_payment_id_reused with_bill env
           (pay (Some "BILL-0001"%string) 1000) (tenant_view alice)
           "BILL-0001" march_bill).
  - exact reachable_with_bill.
  - vm_compute. reflexivity.
  - reflexivity.
  - vm_compute. reflexivity.
Defined.

(** ** More on the payment period and the duplicate check *)

Section PeriodPayments.

Import PaymentStorage.
Import Period.

Lemma canMakePayment_ext s s' env paymentType :
  Store.session s' = Store.session s ->
  Store.tenants s' = Store.tenants s ->
  (forall tenantId period paymentType',
      paid_in_period s' tenantId period paymentType'
      = paid_in_period s tenantId period paymentType') ->
  canMakePayment s' env paymentType = canMakePayment s env paymentType.
Proof.
  intros Hs Ht Hpaid.
  assert (Htenant : getCurrentTenant s' = getCurrentTenant s).
  { unfold getCurrentTenant. rewrite Hs, Ht. reflexivity. }
  assert (Hperiod : getCurrentPaymentPeriod s' env = getCurrentPaymentPeriod s env).
  { unfold getCurrentPaymentPeriod. rewrite Htenant. reflexivity. }
  unfold canMakePayment. rewrite Htenant, Hperiod.
  destruct (getCurrentTenant s) as [tenant|]; [|reflexivity].
  destruct (getCurrentPaymentPeriod s env) as [period|]; [|reflexivity].
  rewrite !existsb_filter.
  pose proof (Hpaid (Tenant.id tenant) period "Monthly Rent"%string) as H1.
  pose proof (Hpaid (Tenant.id tenant) period "Utility Bills"%string) as H2.
  unfold paid_in_period in H1, H2. rewrite H1, H2. reflexivity.
Qed.



Lemma existsb_snoc {A : Type} (p : A -> bool) (l : list A) (x : A) :
  existsb p (l ++ [x]) = existsb p l || p x.
Proof. rewrite existsb_app. cbn. rewrite orb_false_r. reflexivity. Qed.

(** X19. A payment that [createPayment] stores with a status other than
    ['verified'] and ['completed'], as every payment is for which no
    status is given, changes no answer of [canMakePayment]: the
    duplicate check does not see pending payments, so it never keeps a
    tenant from submitting the same payment again before an
    administrator has verified one. *)
Theorem createPayment_unsettled_keeps_verdict
    (s : Store.t) (env env' : Env.t) (nextDueDate : string)
    (paymentData : PaymentData.t) (paymentType : string) :
  Js.or_else (PaymentData.status paymentData) "pending" <> "verified"%string ->
  Js.or_else (PaymentData.status paymentData) "pending" <> "completed"%string ->
  canMakePayment (snd (createPayment s env nextDueDate paymentData)) env' paymentType
  = canMakePayment s env' paymentType.
Proof.
  intros Hv Hc. unfold createPayment.
  destruct (getCurrentTenant s) as [tenant|]; [|reflexivity].
  cbn [snd]. apply canMakePayment_ext; [reflexivity|reflexivity|].
  intros tenantId period paymentType'. unfold paid_in_period, getAllPayments.
  cbn [Store.payments Store.with_payments]. rewrite existsb_snoc.
  unfold in_period at 2. cbn [Payment.status Payment.tenantId Payment.dueDate].
  apply String.eqb_neq in Hv. apply String.eqb_neq in Hc. rewrite Hv, Hc.
  cbn [orb]. rewrite andb_false_r. cbn [andb]. apply orb_false_r.
Qed.

Lemma createPayment_unsettled_keeps_verdict_witness :
  canMakePayment
    (snd (createPayment (store []) Example.env "2024-03-15"
            (PaymentData.mk None "gcash" None None None None None None None None None)))
    Example.env "Monthly Rent"
  = canMakePayment (store []) Example.env "Monthly Rent".
Proof.
  apply (createPayment_unsettled_keeps_verdict (store []) Example.env Example.env
           "2024-03-15"
           (PaymentData.mk None "gcash" None None None None None None None None None)
           "Monthly Rent").
  - vm_compute. discriminate.
  - vm_compute. discriminate.
Defined.

Lemma findIndex_nth (p : Payment.t -> bool) (l : list Payment.t) (i : nat) :
  Js.findIndex p l = Some i ->
  exists x, nth_error l i = Some x /\ find p l = Some x /\ p x = true.
Proof.
  revert i. induction l as [|a l IH]; intros i; cbn; [discriminate|].
  destruct (p a) eqn:Ha.
  - intros [= <-]. exists a. auto.
  - destruct (Js.findIndex p l) as [j|]; [|discriminate].
    intros [= <-]. destruct (IH j eq_refl) as (x & Hn & Hf & Hp).
    exists x. auto.
Qed.

Lemma existsb_set_nth (q : Payment.t -> bool) (l : list Payment.t) (i : nat)
    (x y : Payment.t) :
  nth_error l i = Some x -> q y = true -> existsb q (Js.set_nth l i y) = true.
Proof.
  revert i. induction l as [|a l IH]; intros [|i]; cbn; try discriminate.
  - intros _ ->. reflexivity.
  - intros Hn Hq. rewrite (IH i Hn Hq). apply orb_true_r.
Qed.

(** X20. Verification closes the period. A tenant is logged in and the
    period is known; a stored payment of the tenant is found by its
    identifier and its due date starts with the period. Once
    [updatePaymentStatus] has set it to ['verified'] or ['completed'],
    [canMakePayment] refuses the payment type of that payment when it
    is ['Monthly Rent'] or ['Utility Bills']. *)
Theorem settled_payment_closes_period
    (s : Store.t) (env env' : Env.t) (tenant : Tenant.t) (period : string)
    (paymentId status adminNotes : string) (payment : Payment.t) :
  getCurrentTenant s = Some tenant ->
  getCurrentPaymentPeriod s env = Some period ->
  getPaymentById s paymentId = Some payment ->
  Payment.tenantId payment = Tenant.id tenant ->
  Payment.dueDate payment <> ""%string ->
  String.prefix period (Payment.dueDate payment) = true ->
  status = "verified"%string \/ status = "completed"%string ->
  Payment.paymentType payment = "Monthly Rent"%string
  \/ Payment.paymentType payment = "Utility Bills"%string ->
  let s' := snd (updatePaymentStatus s env' paymentId status adminNotes) in
  Verdict.allowed (canMakePayment s' env (Payment.paymentType payment)) = false
  /\ exists reason,
       Verdict.reason (canMakePayment s' env (Payment.paymentType payment))
       = Some reason.
Proof.
  intros Ht Hp Hfind Hten Hdue Hprefix Hstatus Htype. cbv zeta.
  assert (Hsettled : String.eqb status "verified" || String.eqb status "completed"
                     = true).
  { destruct Hstatus as [-> | ->]; reflexivity. }
  unfold getPaymentById, getAllPayments in Hfind.
  destruct (findIndex_Some _ _ _ Hfind) as (i & Hi & Hn).
  assert (Hs' : snd (updatePaymentStatus s env' paymentId status adminNotes)
                = Store.with_payments s
                    (Js.set_nth (Store.payments s) i
                       (Payment.with_paidDate
                          (Payment.with_adminNotes (Payment.with_status payment status)
                             adminNotes)
                          (Some (Env.now_iso env'))))).
  { unfold updatePaymentStatus, getAllPayments. rewrite Hi, Hn, Hsettled. reflexivity. }
  rewrite Hs'.
  set (s' := Store.with_payments s _).
  assert (Ht' : getCurrentTenant s' = Some tenant) by exact Ht.
  assert (Hp' : getCurrentPaymentPeriod s' env = Some period) by exact Hp.
  assert (Hpaid : paid_in_period s' (Tenant.id tenant) period
                    (Payment.paymentType payment) = true).
  { unfold paid_in_period, getAllPayments. subst s'.
    cbn [Store.payments Store.with_payments].
    apply existsb_set_nth with (x := payment); [exact Hn|].
    unfold in_period, has_type, Payment.with_paidDate, Payment.with_adminNotes,
      Payment.with_status.
    cbn [Payment.tenantId Payment.status Payment.dueDate Payment.paymentType].
    rewrite Hten, Hsettled, Hprefix, !String.eqb_refl.
    unfold Js.truthy. apply String.eqb_neq in Hdue. rewrite Hdue. reflexivity. }
  unfold canMakePayment. rewrite Ht', Hp'. rewrite !existsb_filter.
  destruct Htype as [Hty | Hty]; rewrite Hty in Hpaid |- *;
    unfold paid_in_period in Hpaid; rewrite Hpaid; cbn.
  - split; [reflexivity|eexists; reflexivity].
  - split; [reflexivity|eexists; reflexivity].
Qed.

Lemma settled_payment_closes_period_witness :
  let payment :=
    Payment.with_status (verified "PAY-0001" "Monthly Rent" "2024-03-15") "pending" in
  let s' :=
    snd (updatePaymentStatus (store [payment]) Example.env "PAY-0001" "verified" "") in
  Verdict.allowed (canMakePayment s' Example.env (Payment.paymentType payment)) = false
  /\ exists reason,
       Verdict.reason (canMakePayment s' Example.env (Payment.paymentType payment))
       = Some reason.
Proof.
  apply (settled_payment_closes_period
           (store [Payment.with_status
                     (verified "PAY-0001" "Monthly Rent" "2024-03-15") "pending"])
           Example.env Example.env alice "2024-03" "PAY-0001" "verified" ""
           (Payment.with_status (verified "PAY-0001" "Monthly Rent" "2024-03-15")
              "pending")).
  - vm_compute. reflexivity.
  - vm_compute. reflexivity.
  - vm_compute. reflexivity.
  - reflexivity.
  - vm_compute. discriminate.
  - vm_compute. reflexivity.
  - left. reflexivity.
  - left. reflexivity.
Defined.

End PeriodPayments.

Section PeriodFrame.

Import PaymentStorage.
Import Period.

(** X21. [PaymentStorage.updatePaymentStatus] answers [null] and writes
    nothing for an identifier that is not stored. For a stored payment
    it returns and stores, at the same place, the payment with the new
    status and the admin notes; the paid date is set to the current
    time exactly for ['verified'] and ['completed'] and is kept
    otherwise, so a payment rejected after its verification keeps its
    paid date. Tenant, amount, type and due date are kept, every other
    identifier finds what it found before, and the number of payments
    does not change. *)
Theorem PaymentStorage_updatePaymentStatus_frame
    (s : Store.t) (env : Env.t) (paymentId status adminNotes : string) :
  let result := updatePaymentStatus s env paymentId status adminNotes in
  (getPaymentById s paymentId = None -> result = (None, s))
  /\ (forall payment,
        getPaymentById s paymentId = Some payment ->
        exists payment',
          fst result = Some payment'
          /\ getPaymentById (snd result) paymentId = Some payment'
          /\ Payment.status payment' = status
          /\ Payment.adminNotes payment' = adminNotes
          /\ Payment.paidDate payment'
             = (if String.eqb status "verified" || String.eqb status "completed"
                then Some (Env.now_iso env)
                else Payment.paidDate payment)
          /\ Payment.id payment' = Payment.id payment
          /\ Payment.tenantId payment' = Payment.tenantId payment
          /\ Payment.amount payment' = Payment.amount payment
          /\ Payment.paymentType payment' = Payment.paymentType payment
          /\ Payment.dueDate payment' = Payment.dueDate payment)
  /\ (forall other, other <> paymentId ->
        getPaymentById (snd result) other = getPaymentById s other)
  /\ List.length (getAllPayments (snd result)) = List.length (getAllPayments s).
Proof.
  cbv zeta. unfold getPaymentById, getAllPayments.
  split.
  { intros H. unfold updatePaymentStatus, getAllPayments.
    rewrite (findIndex_None _ _ H). reflexivity. }
  split.
  { intros payment H. destruct (findIndex_Some _ _ _ H) as (i & Hi & Hn).
    assert (Hid : String.eqb (Payment.id payment) paymentId = true)
      by apply (find_some _ _ H).
    unfold updatePaymentStatus, getAllPayments. rewrite Hi, Hn.
    cbn [fst snd Store.payments Store.with_payments].
    eexists. split; [reflexivity|].
    split.
    { change (Js.set_nth (Store.payments s) i ?y)
        with (Js.assign_at (Store.payments s) (Some i) y).
      rewrite <- Hi. apply find_assign_at_same with (z := payment); [|exact H].
      destruct (String.eqb status "verified" || String.eqb status "completed");
        exact Hid. }
    destruct (String.eqb status "verified" || String.eqb status "completed");
      repeat split. }
  split.
  { intros other Hne. unfold updatePaymentStatus, getAllPayments.
    destruct (Js.findIndex (fun p => String.eqb (Payment.id p) paymentId)
                (Store.payments s)) as [i|] eqn:Hi; [|reflexivity].
    destruct (findIndex_nth _ _ _ Hi) as (x & Hn & Hf & Hx).
    rewrite Hn. cbn [snd Store.payments Store.with_payments].
    assert (Hother : forall y, String.eqb (Payment.id y) paymentId = true ->
                               String.eqb (Payment.id y) other = false).
    { intros y Hy. apply String.eqb_eq in Hy. apply String.eqb_neq. congruence. }
    change (Js.set_nth (Store.payments s) i ?y)
      with (Js.assign_at (Store.payments s) (Some i) y).
    rewrite <- Hi. apply find_assign_at_other; [|exact Hother].
    destruct (String.eqb status "verified" || String.eqb status "completed");
      exact (Hother x Hx). }
  unfold updatePaymentStatus, getAllPayments.
  destruct (Js.findIndex _ _) as [i|]; [|reflexivity].
  destruct (nth_error _ _); [|reflexivity].
  cbn [snd Store.payments Store.with_payments]. apply set_nth_length.
Qed.





End PeriodFrame.

(** ** Escaping text for HTML and XML *)

Section Escaping.

Import UnitManagement.

(** The five characters the two functions replace. *)
Local Abbreviation special c :=
  (c = "&"%char \/ c = "<"%char \/ c = ">"%char \/ c = "034"%char \/ c = "'"%char).

Lemma list_ascii_app (a b : string) :
  list_ascii_of_string (a ++ b) = list_ascii_of_string a ++ list_ascii_of_string b.
Proof. induction a as [|c a IH]; cbn; [reflexivity|]. rewrite IH. reflexivity. Qed.

Ltac by_cases c :=
  repeat match goal with
         | |- context [Ascii.eqb c ?b] => destruct (Ascii.eqb_spec c b); [subst c|]
         end.

Lemma escapeHtml_char_safe (c x : ascii) :
  In x (list_ascii_of_string (escapeHtml_char c)) ->
  x <> "<"%char /\ x <> ">"%char /\ x <> "034"%char /\ x <> "'"%char.
Proof.
  unfold escapeHtml_char. by_cases c; cbn; intros H;
    repeat (destruct H as [<-|H]; [repeat split; congruence|]); destruct H.
Qed.

Lemma escapeXml_char_safe (c x : ascii) :
  In x (list_ascii_of_string (escapeXml_char c)) ->
  x <> "<"%char /\ x <> ">"%char /\ x <> "034"%char /\ x <> "'"%char.
Proof.
  unfold escapeXml_char. by_cases c; cbn; intros H;
    repeat (destruct H as [<-|H]; [repeat split; congruence|]); destruct H.
Qed.

Lemma escapeHtml_char_plain (c : ascii) :
  ~ special c -> escapeHtml_char c = String c EmptyString.
Proof.
  intros H. unfold escapeHtml_char. by_cases c; try reflexivity; exfalso; tauto.
Qed.

Lemma escapeXml_char_plain (c : ascii) :
  ~ special c -> escapeXml_char c = String c EmptyString.
Proof.
  intros H. unfold escapeXml_char. by_cases c; try reflexivity; exfalso; tauto.
Qed.

Lemma escapeHtml_app (a b : string) :
  escapeHtml (a ++ b) = (escapeHtml a ++ escapeHtml b)%string.
Proof.
  induction a as [|c a IH]; cbn; [reflexivity|].
  rewrite IH. unfold escapeHtml_char. by_cases c; reflexivity.
Qed.

Lemma escapeXml_app (a b : string) :
  escapeXml (a ++ b) = (escapeXml a ++ escapeXml b)%string.
Proof.
  induction a as [|c a IH]; cbn; [reflexivity|].
  rewrite IH. unfold escapeXml_char. by_cases c; reflexivity.
Qed.

Lemma escapeHtml_char_inj (c d : ascii) (r1 r2 : string) :
  (escapeHtml_char c ++ r1)%string = (escapeHtml_char d ++ r2)%string ->
  c = d /\ r1 = r2.
Proof.
  unfold escapeHtml_char. by_cases c; by_cases d; cbn; intros H;
    inversion H; subst; try congruence; auto.
Qed.

Lemma escapeXml_char_inj (c d : ascii) (r1 r2 : string) :
  (escapeXml_char c ++ r1)%string = (escapeXml_char d ++ r2)%string ->
  c = d /\ r1 = r2.
Proof.
  unfold escapeXml_char. by_cases c; by_cases d; cbn; intros H;
    inversion H; subst; try congruence; auto.
Qed.

Lemma escape_char_nonempty (c : ascii) :
  escapeHtml_char c <> EmptyString /\ escapeXml_char c <> EmptyString.
Proof.
  unfold escapeHtml_char, escapeXml_char. split; by_cases c; discriminate.
Qed.

End Escaping.

(** X23. The text [escapeHtml] returns has no angle bracket, no double
    quote and no apostrophe, and the same holds for [escapeXml]. Both
    return a text without any of the five characters they replace as it
    is, and both escape a concatenation piece by piece. *)
Theorem escaped_text_is_safe (s : string) :
  (forall x,
      In x (list_ascii_of_string (UnitManagement.escapeHtml s))
      \/ In x (list_ascii_of_string (UnitManagement.escapeXml s)) ->
      x <> "<"%char /\ x <> ">"%char /\ x <> "034"%char /\ x <> "'"%char)
  /\ ((forall c, In c (list_ascii_of_string s) ->
         c <> "&"%char /\ c <> "<"%char /\ c <> ">"%char /\ c <> "034"%char
         /\ c <> "'"%char) ->
      UnitManagement.escapeHtml s = s /\ UnitManagement.escapeXml s = s)
  /\ (forall t,
        UnitManagement.escapeHtml (s ++ t)
        = (UnitManagement.escapeHtml s ++ UnitManagement.escapeHtml t)%string
        /\ UnitManagement.escapeXml (s ++ t)
           = (UnitManagement.escapeXml s ++ UnitManagement.escapeXml t)%string).
Proof.
  split; [|split].
  - induction s as [|c s IH]; cbn [UnitManagement.escapeHtml UnitManagement.escapeXml].
    + intros x [[]|[]].
    + intros x. rewrite !list_ascii_app, !in_app_iff.
      intros [[H|H]|[H|H]].
      * exact (escapeHtml_char_safe c x H).
      * apply IH. left. exact H.
      * exact (escapeXml_char_safe c x H).
      * apply IH. right. exact H.
  - induction s as [|c s IH]; [split; reflexivity|].
    intros H. cbn [UnitManagement.escapeHtml UnitManagement.escapeXml].
    assert (Hc : ~ (c = "&"%char \/ c = "<"%char \/ c = ">"%char \/ c = "034"%char
                    \/ c = "'"%char)).
    { specialize (H c (or_introl eq_refl)). tauto. }
    rewrite (escapeHtml_char_plain c Hc), (escapeXml_char_plain c Hc).
    destruct IH as (-> & ->); [|split; reflexivity].
    intros d Hd. apply H. right. exact Hd.
  - intros t. split; [apply escapeHtml_app|apply escapeXml_app].
Qed.

(** X24. Escaping loses nothing: [escapeHtml] and [escapeXml] give
    different texts for different texts, so the text that was escaped
    can be read back from the result. *)
Theorem escaping_is_injective (s t : string) :
  (UnitManagement.escapeHtml s = UnitManagement.escapeHtml t -> s = t)
  /\ (UnitManagement.escapeXml s = UnitManagement.escapeXml t -> s = t).
Proof.
  split.
  - revert t. induction s as [|c s IH]; intros [|d t]; cbn; intros H.
    + reflexivity.
    + exfalso. destruct (escape_char_nonempty d) as (Hd & _).
      destruct (UnitManagement.escapeHtml_char d); [congruence|discriminate].
    + exfalso. destruct (escape_char_nonempty c) as (Hc & _).
      destruct (UnitManagement.escapeHtml_char c); [congruence|discriminate].
    + destruct (escapeHtml_char_inj c d _ _ H) as (-> & Hr).
      rewrite (IH t Hr). reflexivity.
  - revert t. induction s as [|c s IH]; intros [|d t]; cbn; intros H.
    + reflexivity.
    + exfalso. destruct (escape_char_nonempty d) as (_ & Hd).
      destruct (UnitManagement.escapeXml_char d); [congruence|discriminate].
    + exfalso. destruct (escape_char_nonempty c) as (_ & Hc).
      destruct (UnitManagement.escapeXml_char c); [congruence|discriminate].
    + destruct (escapeXml_char_inj c d _ _ H) as (-> & Hr).
      rewrite (IH t Hr). reflexivity.
Qed.

(** ** New bills, identifiers and due dates *)

Lemma find_app_Some {A : Type} (p : A -> bool) (l l' : list A) (x : A) :
  find p l = Some x -> find p (l ++ l') = Some x.
Proof.
  induction l as [|a l IH]; cbn; [discriminate|].
  destruct (p a); [auto|exact IH].
Qed.

Lemma next_id_greatest letters ids :
  Reach.dashless letters = true -> Forall Reach.numbered ids ->
  exists n,
    id_number (next_id letters ids) = Some n
    /\ Forall (fun id => exists k, id_number id = Some k /\ (0 <= k < n)%Z) ids
    /\ (ids = [] -> n = 1%Z).
Proof.
  intros Hl Hall. unfold next_id.
  destruct ids as [|id ids].
  - cbn [option_map Js.string_of_num]. exists 1%Z.
    split; [apply (id_number_generated letters (0 + 1) Hl); lia|].
    split; [constructor|reflexivity].
  - destruct (math_max_numbered (id :: ids) Hall ltac:(discriminate))
      as (m & Em & Hm & Hle).
    rewrite Em. cbn [option_map Js.string_of_num]. exists (m + 1)%Z.
    split; [apply id_number_generated; [exact Hl|lia]|].
    split; [|discriminate].
    rewrite Forall_forall in *. intros x Hx.
    destruct (Hle x Hx) as (k & Ek & Hk). destruct (Hall x Hx) as (k' & Hk' & Ek').
    exists k. split; [exact Ek|]. rewrite Ek in Ek'. injection Ek' as <-. lia.
Qed.

(** X25. In a store the scripts have built, the number in the
    identifier that [generatePaymentId], [generateBillId] and
    [generateRentStatusId] answer is greater than the number in every
    stored identifier of its list, so the identifier is in use by
    none of them; with an empty list the number is 1. *)
Theorem generated_ids_are_greatest (s : Store.t) :
  Reach.reachable s ->
  let greatest (id : string) (ids : list string) :=
    exists n,
      id_number id = Some n
      /\ Forall (fun stored => exists k, id_number stored = Some k /\ (0 <= k < n)%Z) ids
      /\ (ids = [] -> n = 1%Z)
      /\ ~ In id ids in
  greatest (generatePaymentId s) (map Payment.id (getAllPayments s))
  /\ greatest (generateBillId s) (map Bill.id (getAllBills s))
  /\ greatest (generateRentStatusId s) (map RentStatus.id (getAllRentStatuses s)).
Proof.
  intros Hreach. cbv zeta.
  destruct (reachable_payments_wf s Hreach) as (_ & Hp).
  destruct (reachable_bills_wf s Hreach) as ((_ & Hb) & _).
  destruct (reachable_rents_wf s Hreach) as ((_ & Hr) & _).
  unfold generatePaymentId, generateBillId, generateRentStatusId.
  split; [|split].
  - destruct (next_id_greatest "PAY" _ eq_refl Hp) as (n & Hn & Hall & H1).
    exists n. repeat split; try assumption.
    exact (proj2 (next_id_fresh "PAY" _ eq_refl Hp)).
  - destruct (next_id_greatest "BILL" _ eq_refl Hb) as (n & Hn & Hall & H1).
    exists n. repeat split; try assumption.
    exact (proj2 (next_id_fresh "BILL" _ eq_refl Hb)).
  - destruct (next_id_greatest "RENT" _ eq_refl Hr) as (n & Hn & Hall & H1).
    exists n. repeat split; try assumption.
    exact (proj2 (next_id_fresh "RENT" _ eq_refl Hr)).
Qed.

Lemma generated_ids_are_greatest_witness :
  let greatest (id : string) (ids : list string) :=
    exists n,
      id_number id = Some n
      /\ Forall (fun stored => exists k, id_number stored = Some k /\ (0 <= k < n)%Z) ids
      /\ (ids = [] -> n = 1%Z)
      /\ ~ In id ids in
  greatest (generatePaymentId with_bill_payment)
    (map Payment.id (getAllPayments with_bill_payment))
  /\ greatest (generateBillId with_bill_payment)
       (map Bill.id (getAllBills with_bill_payment))
  /\ greatest (generateRentStatusId with_bill_payment)
       (map RentStatus.id (getAllRentStatuses with_bill_payment)).
Proof.
  apply (generated_ids_are_greatest with_bill_payment).
  exact reachable_with_bill_payment.
Defined.

(** X26. In a store the scripts have built, [generateBill] for a tenant
    and month without a bill appends one bill and changes no other: the
    new bill carries the generated identifier, which no stored bill
    has, nothing paid, status ['unpaid'], no payments, the current time
    as creation date and the due date of the month. It is found by its
    identifier and by tenant and month afterwards, every bill that was
    found by an identifier is still found by it, and payments and rent
    statuses are not written. *)
Theorem generateBill_new
    (s : Store.t) (env : Env.t) (tenantId month : string)
    (electricity_kwh water_cubic : Q) :
  Reach.reachable s ->
  getBillForMonth s tenantId month = None ->
  let bill := fst (generateBill s env tenantId month electricity_kwh water_cubic) in
  let s' := snd (generateBill s env tenantId month electricity_kwh water_cubic) in
  getAllBills s' = getAllBills s ++ [bill]
  /\ Bill.id bill = generateBillId s
  /\ ~ In (Bill.id bill) (map Bill.id (getAllBills s))
  /\ getBillById s' (Bill.id bill) = Some bill
  /\ getBillForMonth s' tenantId month = Some bill
  /\ (forall billId stored,
        getBillById s billId = Some stored -> getBillById s' billId = Some stored)
  /\ (Bill.tenantId bill = tenantId
      /\ Bill.month bill = month
      /\ Bill.paid_amount bill = 0
      /\ Bill.status bill = "unpaid"%string
      /\ Bill.payments bill = []
      /\ Bill.createdDate bill = Env.now_iso env
      /\ Bill.dueDate bill = getBillDueDate month)
  /\ Store.payments s' = Store.payments s
  /\ Store.rent_statuses s' = Store.rent_statuses s.
Proof.
  intros Hreach Hnone. cbv zeta.
  destruct (reachable_bills_wf s Hreach) as ((_ & Hnum) & _).
  pose proof (proj2 (next_id_fresh "BILL" _ eq_refl Hnum)) as Hfresh.
  pose proof (generateBill_stored s env tenantId month electricity_kwh water_cubic)
    as Hstored.
  unfold getBillForMonth, getAllBills in Hnone.
  unfold generateBill in *. unfold getAllBills in *. rewrite Hnone in *.
  cbn [fst snd Store.bills Store.with_bills Store.payments Store.rent_statuses
       Bill.id Bill.tenantId Bill.month Bill.paid_amount Bill.status Bill.payments
       Bill.createdDate Bill.dueDate] in *.
  split; [reflexivity|]. split; [reflexivity|].
  split; [exact Hfresh|].
  split.
  { unfold getBillById, getAllBills. cbn [Store.bills].
    match goal with
    | |- _ = Some ?b => exact (find_fresh_id Bill.id (Store.bills s) b Hfresh)
    end. }
  split; [exact Hstored|].
  split.
  { intros billId stored H. unfold getBillById, getAllBills in *. cbn [Store.bills].
    apply find_app_Some. exact H. }
  repeat split.
Qed.

Lemma generateBill_new_witness :
  let bill := fst (generateBill with_bill env "alice" "2024-04" 100 8) in
  let s' := snd (generateBill with_bill env "alice" "2024-04" 100 8) in
  getAllBills s' = getAllBills with_bill ++ [bill]
  /\ Bill.id bill = generateBillId with_bill
  /\ ~ In (Bill.id bill) (map Bill.id (getAllBills with_bill))
  /\ getBillById s' (Bill.id bill) = Some bill
  /\ getBillForMonth s' "alice" "2024-04" = Some bill
  /\ (forall billId stored,
        getBillById with_bill billId = Some stored ->
        getBillById s' billId = Some stored)
  /\ (Bill.tenantId bill = "alice"%string
      /\ Bill.month bill = "2024-04"%string
      /\ Bill.paid_amount bill = 0
      /\ Bill.status bill = "unpaid"%string
      /\ Bill.payments bill = []
      /\ Bill.createdDate bill = Env.now_iso env
      /\ Bill.dueDate bill = getBillDueDate "2024-04")
  /\ Store.payments s' = Store.payments with_bill
  /\ Store.rent_statuses s' = Store.rent_statuses with_bill.
Proof.
  apply (generateBill_new with_bill env "alice" "2024-04" 100 8).
  - exact reachable_with_bill.
  - vm_compute. reflexivity.
Defined.

Lemma split_dashless (t : string) (cur : string) :
  Reach.dashless t = true -> Js.split_aux "-" t cur = [(cur ++ t)%string].
Proof.
  revert cur. induction t as [|c t IH]; intros cur; cbn.
  - intros _. f_equal. induction cur; cbn; congruence.
  - intros H. apply andb_prop in H. destruct H as [Hc Ht].
    apply negb_true_iff in Hc. rewrite Hc, (IH _ Ht). f_equal.
    induction cur; cbn; congruence.
Qed.

(** X27. For a month written as year, dash and month number,
    [getBillDueDate] answers the 15th and [getRentDueDate] the 1st of
    that month, and the month [getCurrentMonth] answers is of that
    form in every year from 0 on. Nothing checks the form: for a text
    without a dash both put [undefined] where the month number
    belongs. *)
Theorem due_dates_of_month (year monthNum : string) :
  Reach.dashless year = true ->
  Reach.dashless monthNum = true ->
  getBillDueDate (year ++ "-" ++ monthNum) = (year ++ "-" ++ monthNum ++ "-15")%string
  /\ getRentDueDate (year ++ "-" ++ monthNum) = (year ++ "-" ++ monthNum ++ "-01")%string
  /\ getBillDueDate year = (year ++ "-undefined-15")%string
  /\ getRentDueDate year = (year ++ "-undefined-01")%string
  /\ (forall env,
        (0 <= Env.today_year env)%Z -> (0 <= Env.today_month env)%Z ->
        getBillDueDate (getCurrentMonth env) = (getCurrentMonth env ++ "-15")%string
        /\ getRentDueDate (getCurrentMonth env) = (getCurrentMonth env ++ "-01")%string).
Proof.
  intros Hy Hm.
  assert (Hsplit : forall y m, Reach.dashless y = true -> Reach.dashless m = true ->
                     Js.split "-" (y ++ "-" ++ m) = [y; m]).
  { intros y m Hy' Hm'. unfold Js.split. cbn [append].
    rewrite (split_aux_dashless y m "" Hy'). cbn [append].
    rewrite (split_dashless m "" Hm'). reflexivity. }
  assert (Hone : Js.split "-" year = [year]).
  { unfold Js.split. rewrite (split_dashless year "" Hy). reflexivity. }
  assert (Hassoc : forall a b c : string, ((a ++ b) ++ c = a ++ b ++ c)%string).
  { intros a b c. induction a as [|x a IH]; cbn; [reflexivity|]. rewrite IH. reflexivity. }
  assert (Hdigits : forall t, Reach.all_digits t = true -> Reach.dashless t = true).
  { induction t as [|c t IH]; cbn; [reflexivity|]. intros H.
    apply andb_prop in H. destruct H as (Hc & Ht).
    rewrite (digit_is_not_dash c Hc), (IH Ht). reflexivity. }
  unfold getBillDueDate, getRentDueDate.
  rewrite (Hsplit year monthNum Hy Hm), Hone. cbn [Js.show_nth nth_error].
  split; [reflexivity|]. split; [reflexivity|].
  split; [reflexivity|]. split; [reflexivity|].
  intros env Hyear Hmonth. unfold getCurrentMonth.
  rewrite Hsplit.
  - cbn [Js.show_nth nth_error]. rewrite !Hassoc. split; reflexivity.
  - apply Hdigits, all_digits_string_of_Z. exact Hyear.
  - apply Hdigits. unfold Js.padStart0.
    apply all_digits_app; [apply all_digits_zeros|].
    apply all_digits_string_of_Z. lia.
Qed.

Lemma due_dates_of_month_witness :
  getBillDueDate ("2024" ++ "-" ++ "03") = ("2024" ++ "-" ++ "03" ++ "-15")%string
  /\ getRentDueDate ("2024" ++ "-" ++ "03") = ("2024" ++ "-" ++ "03" ++ "-01")%string
  /\ getBillDueDate "2024" = ("2024" ++ "-undefined-15")%string
  /\ getRentDueDate "2024" = ("2024" ++ "-undefined-01")%string
  /\ (forall env,
        (0 <= Env.today_year env)%Z -> (0 <= Env.today_month env)%Z ->
        getBillDueDate (getCurrentMonth env) = (getCurrentMonth env ++ "-15")%string
        /\ getRentDueDate (getCurrentMonth env) = (getCurrentMonth env ++ "-01")%string).
Proof.
  apply (due_dates_of_month "2024" "03"); reflexivity.
Defined.

(** X28. [clearAllData] empties the three lists and keeps the rates:
    afterwards no payment, bill or rent status is found, the
    statistics are all zero, the store is one the scripts have built,
    and the identifiers start again at [PAY-0001], [BILL-0001] and
    [RENT-0001], whatever was stored before. *)
Theorem clearAllData_resets (s : Store.t) :
  let s' := clearAllData s in
  getAllPayments s' = [] /\ getAllBills s' = [] /\ getAllRentStatuses s' = []
  /\ getUtilityRates s' = getUtilityRates s
  /\ getCurrentTenant s' = getCurrentTenant s
  /\ getPaymentStats s' = PaymentStats.mk 0 0 0 0 0 0 0
  /\ generatePaymentId s' = "PAY-0001"%string
  /\ generateBillId s' = "BILL-0001"%string
  /\ generateRentStatusId s' = "RENT-0001"%string
  /\ Reach.reachable s'.
Proof.
  cbv zeta. repeat (split; [reflexivity|]).
  apply Reach.reachable_initial. repeat split.
Qed.

(** ** Listings by tenant *)

(** X29. The listings by tenant give the stored entries of the tenant
    in their stored order. [getTenantBills] and [getTenantRentHistory]
    compare the tenant identifier as it is given; [getTenantPayments]
    first looks the tenant up among the tenants and answers nothing for
    an identifier no tenant has, also when payments of that tenant are
    stored. Without an identifier it lists the payments of the tenant
    who is logged in. *)
Theorem tenant_listings (s : Store.t) (tenantId : string) :
  tenantId <> ""%string ->
  (forall p,
      In p (getTenantPayments s (Some tenantId)) <->
      In p (getAllPayments s) /\ Payment.tenantId p = tenantId
      /\ In tenantId (map TenantRec.username (Store.tenants s)))
  /\ (forall b,
        In b (getTenantBills s tenantId) <->
        In b (getAllBills s) /\ Bill.tenantId b = tenantId)
  /\ (forall r,
        In r (getTenantRentHistory s tenantId) <->
        In r (getAllRentStatuses s) /\ RentStatus.tenantId r = tenantId)
  /\ (exists keep, getTenantPayments s (Some tenantId) = filter keep (getAllPayments s))
  /\ (forall tenant,
        getCurrentTenant s = Some tenant ->
        getTenantPayments s None = getTenantPayments s (Some (Tenant.id tenant)))
  /\ (getCurrentTenant s = None -> getTenantPayments s None = []).
Proof.
  intros Hne.
  assert (Htruthy : Js.truthy tenantId = true).
  { unfold Js.truthy. apply negb_true_iff, String.eqb_neq. exact Hne. }
  split.
  { intros p. unfold getTenantPayments, getCurrentTenantById. rewrite Htruthy.
    destruct (find (fun t => String.eqb (TenantRec.username t) tenantId)
                (Store.tenants s)) as [t|] eqn:Hfind; cbn [option_map].
    - destruct (find_some _ _ Hfind) as (Hin & Heq). apply String.eqb_eq in Heq.
      cbn [tenant_view Tenant.id]. rewrite Heq, filter_In, String.eqb_eq.
      split; [intros (H1 & H2); repeat split; try assumption|tauto].
      rewrite <- Heq. apply in_map. exact Hin.
    - split; [intros []|]. intros (_ & _ & Hin). apply in_map_iff in Hin.
      destruct Hin as (t & Ht & Hin). apply (find_none _ _ Hfind) in Hin.
      apply String.eqb_neq in Hin. contradiction. }
  split.
  { intros b. unfold getTenantBills. rewrite filter_In, String.eqb_eq. tauto. }
  split.
  { intros r. unfold getTenantRentHistory. rewrite filter_In, String.eqb_eq. tauto. }
  split.
  { unfold getTenantPayments. rewrite Htruthy.
    destruct (getCurrentTenantById s tenantId) as [t|].
    - eexists. reflexivity.
    - exists (fun _ => false). symmetry. apply filter_none. reflexivity. }
  split.
  { intros tenant Ht. unfold getTenantPayments.
    destruct (Js.truthy (Tenant.id tenant)) eqn:E; [|reflexivity].
    rewrite Ht. unfold getCurrentTenant in Ht.
    destruct (Store.session s) as [username|]; [|discriminate].
    unfold getCurrentTenantById in *.
    destruct (find (fun t => String.eqb (TenantRec.username t) username)
                (Store.tenants s)) as [t|] eqn:Hfind; [|discriminate].
    cbn [option_map] in Ht. injection Ht as <-.
    destruct (find_some _ _ Hfind) as (_ & Heq). apply String.eqb_eq in Heq.
    cbn [tenant_view Tenant.id]. rewrite Heq, Hfind.
    cbn [option_map tenant_view Tenant.id]. rewrite Heq. reflexivity. }
  intros Hnone. unfold getTenantPayments. rewrite Hnone. reflexivity.
Qed.

Lemma tenant_listings_witness :
  (forall p,
      In p (getTenantPayments with_bill_payment (Some "alice"%string)) <->
      In p (getAllPayments with_bill_payment) /\ Payment.tenantId p = "alice"%string
      /\ In "alice"%string (map TenantRec.username (Store.tenants with_bill_payment)))
  /\ (forall b,
        In b (getTenantBills with_bill_payment "alice") <->
        In b (getAllBills with_bill_payment) /\ Bill.tenantId b = "alice"%string)
  /\ (forall r,
        In r (getTenantRentHistory with_bill_payment "alice") <->
        In r (getAllRentStatuses with_bill_payment)
        /\ RentStatus.tenantId r = "alice"%string)
  /\ (exists keep,
        getTenantPayments with_bill_payment (Some "alice"%string)
        = filter keep (getAllPayments with_bill_payment))
  /\ (forall tenant,
        getCurrentTenant with_bill_payment = Some tenant ->
        getTenantPayments with_bill_payment None
        = getTenantPayments with_bill_payment (Some (Tenant.id tenant)))
  /\ (getCurrentTenant with_bill_payment = None ->
      getTenantPayments with_bill_payment None = []).
Proof.
  apply (tenant_listings with_bill_payment "alice"). discriminate.
Defined.

Section PeriodStore.

Import PaymentStorage.
Import Period.



End PeriodStore.
